(** * PIC: a shallow embedding of the decision core

    This development embeds the decision pipeline of the PIC repository
    (package [pic], directories [brain], [models], [storage], [crypto]) and
    proves properties of it.

    Conventions of the embedding.
    - A Python [float] is an exact rational ([Q]); rounding is not modelled.
      Comparisons are the boolean ones of [Q], so every definition computes.
    - A Python [str] is a [string], the bytes of its UTF-8 image; [bytes]
      obtained by [.encode()] are the same [string].  A [str] is ASCII when
      each of these bytes is below 128; a [str] without UTF-8 image (a lone
      surrogate) is no value of the model.
    - A naive [datetime] is a number of microseconds on the time line ([Z]);
      a [time.time()] reading is a rational number of seconds.
    - A reading of the clock is an explicit argument of the operation that
      reads it, one argument per call of [datetime.now()] / [time.time()].
    - A call that may raise returns an [outcome]: [Ok v] or [Raise exn];
      the state a raising call leaves behind is not modelled.
    - Functions of the Python runtime that the repository calls but does not
      define (HMAC-SHA256, MD5, [json], [isoformat], [math.sqrt], number
      formatting) are fields of the class [Runtime].
    - A field typed [Any] holds a value of the type [json] below; the fields
      typed [float] hold rationals, so [nan] occurs inside [Any] values only.
      The identity of objects is not modelled: [nan] is equal to no value. *)

From Stdlib Require Import ZArith QArith Qabs Qround Lqa Lia List Ascii String Bool.
From Stdlib Require Import Sorting.Mergesort Sorting.Sorted Sorting.Permutation Orders.
From stdpp Require Import gmap strings list fin_maps countable pretty.

Set Warnings "-register-all".
Open Scope Q_scope.

(* ===================================================================== *)
(** * Part I: the program                                                 *)
(* ===================================================================== *)

(** ** Python builtins on numbers *)

(** [min(a, b)]: the first of the smallest arguments. *)
Definition py_min (a b : Q) : Q := if Qle_bool a b then a else b.

(** [max(a, b)]: the first of the largest arguments. *)
Definition py_max (a b : Q) : Q := if Qle_bool b a then a else b.

(** [abs(x)] *)
Definition py_abs (x : Q) : Q := if Qle_bool 0 x then x else - x.

(** [x < y] on floats *)
Definition Qlt_bool (x y : Q) : bool := negb (Qle_bool y x).

(** ** Exceptions *)

Inductive outcome (A : Type) : Type :=
| Ok (a : A)
| Raise (exn : string).

Arguments Ok {A} a.
Arguments Raise {A} exn.

Definition bind {A B : Type} (r : outcome A) (k : A -> outcome B) : outcome B :=
  match r with
  | Ok a => k a
  | Raise exn => Raise exn
  end.

Notation "'do' x <- r ; k" := (bind r (fun x => k))
  (at level 10, x pattern, r at level 100, k at level 200).

(** ** Values of the fields typed [Any]

    Values that [json.dumps] accepts, with and without [sort_keys]: [None],
    booleans, integers, floats (a rational, or [nan]), strings, lists,
    tuples, dictionaries with string keys and dictionaries with integer
    keys.  [json.loads] returns the values built without [JTuple] and
    [JIntDict]: these are the values that JSON has, up to [nan].  Other
    Python objects are no values of this type: sets, bytes and the like, on
    which [json.dumps] raises, and dictionaries whose keys are floats,
    booleans or [None] or are of several types, whose keys [json.dumps]
    writes as strings too.  Integers are unbounded: the limit of the
    interpreter on the digits of an integer in a text is not modelled. *)

Inductive json : Type :=
| JNull
| JBool (b : bool)
| JInt (z : Z)
| JFloat (q : Q)
| JNaN
| JStr (s : string)
| JList (l : list json)
| JTuple (l : list json)
| JDict (d : list (string * json))
| JIntDict (d : list (Z * json)).

(** Induction on JSON values through the lists they nest. *)
Section JsonInduction.
Variable P : json -> Prop.
Hypothesis HNull : P JNull.
Hypothesis HBool : forall b, P (JBool b).
Hypothesis HInt : forall z, P (JInt z).
Hypothesis HFloat : forall q, P (JFloat q).
Hypothesis HNaN : P JNaN.
Hypothesis HStr : forall s, P (JStr s).
Hypothesis HList : forall l, Forall P l -> P (JList l).
Hypothesis HTuple : forall l, Forall P l -> P (JTuple l).
Hypothesis HDict : forall d, Forall (fun kv => P (snd kv)) d -> P (JDict d).
Hypothesis HIntDict : forall d, Forall (fun kv => P (snd kv)) d -> P (JIntDict d).

Fixpoint json_nested_ind (v : json) : P v :=
  match v with
  | JNull => HNull
  | JBool b => HBool b
  | JInt z => HInt z
  | JFloat q => HFloat q
  | JNaN => HNaN
  | JStr s => HStr s
  | JList l =>
      HList l ((fix go (l : list json) : Forall P l :=
                  match l with
                  | [] => @List.Forall_nil json P
                  | x :: l' => @List.Forall_cons json P x l' (json_nested_ind x) (go l')
                  end) l)
  | JTuple l =>
      HTuple l ((fix go (l : list json) : Forall P l :=
                   match l with
                   | [] => @List.Forall_nil json P
                   | x :: l' => @List.Forall_cons json P x l' (json_nested_ind x) (go l')
                   end) l)
  | JDict d =>
      HDict d ((fix go (d : list (string * json)) : Forall (fun kv => P (snd kv)) d :=
                  match d with
                  | [] => @List.Forall_nil (string * json) _
                  | kv :: d' => @List.Forall_cons (string * json) _ kv d' (json_nested_ind (snd kv)) (go d')
                  end) d)
  | JIntDict d =>
      HIntDict d ((fix go (d : list (Z * json)) : Forall (fun kv => P (snd kv)) d :=
                     match d with
                     | [] => @List.Forall_nil (Z * json) _
                     | kv :: d' => @List.Forall_cons (Z * json) _ kv d' (json_nested_ind (snd kv)) (go d')
                     end) d)
  end.
End JsonInduction.

(** A Python [dict] with string keys, in insertion order. *)
Definition pydict (V : Type) : Type := list (string * V).

Fixpoint dict_get {V} (d : pydict V) (k : string) : option V :=
  match d with
  | [] => None
  | (k', v) :: d' => if String.eqb k' k then Some v else dict_get d' k
  end.

Definition dict_mem {V} (d : pydict V) (k : string) : bool :=
  match dict_get d k with Some _ => true | None => false end.

(** [d[k] = v]: an existing key keeps its position, a new key goes last. *)
Fixpoint dict_set {V} (d : pydict V) (k : string) (v : V) : pydict V :=
  match d with
  | [] => [(k, v)]
  | (k', v') :: d' =>
      if String.eqb k' k then (k', v) :: d' else (k', v') :: dict_set d' k v
  end.

(** [del d[k]] (the caller has checked that the key is present). *)
Fixpoint dict_del {V} (d : pydict V) (k : string) : pydict V :=
  match d with
  | [] => []
  | (k', v') :: d' =>
      if String.eqb k' k then d' else (k', v') :: dict_del d' k
  end.

Definition dict_keys {V} (d : pydict V) : list string := map fst d.

(** [d.get(k)] on a dictionary with integer keys *)
Fixpoint int_dict_get {V} (d : list (Z * V)) (k : Z) : option V :=
  match d with
  | [] => None
  | (k', v) :: d' => if (k' =? k)%Z then Some v else int_dict_get d' k
  end.

(** ** What [json.loads] returns for the document of a value

    [json.dumps] writes a tuple as a list and an integer key as the string
    of its decimal digits; [json.loads] reads lists and string keys, a later
    item replacing an earlier one of the same key. *)
Fixpoint json_normal (v : json) : json :=
  match v with
  | JList l => JList (map json_normal l)
  | JTuple l => JList (map json_normal l)
  | JDict d => JDict (map (fun kv => (fst kv, json_normal (snd kv))) d)
  | JIntDict d =>
      JDict (fold_left (fun acc kv => dict_set acc (fst kv) (snd kv))
               (map (fun kv => (pretty (fst kv), json_normal (snd kv))) d) [])
  | _ => v
  end.

(** The values that [json.loads] returns as they were written and that are
    equal to themselves: no tuple, no integer key, no [nan]. *)
Fixpoint json_native (v : json) : bool :=
  match v with
  | JNaN | JTuple _ | JIntDict _ => false
  | JList l => forallb json_native l
  | JDict d => forallb (fun kv => json_native (snd kv)) d
  | _ => true
  end.

(** ** [collections.deque] with a bound *)

(** [deque.append] on a deque bounded by [maxlen]: a full deque discards its
    oldest item, a deque of bound 0 stays empty. *)
Definition deque_append {A} (maxlen : Z) (q : list A) (x : A) : list A :=
  if (maxlen =? 0)%Z then q
  else if (maxlen <=? Z.of_nat (length q))%Z then tl q ++ [x]
  else q ++ [x].

(** ** Python builtins on strings *)

(** [c.isspace()] for an ASCII character *)
Definition is_space (c : ascii) : bool :=
  let n := nat_of_ascii c in
  (Nat.eqb n 32 || (Nat.leb 9 n && Nat.leb n 13) || (Nat.leb 28 n && Nat.leb n 31))%bool.

Fixpoint py_lstrip (s : string) : string :=
  match s with
  | EmptyString => EmptyString
  | String c s' => if is_space c then py_lstrip s' else s
  end.

Fixpoint py_rstrip (s : string) : string :=
  match s with
  | EmptyString => EmptyString
  | String c s' =>
      match py_rstrip s' with
      | EmptyString => if is_space c then EmptyString else String c EmptyString
      | r => String c r
      end
  end.

(** [s.strip()] *)
Definition py_strip (s : string) : string := py_rstrip (py_lstrip s).

(** [not s] *)
Definition str_is_empty (s : string) : bool :=
  match s with EmptyString => true | _ => false end.

(** [s.isascii()] *)
Fixpoint is_ascii (s : string) : bool :=
  match s with
  | EmptyString => true
  | String c s' => Nat.ltb (nat_of_ascii c) 128 && is_ascii s'
  end.

(** [hmac.compare_digest(a, b)] on two [str]: their equality, and a
    [TypeError] when one of them holds a character that is not ASCII. *)
Definition compare_digest (a b : string) : outcome bool :=
  if is_ascii a && is_ascii b then Ok (String.eqb a b) else Raise "TypeError".

(** ** The Python runtime the repository relies on *)

Class Runtime : Type := {
  (** [hmac.new(key, data, hashlib.sha256).hexdigest()]: hexadecimal digits *)
  hmac_sha256_hex : string -> string -> string;
  hmac_sha256_hex_ascii : forall key data, is_ascii (hmac_sha256_hex key data) = true;
  (** [hashlib.md5(data).hexdigest()] *)
  md5_hexdigest : string -> string;
  (** [math.sqrt] as used by [statistics.stdev] *)
  py_sqrt : Q -> Q;
  py_sqrt_nonneg : forall x, 0 <= py_sqrt x;
  (** [datetime.isoformat] and [datetime.fromisoformat] *)
  isoformat : Z -> string;
  fromisoformat : string -> option Z;
  fromisoformat_isoformat : forall t, fromisoformat (isoformat t) = Some t;
  (** [json.dumps] and [json.loads]: a document is one line of text without
      surrounding white space, and it parses back to the value printed, with
      lists for its tuples and strings for its integer keys. *)
  json_dumps : json -> string;
  json_loads : string -> option json;
  json_loads_dumps : forall v, json_loads (json_dumps v) = Some (json_normal v);
  json_dumps_strip : forall v, py_strip (json_dumps v) = json_dumps v;
  json_dumps_nonempty : forall v, str_is_empty (json_dumps v) = false;
  (** [str(d)] of a dictionary, [str(sorted(d.items()))] of resource tags *)
  py_str_dict : pydict json -> string;
  py_str_sorted_items : pydict Z -> string;
  (** [f"{x:.1f}"] and [f"{x:.1%}"] *)
  format_1f : Q -> string;
  format_pct : Q -> string
}.

(** ** models/events.py: TelemetryEvent *)

Module TelemetryEvent.

Record t : Type := {
  timestamp : Z;
  event_id : string;
  process_id : Z;
  thread_id : Z;
  function_name : string;
  module_name : string;
  duration_ms : Q;
  args_metadata : pydict json;
  resource_tags : pydict Z;
  redaction_applied : bool;
  sampling_rate : Q
}.

End TelemetryEvent.

(** ** models/baseline.py: BaselineProfile *)

Module BaselineProfile.

Record t : Type := {
  function_name : string;
  module_name : string;
  version : Z;
  created_at : Z;
  updated_at : Z;
  sample_count : Z;
  mean_duration_ms : Q;
  std_duration_ms : Q;
  p50_duration_ms : Q;
  p95_duration_ms : Q;
  p99_duration_ms : Q;
  historical_distances : list Q
}.

(** [BaselineProfile.is_sufficient(min_samples=20)] *)
Definition is_sufficient (self : t) (min_samples : Z) : bool :=
  (min_samples <=? sample_count self)%Z.

End BaselineProfile.

(** ** models/decision.py: Decision *)

Module Decision.

Record t : Type := {
  action : string;
  reason : string;
  anomaly_score : Q;
  detector_id : option string;
  metadata : option (pydict json)
}.

(** [Decision.allow(reason, anomaly_score)] *)
Definition allow (reason : string) (anomaly_score : Q) : t :=
  {| action := "allow"; reason := reason; anomaly_score := anomaly_score;
     detector_id := None; metadata := None |}.

(** [Decision.block(reason, anomaly_score, detector_id=None)] *)
Definition block (reason : string) (anomaly_score : Q) : t :=
  {| action := "block"; reason := reason; anomaly_score := anomaly_score;
     detector_id := None; metadata := None |}.

Definition is_allow (self : t) : bool := String.eqb (action self) "allow".
Definition is_block (self : t) : bool := String.eqb (action self) "block".

End Decision.

(** ** brain/normalizer.py *)

Module Normalizer.

(** [FeatureNormalizer.normalize_value] *)
Definition normalize_value (value mean std : Q) : Q :=
  if Qeq_bool std 0 then 0 else (value - mean) / std.

(** [min(values)] and [max(values)] of a list of floats: the first of the
    least (greatest) items; no item is an error. *)
Definition py_min_list (values : list Q) : outcome Q :=
  match values with
  | [] => Raise "ValueError"
  | x :: xs => Ok (fold_left (fun m v => if Qlt_bool v m then v else m) xs x)
  end.

Definition py_max_list (values : list Q) : outcome Q :=
  match values with
  | [] => Raise "ValueError"
  | x :: xs => Ok (fold_left (fun m v => if Qlt_bool m v then v else m) xs x)
  end.

(** The normalizer holds the baseline it was given, if any. *)
Record t : Type := {
  baseline : option BaselineProfile.t
}.

(** [FeatureNormalizer(baseline=None)] *)
Definition __init__ (baseline : option BaselineProfile.t) : t :=
  {| baseline := baseline |}.

(** [FeatureNormalizer.normalize] *)
Definition normalize (self : t) (event : TelemetryEvent.t) : Q :=
  match baseline self with
  | None => 0
  | Some b =>
      let duration := TelemetryEvent.duration_ms event in
      if Qeq_bool (BaselineProfile.p99_duration_ms b) 0 then 0
      else
        let duration :=
          if Qlt_bool (BaselineProfile.p99_duration_ms b) duration
          then BaselineProfile.p99_duration_ms b else duration in
        let min_val := 0 in
        let max_val := BaselineProfile.p99_duration_ms b in
        if Qeq_bool max_val min_val then 0
        else
          let normalized := (duration - min_val) / (max_val - min_val) in
          py_max 0 (py_min 1 normalized)
  end.

(** [FeatureNormalizer.normalize_batch] *)
Definition normalize_batch (values : list Q) : outcome (list Q) :=
  match values with
  | [] => Ok []
  | _ =>
      do min_val <- py_min_list values;
      do max_val <- py_max_list values;
      if Qeq_bool max_val min_val then Ok (repeat 0.5 (length values))
      else Ok (map (fun v => (v - min_val) / (max_val - min_val)) values)
  end.

(** [FeatureNormalizer.update_baseline] *)
Definition update_baseline (self : t) (baseline : BaselineProfile.t) : t :=
  {| baseline := Some baseline |}.

End Normalizer.

(** ** brain/detector.py *)

Module Detector.

Record AnomalyDetector : Type := {
  threshold_percentile : Q;
  candidate_score_threshold : Q
}.

(** [AnomalyDetector._distance_to_percentile] *)
Definition _distance_to_percentile (distance : Q) : Q :=
  if Qle_bool distance 0 then 50
  else if Qle_bool distance 1 then 50 + distance * 34
  else if Qle_bool distance 2 then 84 + (distance - 1) * 13.5
  else if Qle_bool distance 3 then 97.5 + (distance - 2) * 2.4
  else 99.9 + py_min 0.1 ((distance - 3) * 0.01).

(** [AnomalyDetector.compute_anomaly_score] *)
Definition compute_anomaly_score (event : TelemetryEvent.t) (baseline : BaselineProfile.t) : Q :=
  let normalized_duration :=
    Normalizer.normalize_value
      (TelemetryEvent.duration_ms event)
      (BaselineProfile.mean_duration_ms baseline)
      (BaselineProfile.std_duration_ms baseline) in
  let l2_distance := py_abs normalized_duration in
  let percentile_rank := _distance_to_percentile l2_distance in
  let anomaly_score := percentile_rank in
  py_min 100 (py_max 0 anomaly_score).

(** [AnomalyDetector.is_anomaly] *)
Definition is_anomaly (self : AnomalyDetector) (score : Q) : bool :=
  Qle_bool (threshold_percentile self) score.

End Detector.

(** ** models/integration.py: BackpressureSignal *)

Module BackpressureSignal.

Record t : Type := {
  active : bool;
  recommended_rate : Q;
  queue_utilization : Q;
  reason : string
}.

End BackpressureSignal.

(** ** brain/event_queue.py *)

Module EventQueue.

Record t : Type := {
  max_size : Z;
  backpressure_threshold : Q;
  _queue : list TelemetryEvent.t;
  _total_enqueued : Z;
  _total_dropped : Z;
  _total_dequeued : Z
}.

(** [EventQueue(max_size=10000, backpressure_threshold=0.8)];
    [deque(maxlen=max_size)] raises [ValueError] for a negative bound. *)
Definition __init__ (max_size : Z) (backpressure_threshold : Q) : outcome t :=
  if (max_size <? 0)%Z then Raise "ValueError"
  else Ok {| max_size := max_size;
               backpressure_threshold := backpressure_threshold;
               _queue := [];
               _total_enqueued := 0;
               _total_dropped := 0;
               _total_dequeued := 0 |}.

(** [EventQueue.enqueue] *)
Definition enqueue (self : t) (event : TelemetryEvent.t) : t * bool :=
  let was_full := (max_size self <=? Z.of_nat (length (_queue self)))%Z in
  let self' :=
    {| max_size := max_size self;
       backpressure_threshold := backpressure_threshold self;
       _queue := deque_append (max_size self) (_queue self) event;
       _total_enqueued := _total_enqueued self + 1;
       _total_dropped := if was_full then _total_dropped self + 1
                         else _total_dropped self;
       _total_dequeued := _total_dequeued self |} in
  (self', negb was_full).

(** [EventQueue.dequeue] *)
Definition dequeue (self : t) : t * option TelemetryEvent.t :=
  match _queue self with
  | [] => (self, None)
  | e :: q' =>
      ({| max_size := max_size self;
          backpressure_threshold := backpressure_threshold self;
          _queue := q';
          _total_enqueued := _total_enqueued self;
          _total_dropped := _total_dropped self;
          _total_dequeued := _total_dequeued self + 1 |}, Some e)
  end.

(** [EventQueue.size] *)
Definition size (self : t) : Z := Z.of_nat (length (_queue self)).

(** [EventQueue.get_utilization]: [len(self._queue) / self.max_size] *)
Definition get_utilization (self : t) : outcome Q :=
  if (max_size self =? 0)%Z then Raise "ZeroDivisionError"
  else Ok (inject_Z (size self) / inject_Z (max_size self)).

(** [EventQueue.has_backpressure] *)
Definition has_backpressure (self : t) : outcome bool :=
  do utilization <- get_utilization self;
  Ok (Qle_bool (backpressure_threshold self) utilization).

(** [EventQueue.peek] *)
Definition peek (self : t) : option TelemetryEvent.t :=
  match _queue self with
  | [] => None
  | e :: _ => Some e
  end.

(** [EventQueue.is_empty] *)
Definition is_empty (self : t) : bool := (size self =? 0)%Z.

(** [EventQueue.is_full] *)
Definition is_full (self : t) : bool := (max_size self <=? size self)%Z.

(** [EventQueue.clear] *)
Definition clear (self : t) : t * Z :=
  let count := size self in
  ({| max_size := max_size self;
      backpressure_threshold := backpressure_threshold self;
      _queue := [];
      _total_enqueued := _total_enqueued self;
      _total_dropped := _total_dropped self;
      _total_dequeued := _total_dequeued self |}, count).

End EventQueue.

(** ** brain/backpressure_controller.py *)

Module BackpressureController.

Record t : Type := {
  queue : EventQueue.t;
  _backpressure_active : bool;
  _last_utilization : Q;
  _total_checks : Z;
  _backpressure_activations : Z
}.

Definition __init__ (event_queue : EventQueue.t) : t :=
  {| queue := event_queue;
     _backpressure_active := false;
     _last_utilization := 0;
     _total_checks := 0;
     _backpressure_activations := 0 |}.

(** [BackpressureController.get_recommended_rate(utilization=None)] *)
Definition get_recommended_rate (self : t) (utilization : option Q) : outcome Q :=
  do utilization <-
    match utilization with
    | None => EventQueue.get_utilization (queue self)
    | Some u => Ok u
    end;
  if Qle_bool 0.95 utilization then Ok 0.1
  else if Qle_bool 0.9 utilization then Ok 0.25
  else if Qle_bool 0.8 utilization then Ok 0.5
  else if Qle_bool 0.7 utilization then Ok 0.75
  else Ok 1.0.

(** [BackpressureController.check_and_signal] *)
Definition check_and_signal `{Runtime} (self : t)
  : outcome (t * BackpressureSignal.t) :=
  do utilization <- EventQueue.get_utilization (queue self);
  let was_active := _backpressure_active self in
  do now_active <- EventQueue.has_backpressure (queue self);
  let self' :=
    {| queue := queue self;
       _backpressure_active := now_active;
       _last_utilization := utilization;
       _total_checks := _total_checks self + 1;
       _backpressure_activations :=
         if now_active && negb was_active
         then _backpressure_activations self + 1
         else _backpressure_activations self |} in
  do recommended_rate <- get_recommended_rate self' (Some utilization);
  let reason :=
    if now_active
    then ("Queue utilization high: " ++ format_pct utilization)%string
    else "Normal operation"%string in
  Ok (self', {| BackpressureSignal.active := now_active;
                BackpressureSignal.recommended_rate := recommended_rate;
                BackpressureSignal.queue_utilization := utilization;
                BackpressureSignal.reason := reason |}).

End BackpressureController.

(** ** Python's [sorted], [statistics.mean] and [statistics.stdev] on floats *)

Lemma Qle_bool_total (a1 a2 : Q) : Qle_bool a1 a2 = true \/ Qle_bool a2 a1 = true.
Proof.
  destruct (Qlt_le_dec a2 a1) as [H | H].
  - right. apply Qle_bool_iff. now apply Qlt_le_weak.
  - left. now apply Qle_bool_iff.
Qed.

Module QOrder <: TotalLeBool.
Definition t : Type := Q.
Definition leb : Q -> Q -> bool := Qle_bool.
Definition leb_total : forall a1 a2 : Q, leb a1 a2 = true \/ leb a2 a1 = true :=
  Qle_bool_total.
End QOrder.

Module QSort := Sort QOrder.

Module Statistics.

Definition sorted (data : list Q) : list Q := QSort.sort data.

Definition fsum (data : list Q) : Q := fold_right Qplus 0 data.

Definition len (data : list Q) : Z := Z.of_nat (length data).

(** [statistics.mean]: the exact sum over the count; no data is an error. *)
Definition mean (data : list Q) : outcome Q :=
  match data with
  | [] => Raise "StatisticsError"
  | _ => Ok (fsum data / inject_Z (len data))
  end.

(** The sum of squared deviations from the mean, over [n - 1]. *)
Definition variance (data : list Q) : outcome Q :=
  if (len data <? 2)%Z then Raise "StatisticsError"
  else
    do xbar <- mean data;
    let ss := fsum (map (fun x => (x - xbar) * (x - xbar)) data) in
    Ok (ss / inject_Z (len data - 1)).

(** [statistics.stdev]: the square root of the sample variance. *)
Definition stdev `{Runtime} (data : list Q) : outcome Q :=
  do var <- variance data;
  Ok (py_sqrt var).

End Statistics.

(** [seq[i]] for a non-negative index. *)
Definition list_index {A} (l : list A) (i : Z) : outcome A :=
  match nth_error l (Z.to_nat i) with
  | Some x => Ok x
  | None => Raise "IndexError"
  end.

(** ** brain/profiler.py *)

Module BaselineProfiler.

Record t : Type := {
  min_samples : Z;
  _samples : gmap string (list Q)
}.

(** [BaselineProfiler(min_samples=20)] *)
Definition __init__ (min_samples : Z) : t :=
  {| min_samples := min_samples; _samples := ∅ |}.

(** The dictionary key [f"{module_name}.{function_name}"]. *)
Definition key_of (function_name module_name : string) : string :=
  (module_name ++ "." ++ function_name)%string.

(** [self._samples.get(key, [])] *)
Definition samples_get (self : t) (key : string) : list Q :=
  match _samples self !! key with
  | Some samples => samples
  | None => []
  end.

(** [BaselineProfiler.add_sample] *)
Definition add_sample (self : t) (event : TelemetryEvent.t) : t :=
  let key := key_of (TelemetryEvent.function_name event)
                    (TelemetryEvent.module_name event) in
  let samples := samples_get self key in
  {| min_samples := min_samples self;
     _samples := <[key := samples ++ [TelemetryEvent.duration_ms event]]> (_samples self) |}.

(** [BaselineProfiler.compute_baseline]; [now1] and [now2] are the two
    readings of [datetime.now()]. *)
Definition compute_baseline `{Runtime} (self : t) (function_name module_name : string)
    (now1 now2 : Z) : outcome (option BaselineProfile.t) :=
  let key := key_of function_name module_name in
  let samples := samples_get self key in
  if (Statistics.len samples <? min_samples self)%Z then Ok None
  else
    do mean <- Statistics.mean samples;
    do std <- (if (1 <? Statistics.len samples)%Z then Statistics.stdev samples
               else Ok 0);
    let sorted_samples := Statistics.sorted samples in
    let n := Statistics.len sorted_samples in
    do p50 <- list_index sorted_samples (n / 2);
    do p95 <- list_index sorted_samples (Qfloor (inject_Z n * 0.95));
    do p99 <- list_index sorted_samples (Qfloor (inject_Z n * 0.99));
    Ok (Some {| BaselineProfile.function_name := function_name;
                BaselineProfile.module_name := module_name;
                BaselineProfile.version := 1;
                BaselineProfile.created_at := now1;
                BaselineProfile.updated_at := now2;
                BaselineProfile.sample_count := Statistics.len samples;
                BaselineProfile.mean_duration_ms := mean;
                BaselineProfile.std_duration_ms := std;
                BaselineProfile.p50_duration_ms := p50;
                BaselineProfile.p95_duration_ms := p95;
                BaselineProfile.p99_duration_ms := p99;
                BaselineProfile.historical_distances := [] |}).

(** [BaselineProfiler.get_sample_count] *)
Definition get_sample_count (self : t) (function_name module_name : string) : Z :=
  Statistics.len (samples_get self (key_of function_name module_name)).

End BaselineProfiler.

(** ** Python builtins on JSON values *)

(** The numeric value of a number or a boolean, as [==] compares them. *)
Definition json_number (v : json) : option Q :=
  match v with
  | JBool b => Some (if b then 1 else 0)
  | JInt z => Some (inject_Z z)
  | JFloat q => Some q
  | _ => None
  end.

(** [a == b]; [nan] is equal to no value.  A container takes an object
    for equal to itself without asking [==]; [nan] apart, this makes no
    difference, and for [nan] the comparison is that of two objects. *)
Fixpoint py_eq (a b : json) {struct a} : bool :=
  match a, b with
  | JNull, JNull => true
  | JStr s1, JStr s2 => String.eqb s1 s2
  | JList l1, JList l2 =>
      (fix go (l1 l2 : list json) {struct l1} : bool :=
         match l1, l2 with
         | [], [] => true
         | x :: l1', y :: l2' => py_eq x y && go l1' l2'
         | _, _ => false
         end) l1 l2
  | JTuple l1, JTuple l2 =>
      (fix go (l1 l2 : list json) {struct l1} : bool :=
         match l1, l2 with
         | [], [] => true
         | x :: l1', y :: l2' => py_eq x y && go l1' l2'
         | _, _ => false
         end) l1 l2
  | JIntDict d1, JIntDict d2 =>
      Nat.eqb (length d1) (length d2) &&
      (fix go (d : list (Z * json)) {struct d} : bool :=
         match d with
         | [] => true
         | (k, v) :: d' =>
             match int_dict_get d2 k with
             | Some w => py_eq v w
             | None => false
             end && go d'
         end) d1
  | JDict [], JIntDict [] => true
  | JIntDict [], JDict [] => true
  | JDict d1, JDict d2 =>
      Nat.eqb (length d1) (length d2) &&
      (fix go (d : list (string * json)) {struct d} : bool :=
         match d with
         | [] => true
         | (k, v) :: d' =>
             match dict_get d2 k with
             | Some w => py_eq v w
             | None => false
             end && go d'
         end) d1
  | _, _ =>
      match json_number a, json_number b with
      | Some x, Some y => Qeq_bool x y
      | _, _ => false
      end
  end.

(** The characters of a string, each as a string of length one. *)
Fixpoint py_chars (s : string) : list json :=
  match s with
  | EmptyString => []
  | String c s' => JStr (String c EmptyString) :: py_chars s'
  end.

(** [tuple(v)]: the items of a list or of a tuple, the characters of a
    string, the keys of a dictionary; other values are not iterable. *)
Definition py_tuple (v : json) : outcome (list json) :=
  match v with
  | JList l => Ok l
  | JTuple l => Ok l
  | JStr s => Ok (py_chars s)
  | JDict d => Ok (map (fun kv => JStr (fst kv)) d)
  | JIntDict d => Ok (map (fun kv => JInt (fst kv)) d)
  | _ => Raise "TypeError"
  end.

(** [s[:n]] *)
Definition py_prefix (n : nat) (s : string) : string := String.substring 0 n s.

(** ** brain/pattern_cache.py: PatternFingerprint *)

Module PatternFingerprint.

Record t : Type := {
  function_name : string;
  module_name : string;
  duration_min : Q;
  duration_max : Q;
  arg_types : list json;
  resource_signature : string;
  timestamp : Q;
  hit_count : Z
}.

Definition set_hit_count (self : t) (n : Z) : t :=
  {| function_name := function_name self; module_name := module_name self;
     duration_min := duration_min self; duration_max := duration_max self;
     arg_types := arg_types self; resource_signature := resource_signature self;
     timestamp := timestamp self; hit_count := n |}.

Definition set_timestamp (self : t) (now : Q) : t :=
  {| function_name := function_name self; module_name := module_name self;
     duration_min := duration_min self; duration_max := duration_max self;
     arg_types := arg_types self; resource_signature := resource_signature self;
     timestamp := now; hit_count := hit_count self |}.

(** [tuple(event.args_metadata.get("arg_types", []))] *)
Definition event_arg_types (event : TelemetryEvent.t) : outcome (list json) :=
  py_tuple (match dict_get (TelemetryEvent.args_metadata event) "arg_types" with
            | Some v => v
            | None => JList []
            end).

(** [PatternFingerprint.matches(event, threshold=0.85)] *)
Definition matches (self : t) (event : TelemetryEvent.t) (threshold : Q) : outcome bool :=
  let score := 0 in
  let total_weight := 0 in
  let score :=
    if String.eqb (TelemetryEvent.function_name event) (function_name self)
    then score + 0.3 else score in
  let total_weight := total_weight + 0.3 in
  let score :=
    if String.eqb (TelemetryEvent.module_name event) (module_name self)
    then score + 0.2 else score in
  let total_weight := total_weight + 0.2 in
  let d := TelemetryEvent.duration_ms event in
  let score :=
    if Qle_bool (duration_min self) d && Qle_bool d (duration_max self)
    then score + 0.3
    else if Qle_bool (duration_min self * 0.8) d && Qle_bool d (duration_max self * 1.2)
    then score + 0.15
    else score in
  let total_weight := total_weight + 0.3 in
  do event_arg_types <- event_arg_types event;
  let score :=
    if py_eq (JList event_arg_types) (JList (arg_types self))
    then score + 0.2
    else if Nat.eqb (length event_arg_types) (length (arg_types self))
    then score + 0.1
    else score in
  let total_weight := total_weight + 0.2 in
  let similarity := if Qlt_bool 0 total_weight then score / total_weight else 0 in
  Ok (Qle_bool threshold similarity).

(** [PatternFingerprint.to_key] *)
Definition to_key (self : t) : string :=
  (function_name self ++ ":" ++ module_name self)%string.

End PatternFingerprint.

(** ** brain/pattern_cache.py: PatternMemoryCache *)

Module PatternMemoryCache.

Record t : Type := {
  ttl_seconds : Z;
  max_size : Z;
  _cache : pydict PatternFingerprint.t;
  _access_times : pydict Q;
  _hits : Z;
  _misses : Z;
  _evictions : Z
}.

(** [PatternMemoryCache(ttl_seconds=1800, max_size=10000)] *)
Definition __init__ (ttl_seconds max_size : Z) : t :=
  {| ttl_seconds := ttl_seconds; max_size := max_size;
     _cache := []; _access_times := [];
     _hits := 0; _misses := 0; _evictions := 0 |}.

Definition with_tables (self : t) (cache : pydict PatternFingerprint.t)
    (access_times : pydict Q) : t :=
  {| ttl_seconds := ttl_seconds self; max_size := max_size self;
     _cache := cache; _access_times := access_times;
     _hits := _hits self; _misses := _misses self; _evictions := _evictions self |}.

Definition with_counters (self : t) (hits misses evictions : Z) : t :=
  {| ttl_seconds := ttl_seconds self; max_size := max_size self;
     _cache := _cache self; _access_times := _access_times self;
     _hits := hits; _misses := misses; _evictions := evictions |}.

(** [del d[key]] *)
Definition dict_del_checked {V} (d : pydict V) (key : string) : outcome (pydict V) :=
  if dict_mem d key then Ok (dict_del d key) else Raise "KeyError".

(** [PatternMemoryCache._create_fingerprint]; [now] is [time.time()]. *)
Definition _create_fingerprint `{Runtime} (event : TelemetryEvent.t) (now : Q)
  : outcome PatternFingerprint.t :=
  do arg_types <- PatternFingerprint.event_arg_types event;
  let resource_str := py_str_sorted_items (TelemetryEvent.resource_tags event) in
  let resource_sig := py_prefix 8 (md5_hexdigest resource_str) in
  let duration_min := TelemetryEvent.duration_ms event * 0.9 in
  let duration_max := TelemetryEvent.duration_ms event * 1.1 in
  Ok {| PatternFingerprint.function_name := TelemetryEvent.function_name event;
        PatternFingerprint.module_name := TelemetryEvent.module_name event;
        PatternFingerprint.duration_min := duration_min;
        PatternFingerprint.duration_max := duration_max;
        PatternFingerprint.arg_types := arg_types;
        PatternFingerprint.resource_signature := resource_sig;
        PatternFingerprint.timestamp := now;
        PatternFingerprint.hit_count := 1 |}.

(** [min(items, key=lambda x: x[1])]: the first item of least value. *)
Fixpoint min_by_value (best : string * Q) (items : list (string * Q)) : string * Q :=
  match items with
  | [] => best
  | x :: items' =>
      min_by_value (if Qlt_bool (snd x) (snd best) then x else best) items'
  end.

(** [PatternMemoryCache._evict_lru] *)
Definition _evict_lru (self : t) : outcome t :=
  match _access_times self with
  | [] => Ok self
  | first :: rest =>
      let lru_key := fst (min_by_value first rest) in
      do cache <- dict_del_checked (_cache self) lru_key;
      do access_times <- dict_del_checked (_access_times self) lru_key;
      Ok (with_counters (with_tables self cache access_times)
            (_hits self) (_misses self) (_evictions self + 1))
  end.

(** [PatternMemoryCache.add_pattern]; [time n] is the [n]-th reading of
    [time.time()] made by the call. *)
Definition add_pattern `{Runtime} (self : t) (event : TelemetryEvent.t)
    (time : nat -> Q) : outcome t :=
  do fingerprint <- _create_fingerprint event (time 0%nat);
  let key := PatternFingerprint.to_key fingerprint in
  match dict_get (_cache self) key with
  | Some pattern =>
      let pattern :=
        PatternFingerprint.set_hit_count pattern
          (PatternFingerprint.hit_count pattern + 1) in
      let pattern := PatternFingerprint.set_timestamp pattern (time 1%nat) in
      Ok (with_tables self
            (dict_set (_cache self) key pattern)
            (dict_set (_access_times self) key (time 2%nat)))
  | None =>
      do self <- (if (max_size self <=? Z.of_nat (length (_cache self)))%Z
                  then _evict_lru self else Ok self);
      Ok (with_tables self
            (dict_set (_cache self) key fingerprint)
            (dict_set (_access_times self) key (time 1%nat)))
  end.

(** [PatternMemoryCache.check_match(event, threshold=0.85)] *)
Definition check_match (self : t) (event : TelemetryEvent.t) (threshold : Q)
    (time : nat -> Q) : outcome (t * bool) :=
  let key := (TelemetryEvent.function_name event ++ ":" ++
              TelemetryEvent.module_name event)%string in
  let miss (self : t) :=
    Ok (with_counters self (_hits self) (_misses self + 1) (_evictions self), false) in
  match dict_get (_cache self) key with
  | Some pattern =>
      if Qlt_bool (inject_Z (ttl_seconds self))
                  (time 0%nat - PatternFingerprint.timestamp pattern)
      then
        do cache <- dict_del_checked (_cache self) key;
        do access_times <- dict_del_checked (_access_times self) key;
        miss (with_tables self cache access_times)
      else
        do matched <- PatternFingerprint.matches pattern event threshold;
        if matched then
          let pattern :=
            PatternFingerprint.set_hit_count pattern
              (PatternFingerprint.hit_count pattern + 1) in
          Ok (with_counters
                (with_tables self
                   (dict_set (_cache self) key pattern)
                   (dict_set (_access_times self) key (time 1%nat)))
                (_hits self + 1) (_misses self) (_evictions self), true)
        else miss self
  | None => miss self
  end.

(** [PatternMemoryCache.evict_expired] *)
Definition evict_expired (self : t) (current_time : Q) : outcome (t * Z) :=
  let expired_keys :=
    map fst
      (List.filter
         (fun kv => Qlt_bool (inject_Z (ttl_seconds self))
                             (current_time - PatternFingerprint.timestamp (snd kv)))
         (_cache self)) in
  do tables <-
    fold_left
      (fun acc key =>
         do tables <- acc;
         do cache <- dict_del_checked (fst tables) key;
         do access_times <- dict_del_checked (snd tables) key;
         Ok (cache, access_times))
      expired_keys (Ok (_cache self, _access_times self));
  let evicted_count := Z.of_nat (length expired_keys) in
  Ok (with_counters (with_tables self (fst tables) (snd tables))
        (_hits self) (_misses self) (_evictions self + evicted_count),
      evicted_count).

End PatternMemoryCache.

(** ** crypto/core.py *)

Module CryptoCore.

Record t : Type := {
  _signing_key : option string
}.

(** [CryptoCore.hmac_sign] *)
Definition hmac_sign `{Runtime} (self : t) (data : string) : outcome string :=
  match _signing_key self with
  | None => Raise "RuntimeError"
  | Some key => Ok (hmac_sha256_hex key data)
  end.

(** [CryptoCore.verify_signature] *)
Definition verify_signature `{Runtime} (self : t) (data signature : string) : outcome bool :=
  match _signing_key self with
  | None => Raise "RuntimeError"
  | Some _ =>
      do expected_signature <- hmac_sign self data;
      compare_digest signature expected_signature
  end.

(** [CryptoCore.sign_hmac] and [CryptoCore.verify_hmac], the aliases *)
Definition sign_hmac `{Runtime} (self : t) (data : string) : outcome string :=
  hmac_sign self data.

Definition verify_hmac `{Runtime} (self : t) (data signature : string) : outcome bool :=
  verify_signature self data signature.

End CryptoCore.

(** ** models/events.py: serialisation of TelemetryEvent *)

Module TelemetryEventJson.
Import TelemetryEvent.

(** [TelemetryEvent.to_dict]: [asdict(self)] with the timestamp in ISO form *)
Definition to_dict `{Runtime} (self : t) : pydict json :=
  [ ("timestamp", JStr (isoformat (timestamp self)));
    ("event_id", JStr (event_id self));
    ("process_id", JInt (process_id self));
    ("thread_id", JInt (thread_id self));
    ("function_name", JStr (function_name self));
    ("module_name", JStr (module_name self));
    ("duration_ms", JFloat (duration_ms self));
    ("args_metadata", JDict (args_metadata self));
    ("resource_tags", JDict (map (fun kv => (fst kv, JInt (snd kv))) (resource_tags self)));
    ("redaction_applied", JBool (redaction_applied self));
    ("sampling_rate", JFloat (sampling_rate self)) ]%string.

End TelemetryEventJson.

(** ** models/integration.py: SignedEvent *)

Module SignedEvent.

Record t : Type := {
  event : TelemetryEvent.t;
  signature : string;
  nonce : string;
  timestamp : Z
}.

End SignedEvent.

(** ** Durations and POSIX timestamps of [datetime] values *)

(** [(a - b).total_seconds()] *)
Definition total_seconds (a b : Z) : Q := inject_Z (a - b) / 1000000.

(** [t.timestamp()] *)
Definition posix_timestamp (t : Z) : Q := inject_Z t / 1000000.

(** ** brain/security_validator.py *)

Module SecurityValidator.

Record t : Type := {
  crypto : CryptoCore.t;
  nonce_expiry_seconds : Z;
  max_nonce_cache : Z;
  _seen_nonces : gset string;
  _nonce_timestamps : list (string * Z);
  _total_validations : Z;
  _valid_events : Z;
  _invalid_signatures : Z;
  _replay_attacks : Z;
  _expired_events : Z
}.

(** [SecurityValidator(crypto_core, nonce_expiry_seconds=300,
    max_nonce_cache=100000)] *)
Definition __init__ (crypto_core : CryptoCore.t) (nonce_expiry_seconds max_nonce_cache : Z)
  : outcome t :=
  if (max_nonce_cache <? 0)%Z then Raise "ValueError"
  else Ok {| crypto := crypto_core;
             nonce_expiry_seconds := nonce_expiry_seconds;
             max_nonce_cache := max_nonce_cache;
             _seen_nonces := ∅;
             _nonce_timestamps := [];
             _total_validations := 0;
             _valid_events := 0;
             _invalid_signatures := 0;
             _replay_attacks := 0;
             _expired_events := 0 |}.

Definition with_nonces (self : t) (seen : gset string) (stamps : list (string * Z)) : t :=
  {| crypto := crypto self;
     nonce_expiry_seconds := nonce_expiry_seconds self;
     max_nonce_cache := max_nonce_cache self;
     _seen_nonces := seen;
     _nonce_timestamps := stamps;
     _total_validations := _total_validations self;
     _valid_events := _valid_events self;
     _invalid_signatures := _invalid_signatures self;
     _replay_attacks := _replay_attacks self;
     _expired_events := _expired_events self |}.

Definition with_stats (self : t) (total valid invalid replay expired : Z) : t :=
  {| crypto := crypto self;
     nonce_expiry_seconds := nonce_expiry_seconds self;
     max_nonce_cache := max_nonce_cache self;
     _seen_nonces := _seen_nonces self;
     _nonce_timestamps := _nonce_timestamps self;
     _total_validations := total;
     _valid_events := valid;
     _invalid_signatures := invalid;
     _replay_attacks := replay;
     _expired_events := expired |}.

(** [SecurityValidator.is_replay_attack] *)
Definition is_replay_attack (self : t) (nonce : string) (timestamp : Z) : bool :=
  bool_decide (nonce ∈ _seen_nonces self).

(** The loop of [cleanup_old_nonces]: pop the front of the deque while it is
    older than the cutoff. *)
Fixpoint cleanup_loop (cutoff_time : Q) (seen : gset string) (stamps : list (string * Z))
  : gset string * list (string * Z) * Z :=
  match stamps with
  | [] => (seen, [], 0%Z)
  | (nonce, timestamp) :: stamps' =>
      if Qlt_bool (posix_timestamp timestamp) cutoff_time then
        let '(seen', stamps'', removed_count) :=
          cleanup_loop cutoff_time (seen ∖ {[nonce]}) stamps' in
        (seen', stamps'', (removed_count + 1)%Z)
      else (seen, stamps, 0%Z)
  end.

(** [SecurityValidator.cleanup_old_nonces]; [now] is [datetime.now()]. *)
Definition cleanup_old_nonces (self : t) (now : Z) : t * Z :=
  let current_time := now in
  let cutoff_time := posix_timestamp current_time - inject_Z (nonce_expiry_seconds self) in
  let '(seen, stamps, removed_count) :=
    cleanup_loop cutoff_time (_seen_nonces self) (_nonce_timestamps self) in
  (with_nonces self seen stamps, removed_count).

(** [SecurityValidator._add_nonce]; [now] is the clock as [cleanup_old_nonces]
    reads it. *)
Definition _add_nonce (self : t) (nonce : string) (timestamp : Z) (now : Z) : t :=
  let self :=
    with_nonces self
      ({[nonce]} ∪ _seen_nonces self)
      (deque_append (max_nonce_cache self) (_nonce_timestamps self)
         (nonce, timestamp)) in
  if Qlt_bool (inject_Z (max_nonce_cache self) * 0.9)
              (inject_Z (Z.of_nat (size (_seen_nonces self))))
  then fst (cleanup_old_nonces self now)
  else self.

(** [SecurityValidator.verify_event]; [now] is the clock at the freshness
    check, [now_cleanup] the clock at the cleanup of the nonce cache. *)
Definition verify_event `{Runtime} (self : t) (signed_event : SignedEvent.t)
    (now now_cleanup : Z) : outcome (t * (bool * string)) :=
  let self :=
    with_stats self (_total_validations self + 1) (_valid_events self)
      (_invalid_signatures self) (_replay_attacks self) (_expired_events self) in
  let age_seconds := total_seconds now (SignedEvent.timestamp signed_event) in
  if Qlt_bool (inject_Z (nonce_expiry_seconds self)) age_seconds then
    Ok (with_stats self (_total_validations self) (_valid_events self)
          (_invalid_signatures self) (_replay_attacks self) (_expired_events self + 1),
        (false, ("Event expired (age: " ++ format_1f age_seconds ++ "s)")%string))
  else if is_replay_attack self (SignedEvent.nonce signed_event)
                           (SignedEvent.timestamp signed_event) then
    Ok (with_stats self (_total_validations self) (_valid_events self)
          (_invalid_signatures self) (_replay_attacks self + 1) (_expired_events self),
        (false, "Replay attack detected"%string))
  else
    let event_dict := TelemetryEventJson.to_dict (SignedEvent.event signed_event) in
    let sign_data :=
      (py_str_dict event_dict ++ "|" ++ SignedEvent.nonce signed_event ++ "|" ++
       isoformat (SignedEvent.timestamp signed_event))%string in
    do is_valid <- CryptoCore.verify_hmac (crypto self) sign_data
                     (SignedEvent.signature signed_event);
    if is_valid then
      let self :=
        with_stats self (_total_validations self) (_valid_events self + 1)
          (_invalid_signatures self) (_replay_attacks self) (_expired_events self) in
      Ok (_add_nonce self (SignedEvent.nonce signed_event)
            (SignedEvent.timestamp signed_event) now_cleanup,
          (true, "Valid signature"%string))
    else
      Ok (with_stats self (_total_validations self) (_valid_events self)
            (_invalid_signatures self + 1) (_replay_attacks self) (_expired_events self),
          (false, "Invalid signature"%string)).

End SecurityValidator.

(** ** [json.dumps(v, sort_keys=True)] *)

Module KeyOrder <: TotalLeBool.
Definition t : Type := (string * json)%type.
Definition leb (a b : t) : bool := String.leb (fst a) (fst b).
Definition leb_total : forall a1 a2 : t, leb a1 a2 = true \/ leb a2 a1 = true :=
  fun a1 a2 => String.leb_total (fst a1) (fst a2).
End KeyOrder.

Module KeySort := Sort KeyOrder.

Lemma Zle_bool_total (a1 a2 : Z) : (a1 <=? a2)%Z = true \/ (a2 <=? a1)%Z = true.
Proof.
  destruct (Z.le_ge_cases a1 a2) as [Hle | Hle]; [left | right]; now apply Z.leb_le.
Qed.

Module IntKeyOrder <: TotalLeBool.
Definition t : Type := (Z * json)%type.
Definition leb (a b : t) : bool := (fst a <=? fst b)%Z.
Definition leb_total : forall a1 a2 : t, leb a1 a2 = true \/ leb a2 a1 = true :=
  fun a1 a2 => Zle_bool_total (fst a1) (fst a2).
End IntKeyOrder.

Module IntKeySort := Sort IntKeyOrder.

(** The value with the items of every dictionary in the order of their
    keys: strings by their characters, integers by their value. *)
Fixpoint sort_keys (v : json) : json :=
  match v with
  | JList l => JList (map sort_keys l)
  | JTuple l => JTuple (map sort_keys l)
  | JDict d => JDict (KeySort.sort (map (fun kv => (fst kv, sort_keys (snd kv))) d))
  | JIntDict d =>
      JIntDict (IntKeySort.sort (map (fun kv => (fst kv, sort_keys (snd kv))) d))
  | _ => v
  end.

Definition json_dumps_sorted `{Runtime} (v : json) : string :=
  json_dumps (sort_keys v).

(** ** Reading the fields of a decoded JSON object *)

Module Kwargs.

(** [json.loads(json_str)] *)
Definition loads `{Runtime} (json_str : string) : outcome json :=
  match json_loads json_str with
  | Some v => Ok v
  | None => Raise "JSONDecodeError"
  end.

(** The decoded document as a dictionary; indexing another value by a field
    name is a [TypeError]. *)
Definition as_dict (v : json) : outcome (pydict json) :=
  match v with
  | JDict d => Ok d
  | _ => Raise "TypeError"
  end.

(** [data[key]] *)
Definition index (data : pydict json) (key : string) : outcome json :=
  match dict_get data key with
  | Some v => Ok v
  | None => Raise "KeyError"
  end.

(** [datetime.fromisoformat(v)] *)
Definition parse_datetime `{Runtime} (v : json) : outcome Z :=
  match v with
  | JStr s =>
      match fromisoformat s with
      | Some t => Ok t
      | None => Raise "ValueError"
      end
  | _ => Raise "TypeError"
  end.

(** the constructor call on the keywords of [data]: every key of [data] names a field of the class, and every
    field without a default is among the keys. *)
Definition check (fields required : list string) (data : pydict json) : outcome unit :=
  if forallb (fun k => existsb (String.eqb k) fields) (dict_keys data)
     && forallb (dict_mem data) required
  then Ok tt
  else Raise "TypeError".

(** Typed reading of a field.  Python stores whatever value the document
    holds; here a value of another type than the field's is a [TypeError]. *)
Definition as_str (v : json) : outcome string :=
  match v with JStr s => Ok s | _ => Raise "TypeError" end.

Definition as_int (v : json) : outcome Z :=
  match v with JInt z => Ok z | _ => Raise "TypeError" end.

Definition as_float (v : json) : outcome Q :=
  match v with
  | JFloat q => Ok q
  | JInt z => Ok (inject_Z z)
  | _ => Raise "TypeError"
  end.

Definition as_bool (v : json) : outcome bool :=
  match v with JBool b => Ok b | _ => Raise "TypeError" end.

Fixpoint traverse {A B} (f : A -> outcome B) (l : list A) : outcome (list B) :=
  match l with
  | [] => Ok []
  | x :: l' =>
      do y <- f x;
      do ys <- traverse f l';
      Ok (y :: ys)
  end.

Definition as_float_list (v : json) : outcome (list Q) :=
  match v with
  | JList l => traverse as_float l
  | _ => Raise "TypeError"
  end.

Definition as_int_dict (v : json) : outcome (pydict Z) :=
  match v with
  | JDict d => traverse (fun kv => do z <- as_int (snd kv); Ok (fst kv, z)) d
  | _ => Raise "TypeError"
  end.

Definition as_optional {A} (f : json -> outcome A) (v : json) : outcome (option A) :=
  match v with
  | JNull => Ok None
  | _ => do x <- f v; Ok (Some x)
  end.

(** A field with default [None]. *)
Definition optional_field {A} (f : json -> outcome A) (data : pydict json) (key : string)
  : outcome (option A) :=
  match dict_get data key with
  | Some v => as_optional f v
  | None => Ok None
  end.

Definition of_optional {A} (f : A -> json) (o : option A) : json :=
  match o with
  | Some x => f x
  | None => JNull
  end.

End Kwargs.

(** ** models/events.py: [TelemetryEvent.to_json] and [from_json] *)

Module TelemetryEventCodec.
Import TelemetryEvent.

Definition fields : list string :=
  [ "timestamp"; "event_id"; "process_id"; "thread_id"; "function_name";
    "module_name"; "duration_ms"; "args_metadata"; "resource_tags";
    "redaction_applied"; "sampling_rate" ]%string.

(** [TelemetryEvent.to_json] *)
Definition to_json `{Runtime} (self : t) : string :=
  json_dumps (JDict (TelemetryEventJson.to_dict self)).

(** [TelemetryEvent.from_json] *)
Definition from_json `{Runtime} (json_str : string) : outcome t :=
  do data <- Kwargs.loads json_str;
  do data <- Kwargs.as_dict data;
  do timestamp <- bind (Kwargs.index data "timestamp") Kwargs.parse_datetime;
  do _ <- Kwargs.check fields fields data;
  do event_id <- bind (Kwargs.index data "event_id") Kwargs.as_str;
  do process_id <- bind (Kwargs.index data "process_id") Kwargs.as_int;
  do thread_id <- bind (Kwargs.index data "thread_id") Kwargs.as_int;
  do function_name <- bind (Kwargs.index data "function_name") Kwargs.as_str;
  do module_name <- bind (Kwargs.index data "module_name") Kwargs.as_str;
  do duration_ms <- bind (Kwargs.index data "duration_ms") Kwargs.as_float;
  do args_metadata <- bind (Kwargs.index data "args_metadata") Kwargs.as_dict;
  do resource_tags <- bind (Kwargs.index data "resource_tags") Kwargs.as_int_dict;
  do redaction_applied <- bind (Kwargs.index data "redaction_applied") Kwargs.as_bool;
  do sampling_rate <- bind (Kwargs.index data "sampling_rate") Kwargs.as_float;
  Ok {| timestamp := timestamp; event_id := event_id; process_id := process_id;
        thread_id := thread_id; function_name := function_name;
        module_name := module_name; duration_ms := duration_ms;
        args_metadata := args_metadata; resource_tags := resource_tags;
        redaction_applied := redaction_applied; sampling_rate := sampling_rate |}.

End TelemetryEventCodec.

(** ** models/baseline.py: [BaselineProfile.to_json] and [from_json] *)

Module BaselineProfileCodec.
Import BaselineProfile.

Definition fields : list string :=
  [ "function_name"; "module_name"; "version"; "created_at"; "updated_at";
    "sample_count"; "mean_duration_ms"; "std_duration_ms"; "p50_duration_ms";
    "p95_duration_ms"; "p99_duration_ms"; "historical_distances" ]%string.

(** [BaselineProfile.to_dict]: [asdict(self)] with both dates in ISO form *)
Definition to_dict `{Runtime} (self : t) : pydict json :=
  [ ("function_name", JStr (function_name self));
    ("module_name", JStr (module_name self));
    ("version", JInt (version self));
    ("created_at", JStr (isoformat (created_at self)));
    ("updated_at", JStr (isoformat (updated_at self)));
    ("sample_count", JInt (sample_count self));
    ("mean_duration_ms", JFloat (mean_duration_ms self));
    ("std_duration_ms", JFloat (std_duration_ms self));
    ("p50_duration_ms", JFloat (p50_duration_ms self));
    ("p95_duration_ms", JFloat (p95_duration_ms self));
    ("p99_duration_ms", JFloat (p99_duration_ms self));
    ("historical_distances", JList (map JFloat (historical_distances self))) ]%string.

(** [BaselineProfile.to_json] *)
Definition to_json `{Runtime} (self : t) : string :=
  json_dumps (JDict (to_dict self)).

(** [BaselineProfile.from_json] *)
Definition from_json `{Runtime} (json_str : string) : outcome t :=
  do data <- Kwargs.loads json_str;
  do data <- Kwargs.as_dict data;
  do created_at <- bind (Kwargs.index data "created_at") Kwargs.parse_datetime;
  do updated_at <- bind (Kwargs.index data "updated_at") Kwargs.parse_datetime;
  do _ <- Kwargs.check fields fields data;
  do function_name <- bind (Kwargs.index data "function_name") Kwargs.as_str;
  do module_name <- bind (Kwargs.index data "module_name") Kwargs.as_str;
  do version <- bind (Kwargs.index data "version") Kwargs.as_int;
  do sample_count <- bind (Kwargs.index data "sample_count") Kwargs.as_int;
  do mean_duration_ms <- bind (Kwargs.index data "mean_duration_ms") Kwargs.as_float;
  do std_duration_ms <- bind (Kwargs.index data "std_duration_ms") Kwargs.as_float;
  do p50_duration_ms <- bind (Kwargs.index data "p50_duration_ms") Kwargs.as_float;
  do p95_duration_ms <- bind (Kwargs.index data "p95_duration_ms") Kwargs.as_float;
  do p99_duration_ms <- bind (Kwargs.index data "p99_duration_ms") Kwargs.as_float;
  do historical_distances <-
    bind (Kwargs.index data "historical_distances") Kwargs.as_float_list;
  Ok {| function_name := function_name; module_name := module_name;
        version := version; created_at := created_at; updated_at := updated_at;
        sample_count := sample_count; mean_duration_ms := mean_duration_ms;
        std_duration_ms := std_duration_ms; p50_duration_ms := p50_duration_ms;
        p95_duration_ms := p95_duration_ms; p99_duration_ms := p99_duration_ms;
        historical_distances := historical_distances |}.

End BaselineProfileCodec.

(** ** models/decision.py: [Decision.to_json] and [from_json] *)

Module DecisionCodec.
Import Decision.

Definition fields : list string :=
  [ "action"; "reason"; "anomaly_score"; "detector_id"; "metadata" ]%string.

Definition required : list string :=
  [ "action"; "reason"; "anomaly_score" ]%string.

(** [Decision.to_dict]: [asdict(self)] *)
Definition to_dict (self : t) : pydict json :=
  [ ("action", JStr (action self));
    ("reason", JStr (reason self));
    ("anomaly_score", JFloat (anomaly_score self));
    ("detector_id", Kwargs.of_optional JStr (detector_id self));
    ("metadata", Kwargs.of_optional JDict (metadata self)) ]%string.

(** [Decision.to_json] *)
Definition to_json `{Runtime} (self : t) : string :=
  json_dumps (JDict (to_dict self)).

(** [Decision.from_json] *)
Definition from_json `{Runtime} (json_str : string) : outcome t :=
  do data <- Kwargs.loads json_str;
  do data <- Kwargs.as_dict data;
  do _ <- Kwargs.check fields required data;
  do action <- bind (Kwargs.index data "action") Kwargs.as_str;
  do reason <- bind (Kwargs.index data "reason") Kwargs.as_str;
  do anomaly_score <- bind (Kwargs.index data "anomaly_score") Kwargs.as_float;
  do detector_id <- Kwargs.optional_field Kwargs.as_str data "detector_id";
  do metadata <- Kwargs.optional_field Kwargs.as_dict data "metadata";
  Ok {| action := action; reason := reason; anomaly_score := anomaly_score;
        detector_id := detector_id; metadata := metadata |}.

End DecisionCodec.

(** ** models/events.py: AuditEvent *)

Module AuditEvent.

Record t : Type := {
  timestamp : Z;
  event_type : string;
  actor : string;
  action : string;
  result : string;
  signature : string;
  target : option string;
  anomaly_score : option Q;
  metadata : option (pydict json)
}.

(** [event.signature = signature] *)
Definition set_signature (self : t) (signature : string) : t :=
  {| timestamp := timestamp self; event_type := event_type self;
     actor := actor self; action := action self; result := result self;
     signature := signature; target := target self;
     anomaly_score := anomaly_score self; metadata := metadata self |}.

Definition fields : list string :=
  [ "timestamp"; "event_type"; "actor"; "action"; "result"; "signature";
    "target"; "anomaly_score"; "metadata" ]%string.

Definition required : list string :=
  [ "timestamp"; "event_type"; "actor"; "action"; "result"; "signature" ]%string.

(** [AuditEvent.to_dict]: [asdict(self)] with the timestamp in ISO form *)
Definition to_dict `{Runtime} (self : t) : pydict json :=
  [ ("timestamp", JStr (isoformat (timestamp self)));
    ("event_type", JStr (event_type self));
    ("actor", JStr (actor self));
    ("action", JStr (action self));
    ("result", JStr (result self));
    ("signature", JStr (signature self));
    ("target", Kwargs.of_optional JStr (target self));
    ("anomaly_score", Kwargs.of_optional JFloat (anomaly_score self));
    ("metadata", Kwargs.of_optional JDict (metadata self)) ]%string.

(** [AuditEvent.to_json] *)
Definition to_json `{Runtime} (self : t) : string :=
  json_dumps (JDict (to_dict self)).

(** [AuditEvent.from_json] *)
Definition from_json `{Runtime} (json_str : string) : outcome t :=
  do data <- Kwargs.loads json_str;
  do data <- Kwargs.as_dict data;
  do timestamp <- bind (Kwargs.index data "timestamp") Kwargs.parse_datetime;
  do _ <- Kwargs.check fields required data;
  do event_type <- bind (Kwargs.index data "event_type") Kwargs.as_str;
  do actor <- bind (Kwargs.index data "actor") Kwargs.as_str;
  do action <- bind (Kwargs.index data "action") Kwargs.as_str;
  do result <- bind (Kwargs.index data "result") Kwargs.as_str;
  do signature <- bind (Kwargs.index data "signature") Kwargs.as_str;
  do target <- Kwargs.optional_field Kwargs.as_str data "target";
  do anomaly_score <- Kwargs.optional_field Kwargs.as_float data "anomaly_score";
  do metadata <- Kwargs.optional_field Kwargs.as_dict data "metadata";
  Ok {| timestamp := timestamp; event_type := event_type; actor := actor;
        action := action; result := result; signature := signature;
        target := target; anomaly_score := anomaly_score; metadata := metadata |}.

(** [AuditEvent.get_signable_data]: the dictionary without its
    ["signature"] item, printed with sorted keys. *)
Definition get_signable_data `{Runtime} (self : t) : string :=
  let data := to_dict self in
  let data := dict_del data "signature" in
  json_dumps_sorted (JDict data).

End AuditEvent.

(** ** storage/audit_store.py *)

Module AuditStore.

(** The log file is the list of its lines, oldest first. *)
Record t : Type := {
  log_file : list string;
  crypto_core : CryptoCore.t
}.

(** [AuditStore(log_path, crypto_core)] on a path that does not exist yet *)
Definition __init__ (crypto_core : CryptoCore.t) : t :=
  {| log_file := []; crypto_core := crypto_core |}.

(** [AuditStore.log_event]; the event is returned with the signature the
    call has set on it. *)
Definition log_event `{Runtime} (self : t) (event : AuditEvent.t)
  : outcome (t * AuditEvent.t) :=
  let signable_data := AuditEvent.get_signable_data event in
  do signature <- CryptoCore.hmac_sign (crypto_core self) signable_data;
  let event := AuditEvent.set_signature event signature in
  Ok ({| log_file := log_file self ++ [AuditEvent.to_json event];
         crypto_core := crypto_core self |}, event).

(** The body of the [try] of [verify_log_integrity] for one line. *)
Definition verify_line `{Runtime} (self : t) (line : string) : outcome bool :=
  do event <- AuditEvent.from_json line;
  let signable_data := AuditEvent.get_signable_data event in
  CryptoCore.verify_signature (crypto_core self) signable_data
    (AuditEvent.signature event).

(** The loop of [verify_log_integrity] over the lines of the file. *)
Fixpoint verify_lines `{Runtime} (self : t) (lines : list string) : bool :=
  match lines with
  | [] => true
  | line :: lines' =>
      let line := py_strip line in
      if str_is_empty line then verify_lines self lines'
      else
        match verify_line self line with
        | Ok true => verify_lines self lines'
        | Ok false => false
        | Raise _ => false
        end
  end.

(** [AuditStore.verify_log_integrity] *)
Definition verify_log_integrity `{Runtime} (self : t) : bool :=
  verify_lines self (log_file self).

(** The loop of [export_logs]: a line that does not parse is skipped. *)
Fixpoint export_lines `{Runtime} (start_time end_time : option Z) (lines : list string)
  : list AuditEvent.t :=
  match lines with
  | [] => []
  | line :: lines' =>
      let line := py_strip line in
      if str_is_empty line then export_lines start_time end_time lines'
      else
        match AuditEvent.from_json line with
        | Ok event =>
            let before_start :=
              match start_time with
              | Some s => (AuditEvent.timestamp event <? s)%Z
              | None => false
              end in
            let after_end :=
              match end_time with
              | Some e => (e <? AuditEvent.timestamp event)%Z
              | None => false
              end in
            if before_start then export_lines start_time end_time lines'
            else if after_end then export_lines start_time end_time lines'
            else event :: export_lines start_time end_time lines'
        | Raise _ => export_lines start_time end_time lines'
        end
  end.

(** [AuditStore.export_logs(start_time=None, end_time=None)] *)
Definition export_logs `{Runtime} (self : t) (start_time end_time : option Z)
  : list AuditEvent.t :=
  export_lines start_time end_time (log_file self).

(** [AuditStore.get_event_count] *)
Definition get_event_count (self : t) : Z :=
  Z.of_nat (length (List.filter (fun line => negb (str_is_empty (py_strip line)))
                                (log_file self))).

(** [lines[-count:] if len(lines) > count else lines] *)
Definition latest_lines (lines : list string) (count : Z) : list string :=
  let n := Z.of_nat (length lines) in
  if (count <? n)%Z then
    let start := if (0 <? count)%Z then (n - count)%Z else Z.min (- count) n in
    skipn (Z.to_nat start) lines
  else lines.

(** [AuditStore.get_latest_events(count=100)] *)
Definition get_latest_events `{Runtime} (self : t) (count : Z) : list AuditEvent.t :=
  let lines :=
    List.filter (fun line => negb (str_is_empty line))
                (map py_strip (log_file self)) in
  let latest_lines := latest_lines lines count in
  flat_map (fun line =>
              match AuditEvent.from_json line with
              | Ok event => [event]
              | Raise _ => []
              end) latest_lines.

(** The public methods of [AuditStore]. *)
Inductive call : Type :=
| LogEvent (event : AuditEvent.t)
| VerifyLogIntegrity
| ExportLogs (start_time end_time : option Z)
| GetEventCount
| GetLatestEvents (count : Z).

(** The store after a call of a public method. *)
Definition after `{Runtime} (self : t) (c : call) : outcome t :=
  match c with
  | LogEvent event => do r <- log_event self event; Ok (fst r)
  | VerifyLogIntegrity => Ok self
  | ExportLogs _ _ => Ok self
  | GetEventCount => Ok self
  | GetLatestEvents _ => Ok self
  end.

End AuditStore.

(** ** effector/executor.py *)

Module Effector.

Record t : Type := {
  _action_count : Z
}.

Definition __init__ : t := {| _action_count := 0 |}.

(** [Effector.execute_action]: the stub value returned is [None] on every
    path, so only the counter is kept. *)
Definition execute_action (self : t) (decision : Decision.t) : t :=
  {| _action_count := _action_count self + 1 |}.

End Effector.

(** ** storage/trace_store.py *)

Module TraceStore.

Record t : Type := {
  capacity_per_function : Z;
  _buffers : gmap string (list TelemetryEvent.t);
  _total_events : Z
}.

Definition __init__ (capacity_per_function : Z) : t :=
  {| capacity_per_function := capacity_per_function;
     _buffers := ∅;
     _total_events := 0 |}.

(** [TraceStore.add_event]; a missing buffer is made by
    [deque(maxlen=capacity_per_function)]. *)
Definition add_event (self : t) (event : TelemetryEvent.t) : outcome t :=
  let key := (TelemetryEvent.module_name event ++ "." ++
              TelemetryEvent.function_name event)%string in
  do buffer <-
    match _buffers self !! key with
    | Some buffer => Ok buffer
    | None => if (capacity_per_function self <? 0)%Z then Raise "ValueError" else Ok []
    end;
  Ok {| capacity_per_function := capacity_per_function self;
        _buffers := <[key := deque_append (capacity_per_function self) buffer event]>
                      (_buffers self);
        _total_events := _total_events self + 1 |}.

End TraceStore.

(** ** storage/state_store.py *)

Module StateStore.

(** A row of the table [detectors]; dates are stored as ISO text. *)
Record detector_row : Type := {
  id : string;
  function_name : string;
  threshold : Q;
  signature_hash : string;
  created_at : string;
  expires_at : option string;
  is_active : bool
}.

(** The two tables.  A row of [baselines] is kept as the profile it was
    stored from; [conn_open] is false after [close()]. *)
Record t : Type := {
  baselines : list BaselineProfile.t;
  detectors : list detector_row;
  conn_open : bool
}.

Definition __init__ : t := {| baselines := []; detectors := []; conn_open := true |}.

Definition same_key (a b : BaselineProfile.t) : bool :=
  String.eqb (BaselineProfile.function_name a) (BaselineProfile.function_name b)
  && String.eqb (BaselineProfile.module_name a) (BaselineProfile.module_name b)
  && (BaselineProfile.version a =? BaselineProfile.version b)%Z.

(** An integer that an INTEGER column takes: 64 bits with a sign. *)
Definition sqlite_integer (z : Z) : bool :=
  ((- 2 ^ 63 <=? z) && (z <? 2 ^ 63))%Z.

(** [StateStore.store_baseline]: INSERT OR REPLACE under the uniqueness of
    (function_name, module_name, version); binding an integer that does not
    fit an INTEGER column raises [OverflowError] and stores nothing. *)
Definition store_baseline (self : t) (baseline : BaselineProfile.t) : outcome t :=
  if conn_open self then
    if sqlite_integer (BaselineProfile.version baseline)
       && sqlite_integer (BaselineProfile.sample_count baseline)
    then
      Ok {| baselines :=
              List.filter (fun row => negb (same_key row baseline)) (baselines self)
              ++ [baseline];
            detectors := detectors self;
            conn_open := true |}
    else Raise "OverflowError"
  else Raise "RuntimeError".

(** The row of greatest version among [rows]. *)
Fixpoint latest_version (best : option BaselineProfile.t) (rows : list BaselineProfile.t)
  : option BaselineProfile.t :=
  match rows with
  | [] => best
  | row :: rows' =>
      latest_version
        (match best with
         | Some b =>
             if (BaselineProfile.version b <? BaselineProfile.version row)%Z
             then Some row else Some b
         | None => Some row
         end) rows'
  end.

(** [StateStore.get_baseline] *)
Definition get_baseline (self : t) (function_name module_name : string)
  : outcome (option BaselineProfile.t) :=
  if conn_open self then
    Ok (latest_version None
          (List.filter
             (fun row =>
                String.eqb (BaselineProfile.function_name row) function_name
                && String.eqb (BaselineProfile.module_name row) module_name)
             (baselines self)))
  else Raise "RuntimeError".

(** [StateStore.expire_old_detectors]; [now] is [datetime.now()]. *)
Definition expire_old_detectors `{Runtime} (self : t) (now : Z) : outcome (t * Z) :=
  if conn_open self then
    let now := isoformat now in
    let expired (row : detector_row) : bool :=
      match expires_at row with
      | Some e => String.leb e now && is_active row
      | None => false
      end in
    Ok ({| baselines := baselines self;
           detectors :=
             map (fun row =>
                    if expired row then
                      {| id := id row; function_name := function_name row;
                         threshold := threshold row;
                         signature_hash := signature_hash row;
                         created_at := created_at row;
                         expires_at := expires_at row;
                         is_active := false |}
                    else row) (detectors self);
           conn_open := true |},
        Z.of_nat (length (List.filter expired (detectors self))))
  else Raise "RuntimeError".

End StateStore.

(** ** brain/core.py *)

Module BrainCore.

(** What one call reads from the clock and from the random source. *)
Record readings : Type := {
  (** [datetime.now()] in [verify_event] and in [cleanup_old_nonces] *)
  now_verify : Z;
  now_cleanup : Z;
  (** [datetime.now()] in [_log_security_alert] *)
  now_alert : Z;
  (** [time.time()] in [check_match] *)
  time_check_match : nat -> Q;
  (** [datetime.now()] in [compute_baseline] *)
  now_created : Z;
  now_updated : Z;
  (** [datetime.now()] in the first and second [_log_decision] of the call *)
  now_log : nat -> Z;
  (** [time.time()] in [add_pattern] *)
  time_add_pattern : nat -> Q;
  (** [random.random()] *)
  random_draw : Q;
  (** [datetime.now()] in [expire_old_detectors], [time.time()] in
      [evict_expired] *)
  now_expire : Z;
  time_evict : Q
}.

Record t : Type := {
  state_store : StateStore.t;
  audit_store : AuditStore.t;
  trace_store : TraceStore.t;
  crypto_core : CryptoCore.t;
  profiler : BaselineProfiler.t;
  detector : Detector.AnomalyDetector;
  effector : Effector.t;
  security_validator : SecurityValidator.t;
  pattern_cache : option PatternMemoryCache.t;
  anomaly_threshold : Q;
  soft_allow_probability : Q;
  soft_allow_threshold_low : Q;
  soft_allow_threshold_high : Q;
  _events_processed : Z;
  _maintenance_interval : Z;
  _security_violations : Z;
  _soft_allows : Z;
  _cache_hits : Z
}.

(** [BrainCore(state_store, audit_store, trace_store, crypto_core,
    anomaly_threshold=65.0, soft_allow_probability=0.15,
    enable_pattern_cache=True)] *)
Definition __init__ (state_store : StateStore.t) (audit_store : AuditStore.t)
    (trace_store : TraceStore.t) (crypto_core : CryptoCore.t)
    (anomaly_threshold soft_allow_probability : Q) (enable_pattern_cache : bool)
  : outcome t :=
  do security_validator <- SecurityValidator.__init__ crypto_core 300 100000;
  Ok {| state_store := state_store;
        audit_store := audit_store;
        trace_store := trace_store;
        crypto_core := crypto_core;
        profiler := BaselineProfiler.__init__ 20;
        detector := {| Detector.threshold_percentile := anomaly_threshold;
                       Detector.candidate_score_threshold := anomaly_threshold |};
        effector := Effector.__init__;
        security_validator := security_validator;
        pattern_cache :=
          if enable_pattern_cache then Some (PatternMemoryCache.__init__ 1800 10000)
          else None;
        anomaly_threshold := anomaly_threshold;
        soft_allow_probability := soft_allow_probability;
        soft_allow_threshold_low := py_max (anomaly_threshold - 10.0) 0.0;
        soft_allow_threshold_high := anomaly_threshold;
        _events_processed := 0;
        _maintenance_interval := 100;
        _security_violations := 0;
        _soft_allows := 0;
        _cache_hits := 0 |}.

(** Updates of single attributes. *)
Definition set_stores (self : t) (state_store : StateStore.t)
    (audit_store : AuditStore.t) (trace_store : TraceStore.t) : t :=
  {| state_store := state_store; audit_store := audit_store;
     trace_store := trace_store; crypto_core := crypto_core self;
     profiler := profiler self; detector := detector self;
     effector := effector self; security_validator := security_validator self;
     pattern_cache := pattern_cache self;
     anomaly_threshold := anomaly_threshold self;
     soft_allow_probability := soft_allow_probability self;
     soft_allow_threshold_low := soft_allow_threshold_low self;
     soft_allow_threshold_high := soft_allow_threshold_high self;
     _events_processed := _events_processed self;
     _maintenance_interval := _maintenance_interval self;
     _security_violations := _security_violations self;
     _soft_allows := _soft_allows self; _cache_hits := _cache_hits self |}.

Definition set_components (self : t) (profiler : BaselineProfiler.t)
    (effector : Effector.t) (security_validator : SecurityValidator.t)
    (pattern_cache : option PatternMemoryCache.t) : t :=
  {| state_store := state_store self; audit_store := audit_store self;
     trace_store := trace_store self; crypto_core := crypto_core self;
     profiler := profiler; detector := detector self;
     effector := effector; security_validator := security_validator;
     pattern_cache := pattern_cache;
     anomaly_threshold := anomaly_threshold self;
     soft_allow_probability := soft_allow_probability self;
     soft_allow_threshold_low := soft_allow_threshold_low self;
     soft_allow_threshold_high := soft_allow_threshold_high self;
     _events_processed := _events_processed self;
     _maintenance_interval := _maintenance_interval self;
     _security_violations := _security_violations self;
     _soft_allows := _soft_allows self; _cache_hits := _cache_hits self |}.

Definition set_counters (self : t)
    (events_processed security_violations soft_allows cache_hits : Z) : t :=
  {| state_store := state_store self; audit_store := audit_store self;
     trace_store := trace_store self; crypto_core := crypto_core self;
     profiler := profiler self; detector := detector self;
     effector := effector self; security_validator := security_validator self;
     pattern_cache := pattern_cache self;
     anomaly_threshold := anomaly_threshold self;
     soft_allow_probability := soft_allow_probability self;
     soft_allow_threshold_low := soft_allow_threshold_low self;
     soft_allow_threshold_high := soft_allow_threshold_high self;
     _events_processed := events_processed;
     _maintenance_interval := _maintenance_interval self;
     _security_violations := security_violations;
     _soft_allows := soft_allows; _cache_hits := cache_hits |}.

Definition set_audit_store (self : t) (audit_store : AuditStore.t) : t :=
  set_stores self (state_store self) audit_store (trace_store self).

Definition set_pattern_cache (self : t) (pattern_cache : option PatternMemoryCache.t) : t :=
  set_components self (profiler self) (effector self) (security_validator self)
    pattern_cache.

(** [BrainCore._log_decision]; [now] is [datetime.now()]. *)
Definition _log_decision `{Runtime} (self : t) (event : TelemetryEvent.t)
    (decision : Decision.t) (event_type : string) (now : Z) : outcome t :=
  let audit_event :=
    {| AuditEvent.timestamp := now;
       AuditEvent.event_type := event_type;
       AuditEvent.actor := "system";
       AuditEvent.action := Decision.action decision;
       AuditEvent.result := "success";
       AuditEvent.signature := "";
       AuditEvent.target := None;
       AuditEvent.anomaly_score := None;
       AuditEvent.metadata := None |} in
  do logged <- AuditStore.log_event (audit_store self) audit_event;
  Ok (set_audit_store self (fst logged)).

(** [BrainCore._log_security_alert]; [now] is [datetime.now()]. *)
Definition _log_security_alert `{Runtime} (self : t) (signed_event : SignedEvent.t)
    (reason : string) (now : Z) : outcome t :=
  let audit_event :=
    {| AuditEvent.timestamp := now;
       AuditEvent.event_type := "security_violation";
       AuditEvent.actor := "security_validator";
       AuditEvent.action := "block";
       AuditEvent.result := reason;
       AuditEvent.signature := "";
       AuditEvent.target := None;
       AuditEvent.anomaly_score := None;
       AuditEvent.metadata := None |} in
  do logged <- AuditStore.log_event (audit_store self) audit_event;
  Ok (set_audit_store self (fst logged)).

(** [BrainCore._perform_maintenance] *)
Definition _perform_maintenance `{Runtime} (self : t) (r : readings) : outcome t :=
  do expired <- StateStore.expire_old_detectors (state_store self) (now_expire r);
  let self := set_stores self (fst expired) (audit_store self) (trace_store self) in
  match pattern_cache self with
  | Some cache =>
      do evicted <- PatternMemoryCache.evict_expired cache (time_evict r);
      Ok (set_pattern_cache self (Some (fst evicted)))
  | None => Ok self
  end.

(** [if self.pattern_cache: self.pattern_cache.add_pattern(event)] *)
Definition cache_add_pattern `{Runtime} (self : t) (event : TelemetryEvent.t)
    (r : readings) : outcome t :=
  match pattern_cache self with
  | Some cache =>
      do cache <- PatternMemoryCache.add_pattern cache event (time_add_pattern r);
      Ok (set_pattern_cache self (Some cache))
  | None => Ok self
  end.

(** [BrainCore.process_event] *)
Definition process_event `{Runtime} (self : t) (event : TelemetryEvent.t) (r : readings)
  : outcome (t * Decision.t) :=
  (* Step 1: fast path, the pattern cache *)
  do checked <-
    match pattern_cache self with
    | Some cache =>
        do m <- PatternMemoryCache.check_match cache event 0.85 (time_check_match r);
        Ok (set_pattern_cache self (Some (fst m)), snd m)
    | None => Ok (self, false)
    end;
  let self := fst checked in
  if snd checked then
    let self :=
      set_counters self (_events_processed self) (_security_violations self)
        (_soft_allows self) (_cache_hits self + 1) in
    let decision := Decision.allow "Known legitimate pattern (cached)" 0.0 in
    do self <- _log_decision self event decision "cache_hit" (now_log r 0%nat);
    Ok (self, decision)
  else
  (* Step 2: the trace buffer *)
  do traced <- TraceStore.add_event (trace_store self) event;
  let self := set_stores self (state_store self) (audit_store self) traced in
  (* Step 3: the baseline *)
  do baseline <-
    StateStore.get_baseline (state_store self)
      (TelemetryEvent.function_name event) (TelemetryEvent.module_name event);
  let sufficient :=
    match baseline with
    | Some b => if BaselineProfile.is_sufficient b 20 then Some b else None
    | None => None
    end in
  match sufficient with
  | None =>
      (* Training mode *)
      let self :=
        set_components self (BaselineProfiler.add_sample (profiler self) event)
          (effector self) (security_validator self) (pattern_cache self) in
      do self <-
        (if (BaselineProfiler.min_samples (profiler self) <=?
             BaselineProfiler.get_sample_count (profiler self)
               (TelemetryEvent.function_name event)
               (TelemetryEvent.module_name event))%Z
         then
           do new_baseline <-
             BaselineProfiler.compute_baseline (profiler self)
               (TelemetryEvent.function_name event)
               (TelemetryEvent.module_name event) (now_created r) (now_updated r);
           match new_baseline with
           | Some b =>
               do stored <- StateStore.store_baseline (state_store self) b;
               Ok (set_stores self stored (audit_store self) (trace_store self))
           | None => Ok self
           end
         else Ok self);
      let decision := Decision.allow "Training mode" 0.0 in
      do self <- _log_decision self event decision "training" (now_log r 0%nat);
      do self <- cache_add_pattern self event r;
      Ok (self, decision)
  | Some baseline =>
      (* Step 4: the anomaly score *)
      let score := Detector.compute_anomaly_score event baseline in
      (* Step 5: the decision *)
      do decided <-
        (if Qlt_bool score (soft_allow_threshold_low self) then
           let decision := Decision.allow "Normal behavior" score in
           do self <- cache_add_pattern self event r;
           Ok (self, decision, 0%nat)
         else if Qlt_bool score (soft_allow_threshold_high self) then
           if Qlt_bool (random_draw r) (soft_allow_probability self) then
             let self :=
               set_counters self (_events_processed self) (_security_violations self)
                 (_soft_allows self + 1) (_cache_hits self) in
             let decision :=
               Decision.allow
                 ("Soft-allow (borderline, score=" ++ format_1f score ++ ")")%string
                 score in
             do self <- _log_decision self event decision "soft_allow" (now_log r 0%nat);
             do self <- cache_add_pattern self event r;
             Ok (self, decision, 1%nat)
           else
             Ok (self,
                 Decision.block
                   ("Borderline anomaly (score=" ++ format_1f score ++ ")")%string
                   score,
                 0%nat)
         else
           Ok (self, Decision.block "Anomaly detected" score, 0%nat));
      let '(self, decision, logged) := decided in
      (* Step 6: the effector *)
      let self :=
        set_components self (profiler self)
          (Effector.execute_action (effector self) decision)
          (security_validator self) (pattern_cache self) in
      (* Step 7: the audit log *)
      do self <- _log_decision self event decision "detection" (now_log r logged);
      (* Periodic maintenance *)
      let self :=
        set_counters self (_events_processed self + 1) (_security_violations self)
          (_soft_allows self) (_cache_hits self) in
      do self <-
        (if (_events_processed self mod _maintenance_interval self =? 0)%Z
         then _perform_maintenance self r else Ok self);
      Ok (self, decision)
  end.

(** [BrainCore.process_signed_event] *)
Definition process_signed_event `{Runtime} (self : t) (signed_event : SignedEvent.t)
    (r : readings) : outcome (t * Decision.t) :=
  do verified <-
    SecurityValidator.verify_event (security_validator self) signed_event
      (now_verify r) (now_cleanup r);
  let self :=
    set_components self (profiler self) (effector self) (fst verified)
      (pattern_cache self) in
  let '(is_valid, reason) := snd verified in
  if negb is_valid then
    let self :=
      set_counters self (_events_processed self) (_security_violations self + 1)
        (_soft_allows self) (_cache_hits self) in
    do self <- _log_security_alert self signed_event reason (now_alert r);
    Ok (self, Decision.block ("Security violation: " ++ reason)%string 1.0)
  else
    process_event self (SignedEvent.event signed_event) r.

End BrainCore.

(** ** The words of the specification, for comparison with the code *)

Module Spec.

(** "compute the z-score z = (duration - mean) / std (0 if std = 0)" *)
Definition z_score (duration mean std : Q) : Q :=
  if Qeq_dec std 0 then 0 else (duration - mean) / std.

(** "take distance = |z|" *)
Definition distance (event : TelemetryEvent.t) (baseline : BaselineProfile.t) : Q :=
  Qabs (z_score (TelemetryEvent.duration_ms event)
                (BaselineProfile.mean_duration_ms baseline)
                (BaselineProfile.std_duration_ms baseline)).

(** "linear y0 -> y1 over [x0, x1]": the line through the two points. *)
Definition linear (x0 y0 x1 y1 : Q) (x : Q) : Q :=
  y0 + (y1 - y0) * ((x - x0) / (x1 - x0)).

End Spec.

(** ** Sample values *)

Module Sample.

(** An event of function [f] in module [m] lasting [d] milliseconds. *)
Definition event (d : Q) : TelemetryEvent.t :=
  {| TelemetryEvent.timestamp := 0;
     TelemetryEvent.event_id := "evt-1";
     TelemetryEvent.process_id := 1234;
     TelemetryEvent.thread_id := 5678;
     TelemetryEvent.function_name := "f";
     TelemetryEvent.module_name := "m";
     TelemetryEvent.duration_ms := d;
     TelemetryEvent.args_metadata := [];
     TelemetryEvent.resource_tags := [];
     TelemetryEvent.redaction_applied := false;
     TelemetryEvent.sampling_rate := 0.1 |}.

(** A baseline of [f] with the given mean and standard deviation. *)
Definition baseline (mean std : Q) : BaselineProfile.t :=
  {| BaselineProfile.function_name := "f";
     BaselineProfile.module_name := "m";
     BaselineProfile.version := 1;
     BaselineProfile.created_at := 0;
     BaselineProfile.updated_at := 0;
     BaselineProfile.sample_count := 100;
     BaselineProfile.mean_duration_ms := mean;
     BaselineProfile.std_duration_ms := std;
     BaselineProfile.p50_duration_ms := mean;
     BaselineProfile.p95_duration_ms := mean + 2 * std;
     BaselineProfile.p99_duration_ms := mean + 3 * std;
     BaselineProfile.historical_distances := [] |}.

End Sample.

(** ** A small runtime, to run the program on sample values

    The functions below stand for the Python runtime in the examples: a
    printer of JSON values into one-line documents that can be read back, a
    printer of dates, a keyed digest, and a square root to six decimals. *)

Module SampleRuntime.

Definition leaf : Type := (bool + Z + (Z * positive) + string)%type.

Fixpoint json_to_tree (v : json) : gen_tree leaf :=
  match v with
  | JNull => GenNode 0 []
  | JBool b => GenLeaf (inl (inl (inl b)))
  | JInt z => GenLeaf (inl (inl (inr z)))
  | JFloat q => GenLeaf (inl (inr (Qnum q, Qden q)))
  | JNaN => GenNode 6 []
  | JStr s => GenLeaf (inr s)
  | JList l => GenNode 1 (map json_to_tree l)
  | JTuple l => GenNode 4 (map json_to_tree l)
  | JDict d =>
      GenNode 2 (map (fun kv => GenNode 3 [GenLeaf (inr (fst kv)); json_to_tree (snd kv)]) d)
  | JIntDict d =>
      GenNode 5
        (map (fun kv => GenNode 3 [GenLeaf (inl (inl (inr (fst kv)))); json_to_tree (snd kv)]) d)
  end.

Fixpoint tree_to_json (t : gen_tree leaf) : option json :=
  match t with
  | GenLeaf (inl (inl (inl b))) => Some (JBool b)
  | GenLeaf (inl (inl (inr z))) => Some (JInt z)
  | GenLeaf (inl (inr (n, d))) => Some (JFloat (Qmake n d))
  | GenLeaf (inr s) => Some (JStr s)
  | GenNode 0 _ => Some JNull
  | GenNode 6 _ => Some JNaN
  | GenNode 4 ts =>
      option_map JTuple
        ((fix go (ts : list (gen_tree leaf)) : option (list json) :=
            match ts with
            | [] => Some []
            | t :: ts' =>
                match tree_to_json t, go ts' with
                | Some v, Some vs => Some (v :: vs)
                | _, _ => None
                end
            end) ts)
  | GenNode 5 ts =>
      option_map JIntDict
        ((fix go (ts : list (gen_tree leaf)) : option (list (Z * json)) :=
            match ts with
            | [] => Some []
            | GenNode 3 [GenLeaf (inl (inl (inr k))); t] :: ts' =>
                match tree_to_json t, go ts' with
                | Some v, Some vs => Some ((k, v) :: vs)
                | _, _ => None
                end
            | _ => None
            end) ts)
  | GenNode 1 ts =>
      option_map JList
        ((fix go (ts : list (gen_tree leaf)) : option (list json) :=
            match ts with
            | [] => Some []
            | t :: ts' =>
                match tree_to_json t, go ts' with
                | Some v, Some vs => Some (v :: vs)
                | _, _ => None
                end
            end) ts)
  | GenNode 2 ts =>
      option_map JDict
        ((fix go (ts : list (gen_tree leaf)) : option (list (string * json)) :=
            match ts with
            | [] => Some []
            | GenNode 3 [GenLeaf (inr k); t] :: ts' =>
                match tree_to_json t, go ts' with
                | Some v, Some vs => Some ((k, v) :: vs)
                | _, _ => None
                end
            | _ => None
            end) ts)
  | _ => None
  end.

(** A positive number as the string of its binary digits, lowest first. *)
Fixpoint pos_to_str (p : positive) : string :=
  match p with
  | xH => EmptyString
  | xO p' => String "0" (pos_to_str p')
  | xI p' => String "1" (pos_to_str p')
  end.

Fixpoint str_to_pos (s : string) : option positive :=
  match s with
  | EmptyString => Some xH
  | String c s' =>
      if Ascii.eqb c "0" then option_map xO (str_to_pos s')
      else if Ascii.eqb c "1" then option_map xI (str_to_pos s')
      else None
  end.

(** The document of a value is the code of what is read back from it. *)
Definition dumps (v : json) : string :=
  String "J" (pos_to_str (encode (json_to_tree (json_normal v)))).

Definition loads (s : string) : option json :=
  match s with
  | String c s' =>
      if Ascii.eqb c "J" then
        match str_to_pos s' with
        | Some p =>
            match decode p with
            | Some t => tree_to_json t
            | None => None
            end
        | None => None
        end
      else None
  | EmptyString => None
  end.

Definition iso (t : Z) : string := pos_to_str (encode t).

Definition fromiso (s : string) : option Z :=
  match str_to_pos s with
  | Some p => decode p
  | None => None
  end.

(** The two hexadecimal digits of a character, the digits of a string. *)
Definition hex_digit (n : nat) : ascii :=
  ascii_of_nat (if Nat.ltb n 10 then 48 + n else 87 + n).

Fixpoint hex (s : string) : string :=
  match s with
  | EmptyString => EmptyString
  | String c s' =>
      String (hex_digit (nat_of_ascii c / 16))
        (String (hex_digit (nat_of_ascii c mod 16)) (hex s'))
  end.

(** A checksum of 32 bits that depends on the order of the characters. *)
Fixpoint checksum (s : string) (acc : N) : N :=
  match s with
  | EmptyString => acc
  | String c s' => checksum s' ((acc * 31 + N_of_ascii c) mod 4294967296)%N
  end.

(** A keyed digest in hexadecimal digits. *)
Definition hmac (key data : string) : string :=
  hex (key ++ "," ++ pos_to_str (N.succ_pos (checksum data 0))).

Definition md5 (data : string) : string := ("md5(" ++ data ++ ")")%string.

(** The square root to six decimals, from the integer square root. *)
Definition sqrt (x : Q) : Q :=
  inject_Z (Z.sqrt (Qfloor (x * 1000000000000))) / 1000000.

Definition join_keys {V} (d : pydict V) : string :=
  fold_right (fun k acc => (k ++ ";" ++ acc)%string) EmptyString (dict_keys d).

Definition str_dict (d : pydict json) : string := ("{" ++ join_keys d ++ "}")%string.

Definition str_items (d : pydict Z) : string := ("[" ++ join_keys d ++ "]")%string.

(** A number with one decimal, and as a percentage with one decimal. *)
Definition fmt_1f (x : Q) : string :=
  let tenths := Qfloor (x * 10 + (1 # 2)) in
  (pretty (tenths / 10)%Z ++ "." ++ pretty (tenths mod 10)%Z)%string.

Definition fmt_pct (x : Q) : string := (fmt_1f (x * 100) ++ "%")%string.

End SampleRuntime.

(** ** The sample runtime is a runtime *)

Section SampleRuntimeFacts.
Import SampleRuntime.

Lemma tree_to_json_to_tree (v : json) : tree_to_json (json_to_tree v) = Some v.
Proof.
  induction v as [| b | z | q | | s | l Hl | l Hl | d Hd | d Hd] using json_nested_ind;
    try reflexivity.
  - destruct q; reflexivity.
  - cbn [json_to_tree tree_to_json].
    match goal with |- option_map _ ?x = _ => assert (E : x = Some l) end.
    { induction Hl as [| x l Hx _ IH]; [reflexivity |].
      cbn [map]. rewrite Hx, IH. reflexivity. }
    rewrite E. reflexivity.
  - cbn [json_to_tree tree_to_json].
    match goal with |- option_map _ ?x = _ => assert (E : x = Some l) end.
    { induction Hl as [| x l Hx _ IH]; [reflexivity |].
      cbn [map]. rewrite Hx, IH. reflexivity. }
    rewrite E. reflexivity.
  - cbn [json_to_tree tree_to_json].
    match goal with |- option_map _ ?x = _ => assert (E : x = Some d) end.
    { induction Hd as [| [k x] d Hx _ IH]; [reflexivity |].
      cbn [map fst snd] in *. rewrite Hx, IH. reflexivity. }
    rewrite E. reflexivity.
  - cbn [json_to_tree tree_to_json].
    match goal with |- option_map _ ?x = _ => assert (E : x = Some d) end.
    { induction Hd as [| [k x] d Hx _ IH]; [reflexivity |].
      cbn [map fst snd] in *. rewrite Hx, IH. reflexivity. }
    rewrite E. reflexivity.
Qed.

Lemma str_to_pos_to_str (p : positive) : str_to_pos (pos_to_str p) = Some p.
Proof. induction p; cbn; rewrite ?IHp; reflexivity. Qed.

Lemma loads_dumps (v : json) : loads (dumps v) = Some (json_normal v).
Proof.
  unfold loads, dumps. cbn [Ascii.eqb Bool.eqb].
  rewrite str_to_pos_to_str, decode_encode. apply tree_to_json_to_tree.
Qed.

Lemma hex_ascii (s : string) : is_ascii (hex s) = true.
Proof.
  induction s as [| c s IH]; [reflexivity |].
  cbn [hex is_ascii]. rewrite IH, !andb_true_r.
  assert (Hd : forall n, (n < 16)%nat ->
            Nat.ltb (nat_of_ascii (hex_digit n)) 128 = true).
  { intros n Hn. do 16 (destruct n as [| n]; [reflexivity |]). lia. }
  rewrite !Hd; [reflexivity | |].
  - apply Nat.mod_upper_bound. lia.
  - apply Nat.Div0.div_lt_upper_bound. pose proof (nat_ascii_bounded c). lia.
Qed.

Lemma hmac_ascii (key data : string) : is_ascii (hmac key data) = true.
Proof. apply hex_ascii. Qed.

Lemma fromiso_iso (t : Z) : fromiso (iso t) = Some t.
Proof. unfold fromiso, iso. rewrite str_to_pos_to_str. apply decode_encode. Qed.

Lemma py_rstrip_cons (c : ascii) (s : string) :
  is_space c = false -> py_rstrip (String c s) = String c (py_rstrip s).
Proof. intros E. cbn [py_rstrip]. rewrite E. destruct (py_rstrip s); reflexivity. Qed.

Lemma py_rstrip_digits (p : positive) : py_rstrip (pos_to_str p) = pos_to_str p.
Proof.
  induction p; cbn [pos_to_str]; [| | reflexivity];
    rewrite py_rstrip_cons by reflexivity; now rewrite IHp.
Qed.

Lemma dumps_strip (v : json) : py_strip (dumps v) = dumps v.
Proof.
  unfold py_strip, dumps.
  change (py_lstrip (String "J" ?s)) with (String "J" s).
  rewrite py_rstrip_cons by reflexivity. now rewrite py_rstrip_digits.
Qed.

Lemma dumps_nonempty (v : json) : str_is_empty (dumps v) = false.
Proof. reflexivity. Qed.

Lemma sqrt_nonneg (x : Q) : 0 <= sqrt x.
Proof.
  unfold sqrt. apply Qle_shift_div_l; [reflexivity |].
  rewrite Qmult_0_l. change 0 with (inject_Z 0). rewrite <- Zle_Qle.
  apply Z.sqrt_nonneg.
Qed.

End SampleRuntimeFacts.

Definition sample_runtime : Runtime := {|
  hmac_sha256_hex := SampleRuntime.hmac;
  hmac_sha256_hex_ascii := hmac_ascii;
  md5_hexdigest := SampleRuntime.md5;
  py_sqrt := SampleRuntime.sqrt;
  py_sqrt_nonneg := sqrt_nonneg;
  isoformat := SampleRuntime.iso;
  fromisoformat := SampleRuntime.fromiso;
  fromisoformat_isoformat := fromiso_iso;
  json_dumps := SampleRuntime.dumps;
  json_loads := SampleRuntime.loads;
  json_loads_dumps := loads_dumps;
  json_dumps_strip := dumps_strip;
  json_dumps_nonempty := dumps_nonempty;
  py_str_dict := SampleRuntime.str_dict;
  py_str_sorted_items := SampleRuntime.str_items;
  format_1f := SampleRuntime.fmt_1f;
  format_pct := SampleRuntime.fmt_pct
|}.

(** ** The words of the specification on baselines *)

Module SpecBaseline.

(** "the samples added for that key": the durations of the events of the
    function [function_name] of the module [module_name], in the order of
    their addition. *)
Definition samples_added (events : list TelemetryEvent.t)
    (function_name module_name : string) : list Q :=
  map TelemetryEvent.duration_ms
    (List.filter
       (fun e =>
          String.eqb (TelemetryEvent.function_name e) function_name
          && String.eqb (TelemetryEvent.module_name e) module_name)
       events).

(** The durations the profiler files under the string of the pair, which is
    the key of its dictionary. *)
Definition samples_filed (events : list TelemetryEvent.t)
    (function_name module_name : string) : list Q :=
  map TelemetryEvent.duration_ms
    (List.filter
       (fun e =>
          String.eqb
            (BaselineProfiler.key_of (TelemetryEvent.function_name e)
                                     (TelemetryEvent.module_name e))
            (BaselineProfiler.key_of function_name module_name))
       events).

(** No event of another pair has the string of the pair. *)
Definition key_unshared (events : list TelemetryEvent.t)
    (function_name module_name : string) : Prop :=
  forall e, In e events ->
    BaselineProfiler.key_of (TelemetryEvent.function_name e) (TelemetryEvent.module_name e)
    = BaselineProfiler.key_of function_name module_name ->
    TelemetryEvent.function_name e = function_name /\
    TelemetryEvent.module_name e = module_name.

(** The profiler after the samples of [events] have been added. *)
Definition profiler_after (min_samples : Z) (events : list TelemetryEvent.t)
  : BaselineProfiler.t :=
  fold_left BaselineProfiler.add_sample events (BaselineProfiler.__init__ min_samples).

(** "the arithmetic mean of the samples" *)
Definition arithmetic_mean (xs : list Q) : Q :=
  fold_right Qplus 0 xs / inject_Z (Z.of_nat (length xs)).

(** "the sample standard deviation", before its square root is taken *)
Definition sample_variance (xs : list Q) : Q :=
  let m := arithmetic_mean xs in
  fold_right Qplus 0 (map (fun x => (x - m) * (x - m)) xs)
  / inject_Z (Z.of_nat (length xs) - 1).

(** The sentence of the specification: for every key, none is returned if
    and only if fewer than [min_samples] samples have been added for it, and
    a profile of the samples added otherwise. *)
Definition none_iff_too_few `{Runtime} : Prop :=
  forall (min_samples : Z) (events : list TelemetryEvent.t)
         (function_name module_name : string) (now1 now2 : Z),
    let self := profiler_after min_samples events in
    let n := Z.of_nat (length (samples_added events function_name module_name)) in
    (BaselineProfiler.compute_baseline self function_name module_name now1 now2 = Ok None
     <-> (n < min_samples)%Z) /\
    ((min_samples <= n)%Z ->
     exists profile,
       BaselineProfiler.compute_baseline self function_name module_name now1 now2
         = Ok (Some profile) /\
       BaselineProfile.sample_count profile = n).

End SpecBaseline.

(** Twenty training events of [f], from 50.0 ms upwards in steps of 0.1 ms. *)
Definition training_events : list TelemetryEvent.t :=
  map (fun i => Sample.event (50 + inject_Z (Z.of_nat i) / 10)) (seq 0 20).

(** ** The words of the specification on the pattern cache *)

Module SpecCache.

(** "its key function_name:module_name" *)
Definition event_key (event : TelemetryEvent.t) : string :=
  (TelemetryEvent.function_name event ++ ":" ++ TelemetryEvent.module_name event)%string.

End SpecCache.

(** ** The words of the specification on replay protection *)

Module SpecReplay.

(** "within the freshness window": the age of the signed event at [now] does
    not exceed the window of the validator. *)
Definition fresh (self : SecurityValidator.t) (signed_event : SignedEvent.t) (now : Z) : Prop :=
  total_seconds now (SignedEvent.timestamp signed_event)
  <= inject_Z (SecurityValidator.nonce_expiry_seconds self).

(** The nonces of the deque are distinct and all in the seen-set. *)
Definition tracked (self : SecurityValidator.t) : Prop :=
  NoDup (map fst (SecurityValidator._nonce_timestamps self)) /\
  Forall (fun entry => fst entry ∈ SecurityValidator._seen_nonces self)
         (SecurityValidator._nonce_timestamps self).





End SpecReplay.

(** A validator with no nonce seen, a forged and a genuine signed event
    carrying the same nonce. *)
Definition sample_crypto : CryptoCore.t := {| CryptoCore._signing_key := Some "key" |}.

Definition sample_validator : SecurityValidator.t :=
  {| SecurityValidator.crypto := sample_crypto;
     SecurityValidator.nonce_expiry_seconds := 300;
     SecurityValidator.max_nonce_cache := 100000;
     SecurityValidator._seen_nonces := ∅;
     SecurityValidator._nonce_timestamps := [];
     SecurityValidator._total_validations := 0;
     SecurityValidator._valid_events := 0;
     SecurityValidator._invalid_signatures := 0;
     SecurityValidator._replay_attacks := 0;
     SecurityValidator._expired_events := 0 |}.

Definition forged_event : SignedEvent.t :=
  {| SignedEvent.event := Sample.event 50;
     SignedEvent.signature := "forged";
     SignedEvent.nonce := "nonce-1";
     SignedEvent.timestamp := 0 |}.

Definition genuine_event : SignedEvent.t :=
  {| SignedEvent.event := Sample.event 50;
     SignedEvent.signature :=
       SampleRuntime.hmac "key"
         (SampleRuntime.str_dict
            (TelemetryEventJson.to_dict (H := sample_runtime) (Sample.event 50))
          ++ "|nonce-1|" ++ SampleRuntime.iso 0)%string;
     SignedEvent.nonce := "nonce-1";
     SignedEvent.timestamp := 0 |}.

(** ** The words of the specification on the audit ledger *)

Module SpecAudit.

(** The store after a sequence of calls of public methods. *)
Fixpoint run `{Runtime} (self : AuditStore.t) (calls : list AuditStore.call)
  : outcome AuditStore.t :=
  match calls with
  | [] => Ok self
  | c :: calls' =>
      do self' <- AuditStore.after self c;
      run self' calls'
  end.

(** "a signature that Signer.verify accepts over the entry's canonical
    encoding excluding the signature field" *)
Definition signature_verifies `{Runtime} (crypto : CryptoCore.t) (entry : AuditEvent.t)
  : Prop :=
  CryptoCore.verify_signature crypto (AuditEvent.get_signable_data entry)
    (AuditEvent.signature entry) = Ok true.

End SpecAudit.

(** An audit event before it is logged. *)
Definition sample_audit_event : AuditEvent.t :=
  {| AuditEvent.timestamp := 0;
     AuditEvent.event_type := "detection";
     AuditEvent.actor := "system";
     AuditEvent.action := "allow";
     AuditEvent.result := "success";
     AuditEvent.signature := "";
     AuditEvent.target := None;
     AuditEvent.anomaly_score := None;
     AuditEvent.metadata := None |}.

(** ** The words of the specification on the decider *)

Module SpecDecider.

(** The tuning parameters of a decider. *)
Definition tuning (self : BrainCore.t) : Q * Q * Q * Q :=
  (BrainCore.anomaly_threshold self, BrainCore.soft_allow_probability self,
   BrainCore.soft_allow_threshold_low self, BrainCore.soft_allow_threshold_high self).

(** The states a decider goes through from [start] by processing events. *)
Inductive reachable `{Runtime} (start : BrainCore.t) : BrainCore.t -> Prop :=
| reachable_start : reachable start start
| reachable_event (self self' : BrainCore.t) (event : TelemetryEvent.t)
    (r : BrainCore.readings) (decision : Decision.t) :
    reachable start self ->
    BrainCore.process_event self event r = Ok (self', decision) ->
    reachable start self'
| reachable_signed_event (self self' : BrainCore.t) (signed_event : SignedEvent.t)
    (r : BrainCore.readings) (decision : Decision.t) :
    reachable start self ->
    BrainCore.process_signed_event self signed_event r = Ok (self', decision) ->
    reachable start self'.

End SpecDecider.

(** A decider as its constructor builds it with the default tuning, and
    clock readings. *)
Definition sample_brain : BrainCore.t :=
  {| BrainCore.state_store := StateStore.__init__;
     BrainCore.audit_store := AuditStore.__init__ sample_crypto;
     BrainCore.trace_store := TraceStore.__init__ 1000;
     BrainCore.crypto_core := sample_crypto;
     BrainCore.profiler := BaselineProfiler.__init__ 20;
     BrainCore.detector :=
       {| Detector.threshold_percentile := 65.0;
          Detector.candidate_score_threshold := 65.0 |};
     BrainCore.effector := Effector.__init__;
     BrainCore.security_validator := sample_validator;
     BrainCore.pattern_cache := Some (PatternMemoryCache.__init__ 1800 10000);
     BrainCore.anomaly_threshold := 65.0;
     BrainCore.soft_allow_probability := 0.15;
     BrainCore.soft_allow_threshold_low := py_max (65.0 - 10.0) 0.0;
     BrainCore.soft_allow_threshold_high := 65.0;
     BrainCore._events_processed := 0;
     BrainCore._maintenance_interval := 100;
     BrainCore._security_violations := 0;
     BrainCore._soft_allows := 0;
     BrainCore._cache_hits := 0 |}.

Definition sample_readings : BrainCore.readings :=
  {| BrainCore.now_verify := 0;
     BrainCore.now_cleanup := 0;
     BrainCore.now_alert := 0;
     BrainCore.time_check_match := fun _ => 0;
     BrainCore.now_created := 0;
     BrainCore.now_updated := 0;
     BrainCore.now_log := fun _ => 0%Z;
     BrainCore.time_add_pattern := fun _ => 0;
     BrainCore.random_draw := 0.5;
     BrainCore.now_expire := 0;
     BrainCore.time_evict := 0 |}.

(** A queue of capacity 10 holding 8 events, and a cache holding the
    fingerprint of [f] in [m]. *)
Definition sample_queue : EventQueue.t :=
  {| EventQueue.max_size := 10;
     EventQueue.backpressure_threshold := 0.8;
     EventQueue._queue := repeat (Sample.event 50) 8;
     EventQueue._total_enqueued := 8;
     EventQueue._total_dropped := 0;
     EventQueue._total_dequeued := 0 |}.

Definition sample_fingerprint : PatternFingerprint.t :=
  {| PatternFingerprint.function_name := "f";
     PatternFingerprint.module_name := "m";
     PatternFingerprint.duration_min := 45;
     PatternFingerprint.duration_max := 55;
     PatternFingerprint.arg_types := [];
     PatternFingerprint.resource_signature := "md5([])";
     PatternFingerprint.timestamp := 100;
     PatternFingerprint.hit_count := 1 |}.

Definition sample_cache : PatternMemoryCache.t :=
  {| PatternMemoryCache.ttl_seconds := 1800;
     PatternMemoryCache.max_size := 10000;
     PatternMemoryCache._cache := [("f:m"%string, sample_fingerprint)];
     PatternMemoryCache._access_times := [("f:m"%string, 100)];
     PatternMemoryCache._hits := 0;
     PatternMemoryCache._misses := 0;
     PatternMemoryCache._evictions := 0 |}.

(** ** Sequences of queue operations *)

Module QueueRuns.

(** The queue after the events of [events] have been enqueued in order. *)
Definition enqueue_all (self : EventQueue.t) (events : list TelemetryEvent.t)
  : EventQueue.t :=
  fold_left (fun q e => fst (EventQueue.enqueue q e)) events self.

(** [n] calls of [dequeue]: the queue left and the events returned, in order
    (a call on the empty queue returns none). *)
Fixpoint dequeue_n (n : nat) (self : EventQueue.t)
  : EventQueue.t * list TelemetryEvent.t :=
  match n with
  | O => (self, [])
  | S n' =>
      match EventQueue.dequeue self with
      | (self', Some e) =>
          let '(self'', es) := dequeue_n n' self' in (self'', e :: es)
      | (self', None) => dequeue_n n' self'
      end
  end.

(** The counters of a queue account for every event enqueued. *)
Definition accounted (self : EventQueue.t) : Prop :=
  EventQueue._total_enqueued self
  = (EventQueue.size self + EventQueue._total_dropped self
     + EventQueue._total_dequeued self)%Z.

End QueueRuns.

(** ** cellagent/secure_transport.py *)

Module SecureTransport.

Record t : Type := {
  crypto : CryptoCore.t;
  _nonce_cache : gset string;
  _nonce_cache_size : Z;
  _nonce_timestamps : list (string * Z)
}.

(** [SecureTransport(crypto_core, nonce_cache_size=10000)] *)
Definition __init__ (crypto_core : CryptoCore.t) (nonce_cache_size : Z) : outcome t :=
  if (nonce_cache_size <? 0)%Z then Raise "ValueError"
  else Ok {| crypto := crypto_core;
             _nonce_cache := ∅;
             _nonce_cache_size := nonce_cache_size;
             _nonce_timestamps := [] |}.

(** [SecureTransport.sign_event]; [nonce] is [str(uuid.uuid4())] and [now]
    is [datetime.now()]. *)
Definition sign_event `{Runtime} (self : t) (event : TelemetryEvent.t)
    (nonce : string) (now : Z) : outcome SignedEvent.t :=
  let timestamp := now in
  let event_dict := TelemetryEventJson.to_dict event in
  let sign_data :=
    (py_str_dict event_dict ++ "|" ++ nonce ++ "|" ++ isoformat timestamp)%string in
  do signature <- CryptoCore.sign_hmac (crypto self) sign_data;
  Ok {| SignedEvent.event := event;
        SignedEvent.signature := signature;
        SignedEvent.nonce := nonce;
        SignedEvent.timestamp := timestamp |}.

(** [SecureTransport._cleanup_old_nonces(max_age_seconds=300)]: the loop is
    the loop of [SecurityValidator.cleanup_old_nonces]. *)
Definition _cleanup_old_nonces (self : t) (max_age_seconds : Z) (now : Z) : t :=
  let current_time := now in
  let cutoff_time := posix_timestamp current_time - inject_Z max_age_seconds in
  let '(cache, stamps, _) :=
    SecurityValidator.cleanup_loop cutoff_time (_nonce_cache self) (_nonce_timestamps self) in
  {| crypto := crypto self;
     _nonce_cache := cache;
     _nonce_cache_size := _nonce_cache_size self;
     _nonce_timestamps := stamps |}.

(** [SecureTransport._add_nonce] *)
Definition _add_nonce (self : t) (nonce : string) (timestamp : Z) (now : Z) : t :=
  let self :=
    {| crypto := crypto self;
       _nonce_cache := {[nonce]} ∪ _nonce_cache self;
       _nonce_cache_size := _nonce_cache_size self;
       _nonce_timestamps :=
         deque_append (_nonce_cache_size self) (_nonce_timestamps self)
           (nonce, timestamp) |} in
  if (_nonce_cache_size self <? Z.of_nat (size (_nonce_cache self)))%Z
  then _cleanup_old_nonces self 300 now
  else self.

(** [SecureTransport.verify_event]; [now] is the clock as the cleanup of the
    nonce cache reads it. *)
Definition verify_event `{Runtime} (self : t) (signed_event : SignedEvent.t) (now : Z)
  : outcome (t * bool) :=
  if bool_decide (SignedEvent.nonce signed_event ∈ _nonce_cache self) then Ok (self, false)
  else
    let event_dict := TelemetryEventJson.to_dict (SignedEvent.event signed_event) in
    let sign_data :=
      (py_str_dict event_dict ++ "|" ++ SignedEvent.nonce signed_event ++ "|" ++
       isoformat (SignedEvent.timestamp signed_event))%string in
    do is_valid <- CryptoCore.verify_hmac (crypto self) sign_data
                     (SignedEvent.signature signed_event);
    if is_valid
    then Ok (_add_nonce self (SignedEvent.nonce signed_event)
               (SignedEvent.timestamp signed_event) now, true)
    else Ok (self, is_valid).

End SecureTransport.

(** A transport holding the sample key. *)
Definition sample_transport : SecureTransport.t :=
  {| SecureTransport.crypto := sample_crypto;
     SecureTransport._nonce_cache := ∅;
     SecureTransport._nonce_cache_size := 10000;
     SecureTransport._nonce_timestamps := [] |}.

(** ** Facts a validator keeps count of *)

Module ValidatorStats.

(** Every validation counted has one of the four outcomes. *)
Definition accounted (self : SecurityValidator.t) : Prop :=
  SecurityValidator._total_validations self
  = (SecurityValidator._valid_events self + SecurityValidator._invalid_signatures self
     + SecurityValidator._replay_attacks self + SecurityValidator._expired_events self)%Z.

(** The text an event is signed over. *)
Definition sign_data `{Runtime} (signed_event : SignedEvent.t) : string :=
  (py_str_dict (TelemetryEventJson.to_dict (SignedEvent.event signed_event)) ++ "|" ++
   SignedEvent.nonce signed_event ++ "|" ++
   isoformat (SignedEvent.timestamp signed_event))%string.

End ValidatorStats.

(** ** Properties of fingerprints and of the tables of the pattern cache *)

Module CacheTables.

(** The duration tests of [PatternFingerprint.matches]. *)
Definition in_range (self : PatternFingerprint.t) (d : Q) : Prop :=
  PatternFingerprint.duration_min self <= d /\ d <= PatternFingerprint.duration_max self.

Definition in_tolerance (self : PatternFingerprint.t) (d : Q) : Prop :=
  PatternFingerprint.duration_min self * 0.8 <= d /\
  d <= PatternFingerprint.duration_max self * 1.2.

(** The two dictionaries of a cache hold the same keys in the same order,
    each key once. *)
Definition well_formed (self : PatternMemoryCache.t) : Prop :=
  NoDup (dict_keys (PatternMemoryCache._cache self)) /\
  dict_keys (PatternMemoryCache._cache self)
  = dict_keys (PatternMemoryCache._access_times self).

(** The expiry test of [check_match] and [evict_expired]. *)
Definition expired (self : PatternMemoryCache.t) (current_time : Q)
    (pattern : PatternFingerprint.t) : bool :=
  Qlt_bool (inject_Z (PatternMemoryCache.ttl_seconds self))
           (current_time - PatternFingerprint.timestamp pattern).

End CacheTables.

(** ** Lines and entries of the audit log *)

Module AuditLines.

(** The entry [log_event] writes for [event] under the key [key]. *)
Definition signed `{Runtime} (key : string) (event : AuditEvent.t) : AuditEvent.t :=
  AuditEvent.set_signature event
    (hmac_sha256_hex key (AuditEvent.get_signable_data event)).


(** The time range of [export_logs], both bounds included. *)
Definition in_period (start_time end_time : option Z) (event : AuditEvent.t) : bool :=
  match start_time with
  | Some s => (s <=? AuditEvent.timestamp event)%Z
  | None => true
  end &&
  match end_time with
  | Some e => (AuditEvent.timestamp event <=? e)%Z
  | None => true
  end.

End AuditLines.

(** ** The audit trail of the decider *)

Module AuditTrail.

(** An audit entry that records a decision. *)
Definition records (decision : Decision.t) (entry : AuditEvent.t) : Prop :=
  AuditEvent.actor entry = "system"%string /\
  AuditEvent.action entry = Decision.action decision /\
  AuditEvent.result entry = "success"%string.

(** The lines of the audit log of a decider. *)
Definition lines (self : BrainCore.t) : list string :=
  AuditStore.log_file (BrainCore.audit_store self).

End AuditTrail.

(** ** The buffers of the trace store and the rows of the state store *)

Module TraceBuffers.

(** The key of the buffer of an event, [f"{module_name}.{function_name}"]. *)
Definition key_of (event : TelemetryEvent.t) : string :=
  (TelemetryEvent.module_name event ++ "." ++ TelemetryEvent.function_name event)%string.

(** No buffer holds more events than the capacity per function. *)
Definition bounded (self : TraceStore.t) : Prop :=
  forall key buffer,
    TraceStore._buffers self !! key = Some buffer ->
    (Z.of_nat (length buffer) <= TraceStore.capacity_per_function self)%Z.

End TraceBuffers.

Module BaselineRows.

(** A row of the function [function_name] in [module_name]. *)
Definition of_function (function_name module_name : string) (row : BaselineProfile.t)
  : Prop :=
  BaselineProfile.function_name row = function_name /\
  BaselineProfile.module_name row = module_name.

End BaselineRows.

(** ** What is read back from the document of a record *)

Module Normal.

(** A dictionary with string keys, read back. *)
Definition dict (d : pydict json) : pydict json :=
  map (fun kv => (fst kv, json_normal (snd kv))) d.

(** The values of a dictionary are read back as they were written. *)
Definition native (d : pydict json) : bool :=
  forallb (fun kv => json_native (snd kv)) d.

Definition native_option (o : option (pydict json)) : bool :=
  match o with
  | Some d => native d
  | None => true
  end.

Definition telemetry_event (x : TelemetryEvent.t) : TelemetryEvent.t :=
  {| TelemetryEvent.timestamp := TelemetryEvent.timestamp x;
     TelemetryEvent.event_id := TelemetryEvent.event_id x;
     TelemetryEvent.process_id := TelemetryEvent.process_id x;
     TelemetryEvent.thread_id := TelemetryEvent.thread_id x;
     TelemetryEvent.function_name := TelemetryEvent.function_name x;
     TelemetryEvent.module_name := TelemetryEvent.module_name x;
     TelemetryEvent.duration_ms := TelemetryEvent.duration_ms x;
     TelemetryEvent.args_metadata := dict (TelemetryEvent.args_metadata x);
     TelemetryEvent.resource_tags := TelemetryEvent.resource_tags x;
     TelemetryEvent.redaction_applied := TelemetryEvent.redaction_applied x;
     TelemetryEvent.sampling_rate := TelemetryEvent.sampling_rate x |}.

Definition decision (x : Decision.t) : Decision.t :=
  {| Decision.action := Decision.action x;
     Decision.reason := Decision.reason x;
     Decision.anomaly_score := Decision.anomaly_score x;
     Decision.detector_id := Decision.detector_id x;
     Decision.metadata := option_map dict (Decision.metadata x) |}.

Definition audit_event (x : AuditEvent.t) : AuditEvent.t :=
  {| AuditEvent.timestamp := AuditEvent.timestamp x;
     AuditEvent.event_type := AuditEvent.event_type x;
     AuditEvent.actor := AuditEvent.actor x;
     AuditEvent.action := AuditEvent.action x;
     AuditEvent.result := AuditEvent.result x;
     AuditEvent.signature := AuditEvent.signature x;
     AuditEvent.target := AuditEvent.target x;
     AuditEvent.anomaly_score := AuditEvent.anomaly_score x;
     AuditEvent.metadata := option_map dict (AuditEvent.metadata x) |}.

End Normal.

(** ** The words of the specification on serialisation *)

Module SpecRoundTrip.

(** The sentence of the specification: for every value of the three
    classes, what is read back from its document is the value. *)
Definition every_value `{Runtime} : Prop :=
  (forall x : TelemetryEvent.t,
     TelemetryEventCodec.from_json (TelemetryEventCodec.to_json x) = Ok x) /\
  (forall x : BaselineProfile.t,
     BaselineProfileCodec.from_json (BaselineProfileCodec.to_json x) = Ok x) /\
  (forall x : Decision.t,
     DecisionCodec.from_json (DecisionCodec.to_json x) = Ok x).

End SpecRoundTrip.

(** A decision whose metadata hold a tuple. *)
Definition tuple_decision : Decision.t :=
  {| Decision.action := "allow";
     Decision.reason := "Normal behavior";
     Decision.anomaly_score := 50;
     Decision.detector_id := None;
     Decision.metadata := Some [("shape"%string, JTuple [JInt 2; JInt 3])] |}.

(** ** Runs of the audit store *)

Module AuditRuns.

(** The metadata of the event hold values that JSON has. *)
Definition native (event : AuditEvent.t) : bool :=
  Normal.native_option (AuditEvent.metadata event).

Definition native_call (c : AuditStore.call) : bool :=
  match c with
  | AuditStore.LogEvent event => native event
  | _ => true
  end.

(** The events that the calls of [log_event] among [calls] are given, in
    the order of the calls. *)
Definition logged (calls : list AuditStore.call) : list AuditEvent.t :=
  flat_map (fun c => match c with
                     | AuditStore.LogEvent event => [event]
                     | _ => []
                     end) calls.

(** The fields of an entry that are signed. *)
Definition signed_items `{Runtime} (event : AuditEvent.t) : pydict json :=
  dict_del (AuditEvent.to_dict event) "signature".

(** The metadata of an entry as they are read back from their encoding
    with sorted keys. *)
Definition canonical_metadata (event : AuditEvent.t) : json :=
  json_normal (sort_keys (Kwargs.of_optional JDict (AuditEvent.metadata event))).

End AuditRuns.

(** ** The words of the specification on the audit log, as they stand *)

Module SpecLedger.

(** "After any sequence of log calls, verify_log_integrity returns True,
    and every entry returned by export_logs carries a signature that
    verify accepts over the entry's encoding excluding the signature
    field." *)
Definition after_logging `{Runtime} : Prop :=
  forall (crypto : CryptoCore.t) (key : string) (events : list AuditEvent.t),
    CryptoCore._signing_key crypto = Some key ->
    exists self,
      SpecAudit.run (AuditStore.__init__ crypto) (map AuditStore.LogEvent events)
        = Ok self /\
      AuditStore.verify_log_integrity self = true /\
      (forall start_time end_time,
         Forall (SpecAudit.signature_verifies crypto)
                (AuditStore.export_logs self start_time end_time)).

End SpecLedger.

(** An audit event whose metadata count by integer keys. *)
Definition int_keyed_event : AuditEvent.t :=
  {| AuditEvent.timestamp := 0;
     AuditEvent.event_type := "detection";
     AuditEvent.actor := "system";
     AuditEvent.action := "allow";
     AuditEvent.result := "success";
     AuditEvent.signature := "";
     AuditEvent.target := None;
     AuditEvent.anomaly_score := None;
     AuditEvent.metadata :=
       Some [("counts"%string, JIntDict [(9%Z, JInt 1); (10%Z, JInt 2)])] |}.

(** ** The words of the specification on security violations *)

Module SpecViolation.

(** "expired timestamp": the event is older than the window. *)
Definition expired (validator : SecurityValidator.t) (signed_event : SignedEvent.t)
    (now : Z) : Prop :=
  inject_Z (SecurityValidator.nonce_expiry_seconds validator)
  < total_seconds now (SignedEvent.timestamp signed_event).






End SpecViolation.


(* ===================================================================== *)
(** * Part II: properties                                                 *)
(* ===================================================================== *)

(** ** Facts on the numeric builtins *)

Lemma py_abs_Qabs (x : Q) : py_abs x == Qabs x.
Proof.
  unfold py_abs. destruct (Qle_bool 0 x) eqn:E.
  - apply Qle_bool_iff in E. symmetry. now apply Qabs_pos.
  - assert (H : ~ 0 <= x) by (rewrite <- Qle_bool_iff; congruence).
    symmetry. apply Qabs_neg. lra.
Qed.

(** Turn the boolean tests of the code into propositions. *)
Lemma Qle_bool_false (x y : Q) : Qle_bool x y = false -> y < x.
Proof.
  intros E. apply Qnot_le_lt. intros H. apply Qle_bool_iff in H. congruence.
Qed.

Ltac qtest :=
  repeat match goal with
  | |- context [Qle_bool ?a ?b] =>
      let E := fresh "E" in
      destruct (Qle_bool a b) eqn:E;
      [apply Qle_bool_iff in E | apply Qle_bool_false in E]
  | H : context [Qle_bool ?a ?b] |- _ =>
      let E := fresh "E" in
      destruct (Qle_bool a b) eqn:E;
      [apply Qle_bool_iff in E | apply Qle_bool_false in E]
  end.

(** Division by a numeral, as a product. *)
Ltac qinv_consts :=
  unfold Qdiv in *;
  repeat match goal with
  | |- context [Qinv (Zpos ?p # ?q)] =>
      change (Qinv (Zpos p # q)) with (Zpos q # p) in *
  | H : context [Qinv (Zpos ?p # ?q)] |- _ =>
      change (Qinv (Zpos p # q)) with (Zpos q # p) in *
  end.

Lemma py_min_spec (a b : Q) :
  (a <= b /\ py_min a b = a) \/ (b < a /\ py_min a b = b).
Proof. unfold py_min. qtest; auto. Qed.

Lemma py_max_spec (a b : Q) :
  (b <= a /\ py_max a b = a) \/ (a < b /\ py_max a b = b).
Proof. unfold py_max. qtest; auto. Qed.

(** ** The anomaly detector *)

Section DetectorFacts.
Import Detector.

Lemma distance_to_percentile_mono (d1 d2 : Q) :
  d1 <= d2 -> _distance_to_percentile d1 <= _distance_to_percentile d2.
Proof.
  intros H. unfold _distance_to_percentile, py_min. qtest; lra.
Qed.

Lemma distance_to_percentile_bounds (d : Q) :
  50 <= _distance_to_percentile d <= 100.
Proof.
  unfold _distance_to_percentile, py_min. qtest; lra.
Qed.

Lemma clamp_mono (x y : Q) :
  x <= y -> py_min 100 (py_max 0 x) <= py_min 100 (py_max 0 y).
Proof.
  intros H. unfold py_min, py_max. qtest; lra.
Qed.

Lemma clamp_id (x : Q) : 0 <= x <= 100 -> py_min 100 (py_max 0 x) == x.
Proof.
  intros H. unfold py_min, py_max. qtest; lra.
Qed.

End DetectorFacts.

Section AnomalyScore.
Import Detector.

Lemma normalize_value_z_score (value mean std : Q) :
  Normalizer.normalize_value value mean std = Spec.z_score value mean std.
Proof.
  unfold Normalizer.normalize_value, Spec.z_score.
  destruct (Qeq_bool std 0) eqn:E; destruct (Qeq_dec std 0) as [H | H]; auto.
  - apply Qeq_bool_iff in E. contradiction.
  - apply Qeq_bool_iff in H. congruence.
Qed.

Lemma score_of_distance (event : TelemetryEvent.t) (baseline : BaselineProfile.t) :
  compute_anomaly_score event baseline ==
  _distance_to_percentile
    (py_abs (Spec.z_score (TelemetryEvent.duration_ms event)
                          (BaselineProfile.mean_duration_ms baseline)
                          (BaselineProfile.std_duration_ms baseline))).
Proof.
  unfold compute_anomaly_score. rewrite normalize_value_z_score.
  apply clamp_id.
  match goal with |- _ <= _distance_to_percentile ?d <= _ =>
    pose proof (distance_to_percentile_bounds d) end.
  lra.
Qed.

Lemma py_abs_distance (event : TelemetryEvent.t) (baseline : BaselineProfile.t) :
  py_abs (Spec.z_score (TelemetryEvent.duration_ms event)
                       (BaselineProfile.mean_duration_ms baseline)
                       (BaselineProfile.std_duration_ms baseline))
  == Spec.distance event baseline.
Proof. apply py_abs_Qabs. Qed.

Lemma distance_to_percentile_proper (d1 d2 : Q) :
  d1 == d2 -> _distance_to_percentile d1 == _distance_to_percentile d2.
Proof.
  intros H. apply Qle_antisym; apply distance_to_percentile_mono; lra.
Qed.

Lemma score_of_spec_distance (event : TelemetryEvent.t) (baseline : BaselineProfile.t) :
  compute_anomaly_score event baseline ==
  _distance_to_percentile (Spec.distance event baseline).
Proof.
  rewrite score_of_distance. apply distance_to_percentile_proper, py_abs_distance.
Qed.

(** C3. Monotonicity of the anomaly score: for every baseline, whatever its
    standard deviation (zero included), an event whose duration lies strictly
    farther from the baseline mean than another event's receives a score that
    is at least the other's. *)
Theorem compute_anomaly_score_monotone
    (B : BaselineProfile.t) (A A' : TelemetryEvent.t) :
  Qabs (TelemetryEvent.duration_ms A' - BaselineProfile.mean_duration_ms B)
    < Qabs (TelemetryEvent.duration_ms A - BaselineProfile.mean_duration_ms B) ->
  compute_anomaly_score A' B <= compute_anomaly_score A B.
Proof.
  intros Hdev. rewrite !score_of_spec_distance.
  apply distance_to_percentile_mono.
  unfold Spec.distance, Spec.z_score.
  destruct (Qeq_dec (BaselineProfile.std_duration_ms B) 0) as [Hz | Hnz].
  - apply Qle_refl.
  - unfold Qdiv. rewrite !Qabs_Qmult.
    apply Qmult_le_compat_r.
    + now apply Qlt_le_weak.
    + apply Qabs_nonneg.
Qed.

End AnomalyScore.

Lemma compute_anomaly_score_monotone_witness :
  Qabs (TelemetryEvent.duration_ms (Sample.event 51)
        - BaselineProfile.mean_duration_ms (Sample.baseline 50 2))
    < Qabs (TelemetryEvent.duration_ms (Sample.event 56)
            - BaselineProfile.mean_duration_ms (Sample.baseline 50 2))
  /\ Detector.compute_anomaly_score (Sample.event 51) (Sample.baseline 50 2)
     <= Detector.compute_anomaly_score (Sample.event 56) (Sample.baseline 50 2).
Proof.
  split.
  - vm_compute. reflexivity.
  - apply compute_anomaly_score_monotone. vm_compute. reflexivity.
Defined.

Section PiecewiseScore.
Import Detector.

Lemma distance_nonneg (event : TelemetryEvent.t) (baseline : BaselineProfile.t) :
  0 <= Spec.distance event baseline.
Proof. apply Qabs_nonneg. Qed.

(** C4. The anomaly score is the piecewise-linear image of the distance
    |z|, where z = (duration - mean) / std and z = 0 when std = 0: distance 0
    gives 50; the score runs linearly from 50 to 84 over [0,1], from 84 to
    97.5 over [1,2] and from 97.5 to 99.9 over [2,3]; beyond 3 it stays
    above 99.9, never exceeds 100 and comes as close to 100 as wanted for a
    large enough distance; and it always lies in [0,100]. *)
Theorem compute_anomaly_score_piecewise :
  (forall event baseline,
     let d := Spec.distance event baseline in
     let score := compute_anomaly_score event baseline in
     (d == 0 -> score == 50) /\
     (0 <= d <= 1 -> score == Spec.linear 0 50 1 84 d) /\
     (1 <= d <= 2 -> score == Spec.linear 1 84 2 97.5 d) /\
     (2 <= d <= 3 -> score == Spec.linear 2 97.5 3 99.9 d) /\
     (3 < d -> 99.9 < score <= 100) /\
     0 <= score <= 100) /\
  (forall eps, 0 < eps ->
     exists D, forall event baseline,
       D <= Spec.distance event baseline ->
       100 - eps < compute_anomaly_score event baseline).
Proof.
  split.
  - intros event baseline d score. subst score.
    pose proof (distance_nonneg event baseline) as Hd. fold d in Hd.
    rewrite (score_of_spec_distance event baseline). fold d.
    unfold _distance_to_percentile, py_min, Spec.linear.
    repeat split; intros; qtest; try lra.
    all: try (field_simplify; lra).
  - intros eps Heps. exists 13. intros event baseline Hd.
    rewrite (score_of_spec_distance event baseline).
    unfold _distance_to_percentile, py_min. qtest; lra.
Qed.

End PiecewiseScore.

Lemma compute_anomaly_score_piecewise_witness :
  0 <= Spec.distance (Sample.event 51) (Sample.baseline 50 2) <= 1 /\
  Detector.compute_anomaly_score (Sample.event 51) (Sample.baseline 50 2)
  == Spec.linear 0 50 1 84 (Spec.distance (Sample.event 51) (Sample.baseline 50 2)).
Proof.
  assert (H : 0 <= Spec.distance (Sample.event 51) (Sample.baseline 50 2) <= 1)
    by (split; vm_compute; discriminate).
  split; [exact H |].
  destruct compute_anomaly_score_piecewise as [Hpw _].
  destruct (Hpw (Sample.event 51) (Sample.baseline 50 2)) as (_ & H01 & _).
  exact (H01 H).
Defined.

Example score_half_sigma :
  Detector.compute_anomaly_score (Sample.event 51) (Sample.baseline 50 2) == 67.
Proof. vm_compute. reflexivity. Qed.

Example score_zero_std :
  Detector.compute_anomaly_score (Sample.event 500) (Sample.baseline 50 0) == 50.
Proof. vm_compute. reflexivity. Qed.

Example score_ten_times_mean :
  Detector.compute_anomaly_score (Sample.event 500) (Sample.baseline 50 2) == 100.
Proof. vm_compute. reflexivity. Qed.

(** ** Backpressure *)

Section Backpressure.
Import BackpressureController.

(** C7. The recommended rate is 0.10 from utilization 0.95 on, 0.25 from
    0.90, 0.50 from 0.80, 0.75 from 0.70 and 1.00 below, every bound
    included (utilization 0.8 exactly gives 0.50); and the queue reports
    backpressure exactly when its utilization is at least its threshold
    (0.8 by default), so utilization 0.8 exactly activates it. *)
Theorem get_recommended_rate_table :
  (forall (self : t) (u : Q),
     (0.95 <= u -> get_recommended_rate self (Some u) = Ok 0.1) /\
     (0.9 <= u < 0.95 -> get_recommended_rate self (Some u) = Ok 0.25) /\
     (0.8 <= u < 0.9 -> get_recommended_rate self (Some u) = Ok 0.5) /\
     (0.7 <= u < 0.8 -> get_recommended_rate self (Some u) = Ok 0.75) /\
     (u < 0.7 -> get_recommended_rate self (Some u) = Ok 1.0)) /\
  (forall self : t, get_recommended_rate self (Some 0.8) = Ok 0.5) /\
  (forall (q : EventQueue.t) (u : Q),
     EventQueue.get_utilization q = Ok u ->
     exists b, EventQueue.has_backpressure q = Ok b /\
               (b = true <-> EventQueue.backpressure_threshold q <= u)).
Proof.
  split; [| split].
  - intros self u. unfold get_recommended_rate, bind.
    repeat split; intros; qtest; try reflexivity; lra.
  - intros self. reflexivity.
  - intros q u Hu. unfold EventQueue.has_backpressure. rewrite Hu. cbn.
    eexists. split; [reflexivity |]. apply Qle_bool_iff.
Qed.

End Backpressure.


(** ** The baseline profiler *)

Section Profiler.
Context `{Runtime}.
Import BaselineProfiler.

Lemma samples_get_add_sample (self : t) (e : TelemetryEvent.t) (key : string) :
  samples_get (add_sample self e) key =
  if String.eqb (key_of (TelemetryEvent.function_name e) (TelemetryEvent.module_name e)) key
  then samples_get self key ++ [TelemetryEvent.duration_ms e]
  else samples_get self key.
Proof.
  unfold add_sample, samples_get at 1. cbn [_samples].
  destruct (String.eqb_spec
              (key_of (TelemetryEvent.function_name e) (TelemetryEvent.module_name e)) key)
    as [-> | Hne].
  - now rewrite lookup_insert_eq.
  - now rewrite lookup_insert_ne.
Qed.

Lemma samples_get_fold (events : list TelemetryEvent.t) (self : t) (key : string) :
  samples_get (fold_left add_sample events self) key =
  samples_get self key ++
  map TelemetryEvent.duration_ms
    (List.filter
       (fun e => String.eqb (key_of (TelemetryEvent.function_name e)
                                    (TelemetryEvent.module_name e)) key)
       events).
Proof.
  revert self. induction events as [| e events IH]; intros self; cbn [fold_left List.filter].
  - now rewrite app_nil_r.
  - rewrite IH, samples_get_add_sample.
    destruct (String.eqb _ key); cbn [map]; [now rewrite <- app_assoc | reflexivity].
Qed.

Lemma min_samples_fold (events : list TelemetryEvent.t) (self : t) :
  min_samples (fold_left add_sample events self) = min_samples self.
Proof.
  revert self. induction events as [| e events IH]; intros self; [reflexivity |].
  cbn [fold_left]. now rewrite IH.
Qed.

Lemma samples_of_profiler_after (m : Z) (events : list TelemetryEvent.t)
    (function_name module_name : string) :
  samples_get (SpecBaseline.profiler_after m events) (key_of function_name module_name)
  = SpecBaseline.samples_filed events function_name module_name.
Proof.
  unfold SpecBaseline.profiler_after. rewrite samples_get_fold. reflexivity.
Qed.

(** The samples filed under the string of a pair are the samples of the
    pair, when no other pair shares the string. *)
Lemma samples_filed_added (events : list TelemetryEvent.t)
    (function_name module_name : string) :
  SpecBaseline.key_unshared events function_name module_name ->
  SpecBaseline.samples_filed events function_name module_name
  = SpecBaseline.samples_added events function_name module_name.
Proof.
  intros Hun. unfold SpecBaseline.samples_filed, SpecBaseline.samples_added.
  f_equal. apply List.filter_ext_in. intros e Hin.
  destruct (String.eqb_spec
              (key_of (TelemetryEvent.function_name e) (TelemetryEvent.module_name e))
              (key_of function_name module_name)) as [Hkey | Hkey].
  - destruct (Hun e Hin Hkey) as [-> ->]. now rewrite !String.eqb_refl.
  - destruct (String.eqb_spec (TelemetryEvent.function_name e) function_name) as [Hf | Hf];
      [| reflexivity].
    destruct (String.eqb_spec (TelemetryEvent.module_name e) module_name) as [Hm | Hm];
      [| reflexivity].
    exfalso. apply Hkey. now rewrite Hf, Hm.
Qed.

End Profiler.

Section ComputeBaseline.
Context `{Runtime}.
Import BaselineProfiler.

Lemma sorted_length (xs : list Q) : length (Statistics.sorted xs) = length xs.
Proof. symmetry. apply Permutation_length, QSort.Permuted_sort. Qed.

Lemma sorted_Sorted (xs : list Q) : Sorted Qle (Statistics.sorted xs).
Proof.
  pose proof (QSort.Sorted_sort xs) as HS. unfold Statistics.sorted.
  induction HS as [| x l HSl IH Hd]; constructor; auto.
  destruct Hd as [| y l Hxy]; constructor. now apply Qle_bool_iff.
Qed.

Lemma list_index_in_range {A} (l : list A) (i : Z) :
  (0 <= i < Z.of_nat (length l))%Z ->
  exists x, list_index l i = Ok x /\ nth_error l (Z.to_nat i) = Some x.
Proof.
  intros Hi. unfold list_index.
  destruct (nth_error l (Z.to_nat i)) as [x |] eqn:E; [now exists x |].
  apply nth_error_None in E. lia.
Qed.

Lemma mean_nonempty (xs : list Q) :
  xs <> [] -> Statistics.mean xs = Ok (SpecBaseline.arithmetic_mean xs).
Proof. destruct xs; [congruence | reflexivity]. Qed.

Lemma stdev_two (xs : list Q) :
  (2 <= Statistics.len xs)%Z ->
  Statistics.stdev xs = Ok (py_sqrt (SpecBaseline.sample_variance xs)).
Proof.
  intros Hn. unfold Statistics.stdev, Statistics.variance.
  destruct (Statistics.len xs <? 2)%Z eqn:E; [apply Z.ltb_lt in E; lia |].
  rewrite mean_nonempty; [reflexivity |].
  intros ->. unfold Statistics.len in Hn. simpl in Hn. lia.
Qed.

(** The profile computed from a sample series that is long enough. *)
Lemma compute_baseline_profile (self : t) (function_name module_name : string)
    (now1 now2 : Z) :
  let samples := samples_get self (key_of function_name module_name) in
  let n := Statistics.len samples in
  (min_samples self <= n)%Z -> (1 <= n)%Z ->
  exists profile,
    compute_baseline self function_name module_name now1 now2 = Ok (Some profile) /\
    BaselineProfile.sample_count profile = n /\
    BaselineProfile.mean_duration_ms profile = SpecBaseline.arithmetic_mean samples /\
    BaselineProfile.std_duration_ms profile =
      (if (n =? 1)%Z then 0 else py_sqrt (SpecBaseline.sample_variance samples)) /\
    nth_error (Statistics.sorted samples) (Z.to_nat (n / 2))
      = Some (BaselineProfile.p50_duration_ms profile) /\
    nth_error (Statistics.sorted samples) (Z.to_nat (n * 95 / 100))
      = Some (BaselineProfile.p95_duration_ms profile) /\
    nth_error (Statistics.sorted samples) (Z.to_nat (n * 99 / 100))
      = Some (BaselineProfile.p99_duration_ms profile).
Proof.
  intros samples n Hmin Hn. unfold compute_baseline. fold samples. fold n.
  destruct (n <? min_samples self)%Z eqn:E; [apply Z.ltb_lt in E; lia | clear E].
  assert (Hne : samples <> []).
  { intros E. subst n. rewrite E in Hn. unfold Statistics.len in Hn. simpl in Hn. lia. }
  rewrite (mean_nonempty samples Hne). cbn [bind].
  assert (Hlen : Statistics.len (Statistics.sorted samples) = n)
    by (unfold Statistics.len; now rewrite sorted_length).
  rewrite Hlen.
  assert (Hstd : (if (1 <? n)%Z then Statistics.stdev samples else Ok 0) =
                 Ok (if (n =? 1)%Z then 0 else py_sqrt (SpecBaseline.sample_variance samples))).
  { destruct (1 <? n)%Z eqn:E1.
    - apply Z.ltb_lt in E1. rewrite stdev_two by (fold n; lia).
      destruct (n =? 1)%Z eqn:E2; [apply Z.eqb_eq in E2; lia | reflexivity].
    - apply Z.ltb_ge in E1. replace n with 1%Z by lia. reflexivity. }
  rewrite Hstd. cbn [bind].
  assert (Hrange : forall i, (0 <= i < n)%Z ->
            (0 <= i < Z.of_nat (length (Statistics.sorted samples)))%Z)
    by (intros i Hi; rewrite sorted_length; exact Hi).
  destruct (list_index_in_range (Statistics.sorted samples) (n / 2)) as (p50 & E50 & N50).
  { apply Hrange. Z.div_mod_to_equations. lia. }
  destruct (list_index_in_range (Statistics.sorted samples) (n * 95 / 100))
    as (p95 & E95 & N95).
  { apply Hrange. Z.div_mod_to_equations. lia. }
  destruct (list_index_in_range (Statistics.sorted samples) (n * 99 / 100))
    as (p99 & E99 & N99).
  { apply Hrange. Z.div_mod_to_equations. lia. }
  change (Qfloor (inject_Z n * 0.95)) with (n * 95 / 100)%Z.
  change (Qfloor (inject_Z n * 0.99)) with (n * 99 / 100)%Z.
  rewrite E50, E95, E99. cbn [bind].
  eexists. split; [reflexivity |]. cbn. repeat split; assumption.
Qed.

End ComputeBaseline.

Section BaselineClaim.
Context `{Runtime}.
Import BaselineProfiler.

(** C5, as the code has it.  For every function and module, with a profiler
    that requires at least one sample, and when no event of another function
    or module has the same string [module.function] (the key of the
    profiler): [compute_baseline] returns none exactly when fewer than
    [min_samples] samples have been added for the pair;
    otherwise it returns a profile whose [sample_count] is the number of
    samples added (so at least [min_samples]), whose mean is their arithmetic
    mean, whose standard deviation is the root of the sample variance (0 for
    one sample) and is not negative, and whose p50, p95 and p99 are the
    items of the sorted samples at positions n/2, floor(0.95 n) and
    floor(0.99 n). *)
Theorem compute_baseline_spec (min_samples : Z) (events : list TelemetryEvent.t)
    (function_name module_name : string) (now1 now2 : Z) :
  (1 <= min_samples)%Z ->
  SpecBaseline.key_unshared events function_name module_name ->
  let self := SpecBaseline.profiler_after min_samples events in
  let samples := SpecBaseline.samples_added events function_name module_name in
  let n := Z.of_nat (length samples) in
  (compute_baseline self function_name module_name now1 now2 = Ok None
   <-> (n < min_samples)%Z) /\
  ((min_samples <= n)%Z ->
   exists profile sorted_samples,
     compute_baseline self function_name module_name now1 now2 = Ok (Some profile) /\
     BaselineProfile.sample_count profile = n /\
     (min_samples <= BaselineProfile.sample_count profile)%Z /\
     BaselineProfile.mean_duration_ms profile = SpecBaseline.arithmetic_mean samples /\
     BaselineProfile.std_duration_ms profile =
       (if (n =? 1)%Z then 0 else py_sqrt (SpecBaseline.sample_variance samples)) /\
     0 <= BaselineProfile.std_duration_ms profile /\
     Sorted Qle sorted_samples /\ Permutation samples sorted_samples /\
     nth_error sorted_samples (Z.to_nat (n / 2))
       = Some (BaselineProfile.p50_duration_ms profile) /\
     nth_error sorted_samples (Z.to_nat (n * 95 / 100))
       = Some (BaselineProfile.p95_duration_ms profile) /\
     nth_error sorted_samples (Z.to_nat (n * 99 / 100))
       = Some (BaselineProfile.p99_duration_ms profile)).
Proof.
  intros Hmin Hun self samples n.
  assert (Hs : samples_get self (key_of function_name module_name) = samples)
    by (subst self samples; rewrite samples_of_profiler_after;
        now apply samples_filed_added).
  assert (Hm : BaselineProfiler.min_samples self = min_samples)
    by apply min_samples_fold.
  assert (Hsome : (min_samples <= n)%Z ->
    exists profile sorted_samples,
     compute_baseline self function_name module_name now1 now2 = Ok (Some profile) /\
     BaselineProfile.sample_count profile = n /\
     (min_samples <= BaselineProfile.sample_count profile)%Z /\
     BaselineProfile.mean_duration_ms profile = SpecBaseline.arithmetic_mean samples /\
     BaselineProfile.std_duration_ms profile =
       (if (n =? 1)%Z then 0 else py_sqrt (SpecBaseline.sample_variance samples)) /\
     0 <= BaselineProfile.std_duration_ms profile /\
     Sorted Qle sorted_samples /\ Permutation samples sorted_samples /\
     nth_error sorted_samples (Z.to_nat (n / 2))
       = Some (BaselineProfile.p50_duration_ms profile) /\
     nth_error sorted_samples (Z.to_nat (n * 95 / 100))
       = Some (BaselineProfile.p95_duration_ms profile) /\
     nth_error sorted_samples (Z.to_nat (n * 99 / 100))
       = Some (BaselineProfile.p99_duration_ms profile)).
  { intros Hn.
    destruct (compute_baseline_profile self function_name module_name now1 now2)
      as (profile & Hret & Hcount & Hmean & Hstd & H50 & H95 & H99).
    - rewrite Hs, Hm. exact Hn.
    - rewrite Hs. change (1 <= n)%Z. lia.
    - rewrite Hs in *.
      change (Statistics.len samples) with n in Hcount, Hstd, H50, H95, H99.
      exists profile, (Statistics.sorted samples).
      repeat split; try assumption.
      + rewrite Hcount. exact Hn.
      + rewrite Hstd. destruct (n =? 1)%Z; [apply Qle_refl | apply py_sqrt_nonneg].
      + apply sorted_Sorted.
      + apply QSort.Permuted_sort. }
  split; [| exact Hsome].
  split.
  - intros Hnone. destruct (Z.lt_ge_cases n min_samples) as [Hlt | Hge]; [exact Hlt |].
    destruct (Hsome Hge) as (profile & ? & Hret & _). congruence.
  - intros Hlt. unfold compute_baseline. rewrite Hs, Hm.
    change (Statistics.len samples) with n.
    destruct (n <? min_samples)%Z eqn:E; [reflexivity | apply Z.ltb_ge in E; lia].
Qed.

(** With a requirement of no sample at all and no sample added, the mean of
    the empty series is asked for. *)
Remark compute_baseline_no_requirement (function_name module_name : string)
    (now1 now2 : Z) :
  compute_baseline (__init__ 0) function_name module_name now1 now2
  = Raise "StatisticsError".
Proof. reflexivity. Qed.

End BaselineClaim.

(** The sentence of the specification fails: with a requirement of no
    sample at all and no sample added, none is not returned, and no profile
    either: the call raises [StatisticsError]. *)
Lemma none_iff_too_few_fails : ~ SpecBaseline.none_iff_too_few (H := sample_runtime).
Proof.
  intros Hspec.
  destruct (Hspec 0%Z [] "f"%string "m"%string 0%Z 0%Z) as [_ Hsome].
  destruct Hsome as (profile & Hret & _); [cbn; lia |].
  vm_compute in Hret. discriminate Hret.
Qed.

Lemma compute_baseline_spec_witness :
  (1 <= 20)%Z /\
  SpecBaseline.key_unshared training_events "f" "m" /\
  exists profile,
    BaselineProfiler.compute_baseline (H := sample_runtime)
      (SpecBaseline.profiler_after 20 training_events) "f" "m" 0 0 = Ok (Some profile) /\
    BaselineProfile.sample_count profile = 20%Z /\
    0 <= BaselineProfile.std_duration_ms profile.
Proof.
  split; [lia |].
  assert (Hun : SpecBaseline.key_unshared training_events "f" "m").
  { intros e Hin _. apply in_map_iff in Hin. destruct Hin as (i & <- & _).
    split; reflexivity. }
  split; [exact Hun |].
  destruct (compute_baseline_spec (H := sample_runtime) 20 training_events "f" "m" 0 0)
    as [_ Hsome]; [lia | exact Hun |].
  destruct Hsome as (profile & sorted_samples & Hret & Hcount & _ & _ & _ & Hstd & _).
  - vm_compute. discriminate.
  - exists profile. repeat split; assumption.
Defined.

(** ** Dictionaries *)

Section Dict.
Context {V : Type}.

Lemma dict_get_set_eq (d : pydict V) (k : string) (v : V) :
  dict_get (dict_set d k v) k = Some v.
Proof.
  induction d as [| [k' v'] d IH]; cbn [dict_set dict_get].
  - now rewrite String.eqb_refl.
  - destruct (String.eqb k' k) eqn:E; cbn [dict_get]; rewrite E; auto.
Qed.

Lemma dict_get_set_ne (d : pydict V) (k k0 : string) (v : V) :
  k0 <> k -> dict_get (dict_set d k v) k0 = dict_get d k0.
Proof.
  intros Hne. induction d as [| [k' v'] d IH]; cbn [dict_set dict_get].
  - destruct (String.eqb_spec k k0); [congruence | reflexivity].
  - destruct (String.eqb_spec k' k) as [-> | Hk]; cbn [dict_get].
    + destruct (String.eqb_spec k k0); [congruence | reflexivity].
    + now rewrite IH.
Qed.

Lemma dict_keys_set_present (d : pydict V) (k : string) (v v0 : V) :
  dict_get d k = Some v0 -> dict_keys (dict_set d k v) = dict_keys d.
Proof.
  unfold dict_keys. induction d as [| [k' v'] d IH]; cbn [dict_set dict_get map fst].
  - discriminate.
  - destruct (String.eqb k' k) eqn:E; cbn [map fst]; [reflexivity |].
    intros Hget. now rewrite IH.
Qed.

Lemma dict_length_set_present (d : pydict V) (k : string) (v v0 : V) :
  dict_get d k = Some v0 -> length (dict_set d k v) = length d.
Proof.
  intros Hget. rewrite <- !(length_map fst).
  change (map fst ?x) with (dict_keys x). now rewrite (dict_keys_set_present d k v v0).
Qed.

End Dict.

(** ** The pattern cache *)

Section PatternCache.
Context `{Runtime}.
Import PatternMemoryCache SpecCache.

Lemma create_fingerprint_ok (event : TelemetryEvent.t) (now : Q) (tys : list json) :
  PatternFingerprint.event_arg_types event = Ok tys ->
  exists fp,
    _create_fingerprint event now = Ok fp /\
    PatternFingerprint.to_key fp = event_key event /\
    PatternFingerprint.duration_min fp = TelemetryEvent.duration_ms event * 0.9 /\
    PatternFingerprint.duration_max fp = TelemetryEvent.duration_ms event * 1.1 /\
    PatternFingerprint.arg_types fp = tys /\
    PatternFingerprint.resource_signature fp =
      py_prefix 8 (md5_hexdigest (py_str_sorted_items (TelemetryEvent.resource_tags event))) /\
    PatternFingerprint.timestamp fp = now /\
    PatternFingerprint.hit_count fp = 1%Z.
Proof.
  intros Htys. unfold _create_fingerprint. rewrite Htys. cbn [bind].
  eexists. split; [reflexivity |]. cbn. repeat split; reflexivity.
Qed.

(** The fingerprint stored under a key that was not in the cache. *)
Lemma add_pattern_new (self self' : t) (event : TelemetryEvent.t) (time : nat -> Q) :
  dict_get (_cache self) (event_key event) = None ->
  add_pattern self event time = Ok self' ->
  exists fp,
    _create_fingerprint event (time 0%nat) = Ok fp /\
    dict_get (_cache self') (event_key event) = Some fp.
Proof.
  intros Hnone. unfold add_pattern.
  destruct (_create_fingerprint event (time 0%nat)) as [fp | exn] eqn:Efp;
    cbn [bind]; [| discriminate].
  assert (Hkey : PatternFingerprint.to_key fp = event_key event).
  { unfold _create_fingerprint in Efp.
    destruct (PatternFingerprint.event_arg_types event); cbn [bind] in Efp;
      [| discriminate].
    injection Efp as <-. reflexivity. }
  rewrite Hkey, Hnone.
  destruct (if (max_size self <=? Z.of_nat (length (_cache self)))%Z
            then _evict_lru self else Ok self) as [self1 | exn]; cbn [bind];
    [| discriminate].
  intros [= <-]. exists fp. split; [reflexivity |]. cbn. apply dict_get_set_eq.
Qed.

(** C10. When [add_pattern] is called for an event whose key
    [function_name:module_name] is already in the pattern cache (and whose
    argument types can be listed), the call succeeds and only the timestamp
    and the hit count of the stored fingerprint change: its duration range,
    argument types, resource signature and names stay as stored, the other
    entries, the keys and the size of the cache are unchanged, and nothing is
    evicted.  What stays stored is what the first sample under the key
    produced. *)
Theorem add_pattern_existing_key :
  (forall (self : t) (event : TelemetryEvent.t) (time : nat -> Q)
          (pattern : PatternFingerprint.t) (tys : list json),
     dict_get (_cache self) (event_key event) = Some pattern ->
     PatternFingerprint.event_arg_types event = Ok tys ->
     exists self' pattern',
       add_pattern self event time = Ok self' /\
       dict_get (_cache self') (event_key event) = Some pattern' /\
       PatternFingerprint.duration_min pattern' = PatternFingerprint.duration_min pattern /\
       PatternFingerprint.duration_max pattern' = PatternFingerprint.duration_max pattern /\
       PatternFingerprint.arg_types pattern' = PatternFingerprint.arg_types pattern /\
       PatternFingerprint.resource_signature pattern'
         = PatternFingerprint.resource_signature pattern /\
       PatternFingerprint.function_name pattern' = PatternFingerprint.function_name pattern /\
       PatternFingerprint.module_name pattern' = PatternFingerprint.module_name pattern /\
       PatternFingerprint.hit_count pattern' = (PatternFingerprint.hit_count pattern + 1)%Z /\
       PatternFingerprint.timestamp pattern' = time 1%nat /\
       (forall k, k <> event_key event ->
                  dict_get (_cache self') k = dict_get (_cache self) k) /\
       dict_keys (_cache self') = dict_keys (_cache self) /\
       length (_cache self') = length (_cache self) /\
       _evictions self' = _evictions self /\
       max_size self' = max_size self /\ ttl_seconds self' = ttl_seconds self) /\
  (forall (self self1 : t) (first second : TelemetryEvent.t) (time1 time2 : nat -> Q)
          (tys : list json),
     dict_get (_cache self) (event_key first) = None ->
     add_pattern self first time1 = Ok self1 ->
     event_key second = event_key first ->
     PatternFingerprint.event_arg_types second = Ok tys ->
     exists self2 pattern,
       add_pattern self1 second time2 = Ok self2 /\
       dict_get (_cache self2) (event_key first) = Some pattern /\
       PatternFingerprint.duration_min pattern = TelemetryEvent.duration_ms first * 0.9 /\
       PatternFingerprint.duration_max pattern = TelemetryEvent.duration_ms first * 1.1 /\
       PatternFingerprint.event_arg_types first = Ok (PatternFingerprint.arg_types pattern) /\
       PatternFingerprint.resource_signature pattern =
         py_prefix 8 (md5_hexdigest
                        (py_str_sorted_items (TelemetryEvent.resource_tags first))) /\
       PatternFingerprint.hit_count pattern = 2%Z).
Proof.
  assert (Hframe : forall (self : t) (event : TelemetryEvent.t) (time : nat -> Q)
          (pattern : PatternFingerprint.t) (tys : list json),
     dict_get (_cache self) (event_key event) = Some pattern ->
     PatternFingerprint.event_arg_types event = Ok tys ->
     exists self' pattern',
       add_pattern self event time = Ok self' /\
       dict_get (_cache self') (event_key event) = Some pattern' /\
       PatternFingerprint.duration_min pattern' = PatternFingerprint.duration_min pattern /\
       PatternFingerprint.duration_max pattern' = PatternFingerprint.duration_max pattern /\
       PatternFingerprint.arg_types pattern' = PatternFingerprint.arg_types pattern /\
       PatternFingerprint.resource_signature pattern'
         = PatternFingerprint.resource_signature pattern /\
       PatternFingerprint.function_name pattern' = PatternFingerprint.function_name pattern /\
       PatternFingerprint.module_name pattern' = PatternFingerprint.module_name pattern /\
       PatternFingerprint.hit_count pattern' = (PatternFingerprint.hit_count pattern + 1)%Z /\
       PatternFingerprint.timestamp pattern' = time 1%nat /\
       (forall k, k <> event_key event ->
                  dict_get (_cache self') k = dict_get (_cache self) k) /\
       dict_keys (_cache self') = dict_keys (_cache self) /\
       length (_cache self') = length (_cache self) /\
       _evictions self' = _evictions self /\
       max_size self' = max_size self /\ ttl_seconds self' = ttl_seconds self).
  { intros self event time pattern tys Hget Htys.
    destruct (create_fingerprint_ok event (time 0%nat) tys Htys) as (fp & Efp & Hkey & _).
    unfold add_pattern. rewrite Efp. cbn [bind]. rewrite Hkey, Hget.
    eexists. eexists. split; [reflexivity |]. cbn.
    split; [apply dict_get_set_eq |].
    repeat split; try reflexivity.
    - intros k Hk. now apply dict_get_set_ne.
    - now apply dict_keys_set_present with (v0 := pattern).
    - now apply dict_length_set_present with (v0 := pattern). }
  split; [exact Hframe |].
  intros self self1 first second time1 time2 tys Hnone Hadd Hsame Htys.
  destruct (add_pattern_new self self1 first time1 Hnone Hadd) as (fp & Efp & Hget).
  rewrite <- Hsame in Hget.
  destruct (Hframe self1 second time2 fp tys Hget Htys)
    as (self2 & pattern & Hadd2 & Hget2 & Hmin & Hmax & Hty & Hsig & _ & _ & Hhit & _).
  exists self2, pattern. rewrite <- Hsame.
  split; [exact Hadd2 |]. split; [exact Hget2 |].
  unfold _create_fingerprint in Efp.
  destruct (PatternFingerprint.event_arg_types first) as [tys1 | exn] eqn:Etys;
    cbn [bind] in Efp; [| discriminate].
  injection Efp as <-. cbn in Hmin, Hmax, Hty, Hsig, Hhit.
  rewrite Hmin, Hmax, Hty, Hsig, Hhit. repeat split; reflexivity.
Qed.

End PatternCache.

(** ** Replay protection *)

Section Replay.
Context `{Runtime}.
Import SecurityValidator SpecReplay.

Lemma in_deque_append {A} (maxlen : Z) (q : list A) (x e : A) :
  In e (deque_append maxlen q x) -> In e q \/ e = x.
Proof.
  unfold deque_append.
  destruct (maxlen =? 0)%Z; [auto |].
  destruct (maxlen <=? Z.of_nat (length q))%Z; intros Hin;
    apply in_app_or in Hin; destruct Hin as [Hin | [-> | []]]; auto.
  left. destruct q; [contradiction | now right].
Qed.

(** The cleanup keeps a nonce none of whose deque entries is older than the
    cutoff. *)
Lemma cleanup_loop_keeps (cutoff : Q) (n : string) (stamps : list (string * Z))
    (seen : gset string) :
  n ∈ seen ->
  (forall t, In (n, t) stamps -> Qlt_bool (posix_timestamp t) cutoff = false) ->
  n ∈ fst (fst (cleanup_loop cutoff seen stamps)).
Proof.
  revert seen. induction stamps as [| [m t] stamps IH]; intros seen Hin Hyoung;
    cbn [cleanup_loop]; [exact Hin |].
  destruct (Qlt_bool (posix_timestamp t) cutoff) eqn:Eold; [| exact Hin].
  assert (Hmn : m <> n).
  { intros ->. rewrite (Hyoung t) in Eold by now left. discriminate. }
  specialize (IH (seen ∖ {[m]})).
  destruct (cleanup_loop cutoff (seen ∖ {[m]}) stamps) as [[seen' stamps'] removed].
  cbn [fst] in *. apply IH.
  - set_solver.
  - intros t' Ht'. apply Hyoung. now right.
Qed.

(** A nonce just added is still in the seen-set after the call, if it is not
    older than the window when the cleanup reads the clock. *)
Lemma add_nonce_keeps (self : t) (n : string) (ts now : Z) :
  tracked self ->
  n ∉ _seen_nonces self ->
  total_seconds now ts <= inject_Z (nonce_expiry_seconds self) ->
  n ∈ _seen_nonces (_add_nonce self n ts now).
Proof.
  intros [_ Hsub] Hnew Hfresh. unfold _add_nonce. cbn.
  match goal with |- context [if ?c then _ else _] => destruct c end;
    [| cbn; set_solver].
  unfold cleanup_old_nonces. cbn.
  match goal with |- context [cleanup_loop ?c ?s ?d] =>
    pose proof (cleanup_loop_keeps c n d s) as Hkeep;
    destruct (cleanup_loop c s d) as [[seen' stamps'] removed] end.
  cbn in *. apply Hkeep; [set_solver |].
  intros t Hin. apply in_deque_append in Hin. destruct Hin as [Hin | [= ->]].
  - exfalso. apply Hnew. rewrite List.Forall_forall in Hsub. exact (Hsub _ Hin).
  - unfold Qlt_bool. apply negb_false_iff, Qle_bool_iff.
    unfold total_seconds in Hfresh. unfold posix_timestamp.
    unfold Z.sub in Hfresh. rewrite inject_Z_plus, inject_Z_opp in Hfresh.
    qinv_consts. lra.
Qed.

End Replay.

Section ReplayClaim.
Context `{Runtime}.
Import SecurityValidator SpecReplay.






End ReplayClaim.



Section ReplayInvariant.
Context `{Runtime}.
Import SecurityValidator SpecReplay.

Lemma not_elem_of_map_fst (n : string) (stamps : list (string * Z)) :
  (forall t, ~ In (n, t) stamps) -> n ∉ map fst stamps.
Proof.
  intros Hno Hin. apply list_elem_of_In, in_map_iff in Hin.
  destruct Hin as ([m t] & Hm & Hin). cbn in Hm. subst m. exact (Hno t Hin).
Qed.

Lemma cleanup_loop_tracked (cutoff : Q) (stamps : list (string * Z)) (seen : gset string) :
  NoDup (map fst stamps) ->
  Forall (fun entry => fst entry ∈ seen) stamps ->
  NoDup (map fst (snd (fst (cleanup_loop cutoff seen stamps)))) /\
  Forall (fun entry => fst entry ∈ fst (fst (cleanup_loop cutoff seen stamps)))
         (snd (fst (cleanup_loop cutoff seen stamps))).
Proof.
  revert seen. induction stamps as [| [m t] stamps IH]; intros seen Hnd Hsub;
    cbn [cleanup_loop].
  - split; constructor.
  - destruct (Qlt_bool (posix_timestamp t) cutoff); [| now split].
    cbn [map fst] in Hnd. apply NoDup_cons in Hnd. destruct Hnd as [Hm Hnd].
    apply List.Forall_cons_iff in Hsub. destruct Hsub as [_ Hsub].
    specialize (IH (seen ∖ {[m]}) Hnd).
    destruct (cleanup_loop cutoff (seen ∖ {[m]}) stamps) as [[seen' stamps'] removed].
    cbn [fst snd] in *. apply IH.
    rewrite List.Forall_forall in *. intros [m' t'] Hin. cbn [fst].
    assert (m' <> m).
    { intros ->. apply Hm, list_elem_of_In, in_map_iff. now exists (m, t'). }
    specialize (Hsub _ Hin). cbn [fst] in Hsub.
    apply elem_of_difference. split; [exact Hsub |].
    now rewrite elem_of_singleton.
Qed.

(** Every validator built by the constructor tracks its nonces. *)
Lemma init_tracked (crypto_core : CryptoCore.t) (expiry bound : Z) (self : t) :
  __init__ crypto_core expiry bound = Ok self -> tracked self.
Proof.
  unfold __init__. destruct (bound <? 0)%Z; [discriminate |].
  intros [= <-]. split; constructor.
Qed.

Lemma add_nonce_tracked (self : t) (n : string) (ts now : Z) :
  tracked self -> n ∉ _seen_nonces self -> tracked (_add_nonce self n ts now).
Proof.
  intros [Hnd Hsub] Hnew.
  assert (Hfresh : forall t, ~ In (n, t) (_nonce_timestamps self)).
  { intros t Hin. rewrite List.Forall_forall in Hsub. exact (Hnew (Hsub _ Hin)). }
  assert (Hadd : NoDup (map fst (deque_append (max_nonce_cache self)
                                  (_nonce_timestamps self) (n, ts))) /\
                 Forall (fun entry => fst entry ∈ {[n]} ∪ _seen_nonces self)
                   (deque_append (max_nonce_cache self) (_nonce_timestamps self) (n, ts))).
  { split.
    - unfold deque_append. destruct (max_nonce_cache self =? 0)%Z; [exact Hnd |].
      destruct (max_nonce_cache self <=? _)%Z; rewrite map_app; cbn [map fst].
      + destruct (_nonce_timestamps self) as [| e q]; cbn [tl map] in *.
        * apply NoDup_singleton.
        * apply NoDup_cons in Hnd. destruct Hnd as [_ Hnd].
          apply NoDup_app. split; [exact Hnd |]. split; [| apply NoDup_singleton].
          intros x Hx Hxn. apply list_elem_of_singleton in Hxn. subst x.
          revert Hx. apply not_elem_of_map_fst. intros t Hin. apply (Hfresh t). now right.
      + apply NoDup_app. split; [exact Hnd |]. split; [| apply NoDup_singleton].
        intros x Hx Hxn. apply list_elem_of_singleton in Hxn. subst x.
        revert Hx. now apply not_elem_of_map_fst.
    - rewrite List.Forall_forall in *. intros e Hin.
      apply in_deque_append in Hin. destruct Hin as [Hin | ->].
      + specialize (Hsub _ Hin). set_solver.
      + cbn. set_solver. }
  destruct Hadd as [Hnd' Hsub'].
  unfold _add_nonce. cbn.
  match goal with |- context [if ?c then _ else _] => destruct c end;
    [| split; cbn; assumption].
  unfold cleanup_old_nonces. cbn.
  match goal with |- context [cleanup_loop ?c ?s ?d] =>
    pose proof (cleanup_loop_tracked c d s Hnd' Hsub') as Hloop;
    destruct (cleanup_loop c s d) as [[seen' stamps'] removed] end.
  exact Hloop.
Qed.

(** A verification leaves a validator that tracks its nonces. *)
Lemma verify_event_tracked (self self' : t) (signed_event : SignedEvent.t)
    (now cleanup : Z) (verdict : bool * string) :
  tracked self ->
  verify_event self signed_event now cleanup = Ok (self', verdict) ->
  tracked self'.
Proof.
  intros Ht. unfold verify_event. cbn.
  destruct (Qlt_bool _ _); [intros [= <- <-]; exact Ht |].
  unfold is_replay_attack. cbn.
  destruct (bool_decide _) eqn:Eseen; [intros [= <- <-]; exact Ht |].
  apply bool_decide_eq_false_1 in Eseen.
  destruct (CryptoCore.verify_hmac _ _ _) as [[|] | exn]; cbn [bind];
    [| intros [= <- <-]; exact Ht | discriminate].
  intros [= <- <-]. apply add_nonce_tracked; [exact Ht | exact Eseen].
Qed.

End ReplayInvariant.

(** ** Security violations *)

Section VerifyCases.
Context `{Runtime}.
Import SecurityValidator.


End VerifyCases.

Section SecurityViolation.
Context `{Runtime}.
Import BrainCore.

(** The reasons for which a verification fails. *)
Lemma verify_event_failure_reasons (validator validator' : SecurityValidator.t)
    (signed_event : SignedEvent.t) (now cleanup : Z) (reason : string) :
  SecurityValidator.verify_event validator signed_event now cleanup
    = Ok (validator', (false, reason)) ->
  reason = ("Event expired (age: " ++
            format_1f (total_seconds now (SignedEvent.timestamp signed_event)) ++
            "s)")%string
  \/ reason = "Replay attack detected"%string
  \/ reason = "Invalid signature"%string.
Proof.
  unfold SecurityValidator.verify_event. cbn.
  destruct (Qlt_bool _ _); [intros [= _ <-]; now left |].
  destruct (SecurityValidator.is_replay_attack _ _ _);
    [intros [= _ <-]; right; now left |].
  destruct (CryptoCore.verify_hmac _ _ _) as [[|] | exn]; cbn [bind];
    [discriminate | intros [= _ <-]; right; now right | discriminate].
Qed.





End SecurityViolation.


(** ** Serialisation round trips *)

Section RoundTrip.
Context `{Runtime}.

Lemma traverse_map {A B} (f : A -> outcome B) (g : B -> A) (l : list B) :
  (forall x, f (g x) = Ok x) -> Kwargs.traverse f (map g l) = Ok l.
Proof.
  intros Hfg. induction l as [| x l IH]; [reflexivity |].
  cbn [map Kwargs.traverse]. rewrite Hfg, IH. reflexivity.
Qed.

Lemma as_int_dict_of (d : pydict Z) :
  Kwargs.as_int_dict (JDict (map (fun kv => (fst kv, JInt (snd kv))) d)) = Ok d.
Proof.
  unfold Kwargs.as_int_dict. apply traverse_map. intros [k z]. reflexivity.
Qed.

Lemma as_float_list_of (l : list Q) :
  Kwargs.as_float_list (JList (map JFloat l)) = Ok l.
Proof. unfold Kwargs.as_float_list. apply traverse_map. reflexivity. Qed.

Lemma json_normal_native (v : json) : json_native v = true -> json_normal v = v.
Proof.
  induction v as [| b | z | q | | s | l Hl | l Hl | d Hd | d Hd] using json_nested_ind;
    cbn [json_native json_normal]; try reflexivity; try discriminate.
  - intros Hn. f_equal. induction Hl as [| x l Hx _ IH]; [reflexivity |].
    cbn [forallb map] in *. apply andb_true_iff in Hn. destruct Hn as [Hx' Hl'].
    now rewrite Hx, IH.
  - intros Hn. f_equal. induction Hd as [| [k x] d Hx _ IH]; [reflexivity |].
    cbn [forallb map fst snd] in *. apply andb_true_iff in Hn. destruct Hn as [Hx' Hd'].
    now rewrite Hx, IH.
Qed.

Lemma normal_dict_native (d : pydict json) :
  Normal.native d = true -> Normal.dict d = d.
Proof.
  intros Hn. pose proof (json_normal_native (JDict d) Hn) as E.
  cbn [json_normal] in E. now injection E.
Qed.

Lemma normal_int_items (d : pydict Z) :
  map (fun kv => (fst kv, json_normal (snd kv))) (map (fun kv => (fst kv, JInt (snd kv))) d)
  = map (fun kv => (fst kv, JInt (snd kv))) d.
Proof. rewrite map_map. reflexivity. Qed.

Lemma normal_floats (l : list Q) : map json_normal (map JFloat l) = map JFloat l.
Proof. rewrite map_map. reflexivity. Qed.

Lemma loads_dumps_ok (v : json) : Kwargs.loads (json_dumps v) = Ok (json_normal v).
Proof. unfold Kwargs.loads. now rewrite json_loads_dumps. Qed.

(** What is read back from the document of a telemetry event. *)
Lemma telemetry_event_round_trip (x : TelemetryEvent.t) :
  TelemetryEventCodec.from_json (TelemetryEventCodec.to_json x)
  = Ok (Normal.telemetry_event x).
Proof.
  unfold TelemetryEventCodec.from_json, TelemetryEventCodec.to_json.
  rewrite loads_dumps_ok. unfold TelemetryEventJson.to_dict.
  cbn [json_normal map fst snd]. rewrite normal_int_items.
  cbn -[Kwargs.as_int_dict].
  rewrite fromisoformat_isoformat. cbn -[Kwargs.as_int_dict].
  rewrite as_int_dict_of. cbn.
  destruct x; reflexivity.
Qed.

Lemma baseline_profile_round_trip (x : BaselineProfile.t) :
  BaselineProfileCodec.from_json (BaselineProfileCodec.to_json x) = Ok x.
Proof.
  unfold BaselineProfileCodec.from_json, BaselineProfileCodec.to_json.
  rewrite loads_dumps_ok. unfold BaselineProfileCodec.to_dict.
  cbn [json_normal map fst snd]. rewrite normal_floats.
  cbn -[Kwargs.as_float_list].
  rewrite !fromisoformat_isoformat. cbn -[Kwargs.as_float_list].
  rewrite as_float_list_of. cbn.
  destruct x; reflexivity.
Qed.

(** What is read back from the document of a decision. *)
Lemma decision_round_trip (x : Decision.t) :
  DecisionCodec.from_json (DecisionCodec.to_json x) = Ok (Normal.decision x).
Proof.
  unfold DecisionCodec.from_json, DecisionCodec.to_json.
  rewrite loads_dumps_ok.
  destruct x as [action reason score [detector |] [metadata |]]; reflexivity.
Qed.

Lemma normal_telemetry_event_native (x : TelemetryEvent.t) :
  Normal.native (TelemetryEvent.args_metadata x) = true -> Normal.telemetry_event x = x.
Proof.
  intros Hn. unfold Normal.telemetry_event. rewrite (normal_dict_native _ Hn).
  now destruct x.
Qed.

Lemma normal_decision_native (x : Decision.t) :
  Normal.native_option (Decision.metadata x) = true -> Normal.decision x = x.
Proof.
  destruct x as [action reason score detector [metadata |]]; [| reflexivity].
  intros Hn. unfold Normal.decision. cbn [option_map Decision.metadata].
  cbn [Normal.native_option Decision.metadata] in Hn.
  now rewrite (normal_dict_native _ Hn).
Qed.

(** C8, as the code has it.  Deserialising the serialisation of a telemetry
    event or of a decision gives the value with, in its metadata, lists for
    the tuples and strings for the integer keys; it gives back the value
    itself, field for field, when the metadata hold values that JSON has
    (no tuple, no key that is not a string, no [nan]).  It gives back every
    baseline profile. *)
Theorem from_json_to_json :
  (forall x : TelemetryEvent.t,
     TelemetryEventCodec.from_json (TelemetryEventCodec.to_json x)
       = Ok (Normal.telemetry_event x) /\
     (Normal.native (TelemetryEvent.args_metadata x) = true ->
      TelemetryEventCodec.from_json (TelemetryEventCodec.to_json x) = Ok x)) /\
  (forall x : BaselineProfile.t,
     BaselineProfileCodec.from_json (BaselineProfileCodec.to_json x) = Ok x) /\
  (forall x : Decision.t,
     DecisionCodec.from_json (DecisionCodec.to_json x) = Ok (Normal.decision x) /\
     (Normal.native_option (Decision.metadata x) = true ->
      DecisionCodec.from_json (DecisionCodec.to_json x) = Ok x)).
Proof.
  split; [| split].
  - intros x. split; [apply telemetry_event_round_trip |].
    intros Hn. rewrite telemetry_event_round_trip.
    now rewrite normal_telemetry_event_native.
  - exact baseline_profile_round_trip.
  - intros x. split; [apply decision_round_trip |].
    intros Hn. rewrite decision_round_trip. now rewrite normal_decision_native.
Qed.

End RoundTrip.

(** The sentence of the specification fails: a tuple in the metadata of a
    decision is read back as a list. *)
Lemma every_value_fails : ~ SpecRoundTrip.every_value (H := sample_runtime).
Proof.
  intros (_ & _ & Hdecision).
  specialize (Hdecision tuple_decision).
  rewrite (decision_round_trip (H := sample_runtime)) in Hdecision.
  discriminate Hdecision.
Qed.

Lemma from_json_to_json_witness :
  TelemetryEventCodec.from_json (H := sample_runtime)
    (TelemetryEventCodec.to_json (H := sample_runtime) (Sample.event 50))
  = Ok (Sample.event 50).
Proof.
  exact (proj2 (proj1 (from_json_to_json (H := sample_runtime)) (Sample.event 50))
           eq_refl).
Defined.

Lemma filter_all {V : Type} (l : list V) : List.filter (fun _ => true) l = l.
Proof. induction l as [| x l IH]; cbn [List.filter]; [reflexivity | now rewrite IH]. Qed.

(** ** The order of the keys *)

Lemma ascii_compare_trans (a b c : ascii) :
  Ascii.compare a b <> Gt -> Ascii.compare b c <> Gt ->
  Ascii.compare a c <> Gt /\
  (Ascii.compare a c = Eq -> Ascii.compare a b = Eq /\ Ascii.compare b c = Eq).
Proof.
  unfold Ascii.compare. intros Hab Hbc.
  destruct (N.compare_spec (N_of_ascii a) (N_of_ascii b)) as [Eab | Lab | Gab];
    [| | congruence];
    destruct (N.compare_spec (N_of_ascii b) (N_of_ascii c)) as [Ebc | Lbc | Gbc];
    try congruence;
    destruct (N.compare_spec (N_of_ascii a) (N_of_ascii c)) as [Eac | Lac | Gac];
    (split;
     [ first [congruence | exfalso; lia]
     | intros Hc; try discriminate Hc; first [now split | exfalso; lia] ]).
Qed.

Lemma string_leb_trans (s1 s2 s3 : string) :
  String.leb s1 s2 = true -> String.leb s2 s3 = true -> String.leb s1 s3 = true.
Proof.
  unfold String.leb. revert s2 s3.
  induction s1 as [| a s1 IH]; intros [| b s2] [| c s3]; cbn [String.compare];
    try reflexivity; try discriminate.
  intros Hab Hbc.
  assert (Hab' : Ascii.compare a b <> Gt)
    by (intros E; rewrite E in Hab; discriminate Hab).
  assert (Hbc' : Ascii.compare b c <> Gt)
    by (intros E; rewrite E in Hbc; discriminate Hbc).
  destruct (ascii_compare_trans a b c Hab' Hbc') as [Hac Heq].
  destruct (Ascii.compare a c) eqn:Eac; [| reflexivity | congruence].
  destruct (Heq eq_refl) as [Eab Ebc]. rewrite Eab in Hab. rewrite Ebc in Hbc.
  now apply (IH s2 s3).
Qed.

Lemma key_order_trans : Transitive (fun a b : string * json => is_true (KeyOrder.leb a b)).
Proof.
  intros a b c Hab Hbc. unfold is_true, KeyOrder.leb in *.
  now apply string_leb_trans with (s2 := fst b).
Qed.

(** Two sorted lists of items with the same items, no key twice, are the
    same list. *)
Lemma sorted_items_unique (l1 l2 : pydict json) :
  StronglySorted (fun a b => is_true (KeyOrder.leb a b)) l1 ->
  StronglySorted (fun a b => is_true (KeyOrder.leb a b)) l2 ->
  Permutation l1 l2 ->
  List.NoDup (map fst l1) ->
  l1 = l2.
Proof.
  revert l2. induction l1 as [| x l1 IH]; intros l2 Hs1 Hs2 Hperm Hnodup.
  - apply Permutation_nil in Hperm. now subst.
  - destruct l2 as [| y l2];
      [apply Permutation_sym, Permutation_nil in Hperm; discriminate |].
    apply StronglySorted_inv in Hs1. destruct Hs1 as [Hs1 Hx].
    apply StronglySorted_inv in Hs2. destruct Hs2 as [Hs2 Hy].
    apply List.NoDup_cons_iff in Hnodup. destruct Hnodup as [Hnotin Hnodup].
    assert (Exy : x = y).
    { assert (Hin_x : In x (y :: l2))
        by (apply (Permutation_in _ Hperm); now left).
      assert (Hin_y : In y (x :: l1))
        by (apply (Permutation_in _ (Permutation_sym Hperm)); now left).
      destruct Hin_x as [E | Hin_x]; [now symmetry |].
      destruct Hin_y as [E | Hin_y]; [exact E |].
      exfalso. apply Hnotin.
      rewrite List.Forall_forall in Hx, Hy.
      pose proof (Hx y Hin_y) as Hxy. pose proof (Hy x Hin_x) as Hyx.
      unfold is_true, KeyOrder.leb in Hxy, Hyx.
      rewrite (String.leb_antisym _ _ Hxy Hyx). now apply in_map. }
    subst y. f_equal. apply IH; try assumption.
    now apply Permutation_cons_inv in Hperm.
Qed.

(** Sorting by key does not depend on the order in which the items come. *)
Lemma sort_items_permutation (l1 l2 : pydict json) :
  Permutation l1 l2 -> List.NoDup (map fst l1) -> KeySort.sort l1 = KeySort.sort l2.
Proof.
  intros Hperm Hnodup. apply sorted_items_unique.
  - apply KeySort.StronglySorted_sort, key_order_trans.
  - apply KeySort.StronglySorted_sort, key_order_trans.
  - rewrite <- (KeySort.Permuted_sort l1), <- (KeySort.Permuted_sort l2). exact Hperm.
  - apply (Permutation_NoDup (l := map fst l1)); [| exact Hnodup].
    apply Permutation_map, KeySort.Permuted_sort.
Qed.

(** ** The audit ledger *)

Section AuditLedger.
Context `{Runtime}.
Import AuditStore SpecAudit AuditLines.

(** What is read back from the line of an audit event. *)
Lemma audit_event_round_trip (x : AuditEvent.t) :
  AuditEvent.from_json (AuditEvent.to_json x) = Ok (Normal.audit_event x).
Proof.
  unfold AuditEvent.from_json, AuditEvent.to_json.
  rewrite loads_dumps_ok. unfold AuditEvent.to_dict.
  destruct x as [ts ty actor action result sig [target |] [score |] [meta |]];
    cbn; rewrite fromisoformat_isoformat; reflexivity.
Qed.

Lemma normal_audit_event_native (x : AuditEvent.t) :
  AuditRuns.native x = true -> Normal.audit_event x = x.
Proof.
  destruct x as [ts ty actor action result sig target score [meta |]];
    [| reflexivity].
  unfold AuditRuns.native, Normal.audit_event.
  cbn [Normal.native_option option_map AuditEvent.metadata]. intros Hn.
  now rewrite (normal_dict_native _ Hn).
Qed.

Lemma normal_entries (entries : list AuditEvent.t) :
  Forall (fun e => AuditRuns.native e = true) entries ->
  map Normal.audit_event entries = entries.
Proof.
  induction 1 as [| e entries He _ IH]; [reflexivity |].
  cbn [map]. now rewrite (normal_audit_event_native e He), IH.
Qed.

Lemma signed_entries_native (key : string) (events : list AuditEvent.t) :
  Forall (fun e => AuditRuns.native e = true) events ->
  Forall (fun e => AuditRuns.native e = true) (map (signed key) events).
Proof. intros Hall. apply List.Forall_map. exact Hall. Qed.

(** The signed data do not depend on the signature field. *)
Lemma get_signable_data_set_signature (event : AuditEvent.t) (signature : string) :
  AuditEvent.get_signable_data (AuditEvent.set_signature event signature)
  = AuditEvent.get_signable_data event.
Proof. reflexivity. Qed.

(** The signed data do not depend on the order of the fields. *)
Lemma get_signable_data_any_order (event : AuditEvent.t) (items : pydict json) :
  Permutation items (AuditRuns.signed_items event) ->
  json_dumps_sorted (JDict items) = AuditEvent.get_signable_data event.
Proof.
  intros Hperm. unfold AuditEvent.get_signable_data, json_dumps_sorted.
  change (dict_del (AuditEvent.to_dict event) "signature")
    with (AuditRuns.signed_items event).
  cbn [sort_keys]. do 2 f_equal. symmetry.
  apply sort_items_permutation.
  - apply Permutation_map, Permutation_sym, Hperm.
  - rewrite map_map. cbn [fst]. unfold AuditRuns.signed_items, AuditEvent.to_dict.
    cbn. repeat (constructor; [cbn; intuition discriminate |]). constructor.
Qed.

(** The signed data tell the signed fields. *)
Lemma get_signable_data_canonical (a b : AuditEvent.t) :
  AuditEvent.get_signable_data a = AuditEvent.get_signable_data b ->
  AuditEvent.timestamp a = AuditEvent.timestamp b /\
  AuditEvent.event_type a = AuditEvent.event_type b /\
  AuditEvent.actor a = AuditEvent.actor b /\
  AuditEvent.action a = AuditEvent.action b /\
  AuditEvent.result a = AuditEvent.result b /\
  AuditEvent.target a = AuditEvent.target b /\
  AuditEvent.anomaly_score a = AuditEvent.anomaly_score b /\
  AuditRuns.canonical_metadata a = AuditRuns.canonical_metadata b.
Proof.
  unfold AuditEvent.get_signable_data, json_dumps_sorted. intros Heq.
  apply (f_equal json_loads) in Heq. rewrite !json_loads_dumps in Heq.
  injection Heq as Haction Hactor Hscore Htype Hmeta Hresult Htarget Hts.
  apply (f_equal fromisoformat) in Hts. rewrite !fromisoformat_isoformat in Hts.
  injection Hts as Hts.
  repeat split; try assumption.
  - destruct (AuditEvent.target a), (AuditEvent.target b); cbn in Htarget;
      congruence.
  - destruct (AuditEvent.anomaly_score a), (AuditEvent.anomaly_score b);
      cbn in Hscore; congruence.
Qed.

Lemma verify_signature_written (crypto : CryptoCore.t) (key : string) (entry : AuditEvent.t) :
  CryptoCore._signing_key crypto = Some key ->
  AuditEvent.signature entry = hmac_sha256_hex key (AuditEvent.get_signable_data entry) ->
  SpecAudit.signature_verifies crypto entry.
Proof.
  intros Hkey Hsig. unfold SpecAudit.signature_verifies, CryptoCore.verify_signature,
    CryptoCore.hmac_sign.
  rewrite Hkey. cbn [bind]. rewrite Hsig. unfold compare_digest.
  rewrite hmac_sha256_hex_ascii, String.eqb_refl. reflexivity.
Qed.

Lemma to_json_line (entry : AuditEvent.t) :
  py_strip (AuditEvent.to_json entry) = AuditEvent.to_json entry /\
  str_is_empty (AuditEvent.to_json entry) = false.
Proof. split; [apply json_dumps_strip | apply json_dumps_nonempty]. Qed.

(** The log after a run of calls of the public methods. *)
Lemma run_logged (key : string) (calls : list call) (self : t) :
  CryptoCore._signing_key (crypto_core self) = Some key ->
  SpecAudit.run self calls
  = Ok {| log_file :=
            log_file self
            ++ map (fun e => AuditEvent.to_json (signed key e)) (AuditRuns.logged calls);
          crypto_core := crypto_core self |}.
Proof.
  revert self. induction calls as [| c calls IH]; intros self Hkey;
    cbn [SpecAudit.run AuditRuns.logged flat_map].
  - cbn [map]. rewrite app_nil_r. now destruct self.
  - destruct c; cbn [after bind app]; try (now apply IH).
    unfold log_event, CryptoCore.hmac_sign. rewrite Hkey. cbn [bind fst].
    rewrite IH by exact Hkey. cbn [log_file crypto_core map].
    now rewrite <- app_assoc.
Qed.

Lemma logged_log_events (events : list AuditEvent.t) :
  AuditRuns.logged (map LogEvent events) = events.
Proof.
  induction events as [| e events IH]; [reflexivity |].
  cbn [map AuditRuns.logged flat_map app]. f_equal. exact IH.
Qed.

(** The log after a run of [log_event]. *)
Lemma log_events_run (key : string) (events : list AuditEvent.t) (self : t) :
  CryptoCore._signing_key (crypto_core self) = Some key ->
  SpecAudit.run self (map LogEvent events)
  = Ok {| log_file :=
            log_file self ++ map (fun e => AuditEvent.to_json (signed key e)) events;
          crypto_core := crypto_core self |}.
Proof.
  intros Hkey. rewrite (run_logged key) by exact Hkey. now rewrite logged_log_events.
Qed.

Lemma logged_native (calls : list call) :
  Forall (fun c => AuditRuns.native_call c = true) calls ->
  Forall (fun e => AuditRuns.native e = true) (AuditRuns.logged calls).
Proof.
  induction 1 as [| c calls Hc _ IH]; [constructor |].
  cbn [AuditRuns.logged flat_map]. destruct c; cbn [app]; try exact IH.
  constructor; [exact Hc | exact IH].
Qed.

Lemma export_lines_read (start_time end_time : option Z) (entries : list AuditEvent.t) :
  export_lines start_time end_time (map AuditEvent.to_json entries)
  = List.filter (in_period start_time end_time) (map Normal.audit_event entries).
Proof.
  induction entries as [| x entries IH]; cbn [map export_lines List.filter];
    [reflexivity |].
  destruct (to_json_line x) as [Hstrip Hne]. rewrite Hstrip, Hne.
  rewrite audit_event_round_trip. unfold in_period. rewrite IH.
  destruct start_time as [s |], end_time as [e |]; cbn [andb];
    rewrite ?Z.leb_antisym;
    repeat match goal with |- context [(?a <? ?b)%Z] => destruct (a <? b)%Z end;
    reflexivity.
Qed.

Lemma export_lines_entries (start_time end_time : option Z) (entries : list AuditEvent.t) :
  Forall (fun e => AuditRuns.native e = true) entries ->
  export_lines start_time end_time (map AuditEvent.to_json entries)
  = List.filter (in_period start_time end_time) entries.
Proof. intros Hn. now rewrite export_lines_read, normal_entries. Qed.

Lemma nonblank_entries (entries : list AuditEvent.t) :
  List.filter (fun line => negb (str_is_empty line))
              (map py_strip (map AuditEvent.to_json entries))
  = map AuditEvent.to_json entries.
Proof.
  induction entries as [| x entries IH]; cbn [map List.filter]; [reflexivity |].
  destruct (to_json_line x) as [Hstrip Hne]. rewrite Hstrip, Hne. cbn [negb].
  now rewrite IH.
Qed.

Lemma parse_entries_read (entries : list AuditEvent.t) :
  flat_map (fun line => match AuditEvent.from_json line with
                        | Ok event => [event]
                        | Raise _ => []
                        end) (map AuditEvent.to_json entries)
  = map Normal.audit_event entries.
Proof.
  induction entries as [| x entries IH]; cbn [map flat_map]; [reflexivity |].
  rewrite audit_event_round_trip, IH. reflexivity.
Qed.

Lemma parse_entries (entries : list AuditEvent.t) :
  Forall (fun e => AuditRuns.native e = true) entries ->
  flat_map (fun line => match AuditEvent.from_json line with
                        | Ok event => [event]
                        | Raise _ => []
                        end) (map AuditEvent.to_json entries)
  = entries.
Proof. intros Hn. now rewrite parse_entries_read, normal_entries. Qed.

Lemma count_entries (entries : list AuditEvent.t) :
  length (List.filter (fun line => negb (str_is_empty (py_strip line)))
                      (map AuditEvent.to_json entries))
  = length entries.
Proof.
  induction entries as [| x entries IH]; cbn [map List.filter]; [reflexivity |].
  destruct (to_json_line x) as [Hstrip Hne]. rewrite Hstrip, Hne. cbn [negb length].
  now rewrite IH.
Qed.

(** The lines that [log_event] writes for events with JSON metadata pass
    the integrity check. *)
Lemma verify_lines_signed (self : t) (key : string) (events : list AuditEvent.t) :
  CryptoCore._signing_key (crypto_core self) = Some key ->
  Forall (fun e => AuditRuns.native e = true) events ->
  verify_lines self (map (fun e => AuditEvent.to_json (signed key e)) events) = true.
Proof.
  intros Hkey Hall. induction Hall as [| e events He _ IH]; [reflexivity |].
  cbn [map verify_lines]. destruct (to_json_line (signed key e)) as [Hstrip Hne].
  rewrite Hstrip, Hne. unfold verify_line. rewrite audit_event_round_trip.
  rewrite (normal_audit_event_native (signed key e)) by exact He.
  cbn [bind].
  rewrite (verify_signature_written (crypto_core self) key (signed key e) Hkey eq_refl).
  exact IH.
Qed.

(** What the integrity check compares on a log of one logged event. *)
Lemma verify_logged_alone (self : t) (key : string) (e : AuditEvent.t) :
  CryptoCore._signing_key (crypto_core self) = Some key ->
  verify_lines self (map (fun e => AuditEvent.to_json (signed key e)) [e]) = true ->
  hmac_sha256_hex key (AuditEvent.get_signable_data e)
  = hmac_sha256_hex key (AuditEvent.get_signable_data (Normal.audit_event e)).
Proof.
  intros Hkey. cbn [map verify_lines].
  destruct (to_json_line (signed key e)) as [Hstrip Hne]. rewrite Hstrip, Hne.
  unfold verify_line. rewrite audit_event_round_trip. cbn [bind].
  unfold CryptoCore.verify_signature, CryptoCore.hmac_sign. rewrite Hkey. cbn [bind].
  change (AuditEvent.signature (Normal.audit_event (signed key e)))
    with (hmac_sha256_hex key (AuditEvent.get_signable_data e)).
  change (AuditEvent.get_signable_data (Normal.audit_event (signed key e)))
    with (AuditEvent.get_signable_data (Normal.audit_event e)).
  unfold compare_digest. rewrite !hmac_sha256_hex_ascii. cbn [andb].
  destruct (String.eqb_spec (hmac_sha256_hex key (AuditEvent.get_signable_data e))
              (hmac_sha256_hex key
                 (AuditEvent.get_signable_data (Normal.audit_event e))))
    as [E | _]; [intros _; exact E | discriminate].
Qed.

Lemma signed_verifies (crypto : CryptoCore.t) (key : string) (events : list AuditEvent.t) :
  CryptoCore._signing_key crypto = Some key ->
  Forall (SpecAudit.signature_verifies crypto) (map (signed key) events).
Proof.
  intros Hkey. apply List.Forall_map. apply List.Forall_forall. intros e _.
  now apply verify_signature_written with (key := key).
Qed.

(** Every public method leaves the lines already in the log where they are,
    and keeps the key holder. *)
Lemma after_appends (self self' : t) (c : call) :
  after self c = Ok self' ->
  crypto_core self' = crypto_core self /\
  exists suffix, log_file self' = log_file self ++ suffix.
Proof.
  destruct c; cbn [after].
  - unfold log_event. destruct (CryptoCore.hmac_sign _ _); cbn [bind]; [| discriminate].
    intros [= <-]. cbn. split; [reflexivity |]. eexists. reflexivity.
  - intros [= <-]. split; [reflexivity |]. exists []. now rewrite app_nil_r.
  - intros [= <-]. split; [reflexivity |]. exists []. now rewrite app_nil_r.
  - intros [= <-]. split; [reflexivity |]. exists []. now rewrite app_nil_r.
  - intros [= <-]. split; [reflexivity |]. exists []. now rewrite app_nil_r.
Qed.

(** C6, as the code has it.  After any sequence of calls of the public
    methods of the audit store on a new log, where the events given to
    [log_event] have metadata made of values that JSON has (no key that is
    not a string, no tuple, no [nan]): the calls succeed;
    [verify_log_integrity] returns true; the log holds the logged events:
    [export_logs] without bounds returns them, one entry for each call of
    [log_event], in the order of the calls, each with the signature the
    call has set, and [get_event_count] is their number; and every entry
    that [export_logs] returns, whatever the bounds, carries a signature
    which [verify_signature] accepts over the signed data of the entry.
    The signed data are the encoding with sorted keys of the fields
    without the signature: they do not depend on the signature field, they
    do not depend on the order in which the fields come, and they tell the
    fields, two entries with the same signed data having the same
    timestamp, type, actor, action, result, target and score, and the same
    metadata as read back.  No public method changes or removes a line
    already in the log: each one leaves the old log as a prefix of the new
    one. *)
Theorem audit_log_integrity :
  (forall (crypto : CryptoCore.t) (key : string) (calls : list call),
     CryptoCore._signing_key crypto = Some key ->
     Forall (fun c => AuditRuns.native_call c = true) calls ->
     exists self,
       SpecAudit.run (__init__ crypto) calls = Ok self /\
       verify_log_integrity self = true /\
       export_logs self None None = map (signed key) (AuditRuns.logged calls) /\
       get_event_count self = Z.of_nat (length (AuditRuns.logged calls)) /\
       (forall start_time end_time,
          Forall (SpecAudit.signature_verifies crypto)
                 (export_logs self start_time end_time))) /\
  (forall (event : AuditEvent.t) (signature : string),
     AuditEvent.get_signable_data (AuditEvent.set_signature event signature)
     = AuditEvent.get_signable_data event) /\
  (forall (event : AuditEvent.t) (items : pydict json),
     Permutation items (AuditRuns.signed_items event) ->
     json_dumps_sorted (JDict items) = AuditEvent.get_signable_data event) /\
  (forall a b : AuditEvent.t,
     AuditEvent.get_signable_data a = AuditEvent.get_signable_data b ->
     AuditEvent.timestamp a = AuditEvent.timestamp b /\
     AuditEvent.event_type a = AuditEvent.event_type b /\
     AuditEvent.actor a = AuditEvent.actor b /\
     AuditEvent.action a = AuditEvent.action b /\
     AuditEvent.result a = AuditEvent.result b /\
     AuditEvent.target a = AuditEvent.target b /\
     AuditEvent.anomaly_score a = AuditEvent.anomaly_score b /\
     AuditRuns.canonical_metadata a = AuditRuns.canonical_metadata b) /\
  (forall (self self' : t) (c : call),
     after self c = Ok self' ->
     exists suffix, log_file self' = log_file self ++ suffix).
Proof.
  split; [| split; [| split; [| split]]].
  - intros crypto key calls Hkey Hnative.
    pose proof (logged_native calls Hnative) as Hlogged.
    pose proof (signed_entries_native key _ Hlogged) as Hsigned.
    eexists. split; [apply (run_logged key calls); exact Hkey |].
    unfold verify_log_integrity, export_logs, get_event_count.
    cbn [log_file crypto_core __init__ app].
    split; [now apply verify_lines_signed |].
    rewrite <- (map_map (signed key) AuditEvent.to_json).
    split; [| split].
    + rewrite export_lines_entries by exact Hsigned.
      unfold in_period. cbn [andb]. apply filter_all.
    + now rewrite count_entries, length_map.
    + intros start_time end_time. rewrite export_lines_entries by exact Hsigned.
      apply incl_Forall with (l1 := map (signed key) (AuditRuns.logged calls));
        [apply incl_filter | now apply signed_verifies].
  - exact get_signable_data_set_signature.
  - exact get_signable_data_any_order.
  - exact get_signable_data_canonical.
  - intros self self' c Hafter. now destruct (after_appends self self' c Hafter).
Qed.

End AuditLedger.

(** The words of the specification fail on an event whose metadata count
    by integer keys: the keys are written in the order of the integers, and
    read back as strings, whose order is another. *)
Lemma after_logging_fails : ~ SpecLedger.after_logging (H := sample_runtime).
Proof.
  intros Hspec.
  destruct (Hspec sample_crypto "key"%string [int_keyed_event] eq_refl)
    as (self & Hrun & Hverify & _).
  rewrite (log_events_run (H := sample_runtime) "key" [int_keyed_event]
             (AuditStore.__init__ sample_crypto) eq_refl) in Hrun.
  injection Hrun as <-.
  unfold AuditStore.verify_log_integrity in Hverify.
  cbn [AuditStore.log_file] in Hverify.
  apply (verify_logged_alone (H := sample_runtime) _ "key" int_keyed_event)
    in Hverify; [| reflexivity].
  vm_compute in Hverify. discriminate Hverify.
Qed.

(** ** The decider *)

Section Decider.
Context `{Runtime}.
Import BrainCore SpecDecider.

Ltac bind_inv H :=
  match type of H with
  | bind ?r _ = Ok _ =>
      let E := fresh "E" in
      destruct r eqn:E; cbn [bind] in H; [| discriminate H]
  end.

(** The decisions [process_event] can return. *)
Lemma process_event_decision (self self' : t) (event : TelemetryEvent.t) (r : readings)
    (decision : Decision.t) :
  process_event self event r = Ok (self', decision) ->
  decision = Decision.allow "Known legitimate pattern (cached)" 0.0
  \/ decision = Decision.allow "Training mode" 0.0
  \/ exists baseline,
       let score := Detector.compute_anomaly_score event baseline in
       (Qlt_bool score (soft_allow_threshold_low self) = true /\
        decision = Decision.allow "Normal behavior" score)
       \/ (Qlt_bool score (soft_allow_threshold_low self) = false /\
           (decision = Decision.allow
                         ("Soft-allow (borderline, score=" ++ format_1f score ++ ")")%string
                         score
            \/ decision = Decision.block
                            ("Borderline anomaly (score=" ++ format_1f score ++ ")")%string
                            score
            \/ decision = Decision.block "Anomaly detected" score)).
Proof.
  unfold process_event. intros Hpe.
  bind_inv Hpe. destruct a as [self0 hit]. cbn [fst snd] in Hpe.
  assert (Hlow : soft_allow_threshold_low self0 = soft_allow_threshold_low self).
  { destruct (pattern_cache self) as [cache |].
    - bind_inv E. injection E as <- _. reflexivity.
    - injection E as <- _. reflexivity. }
  destruct hit.
  - bind_inv Hpe. injection Hpe as _ <-. now left.
  - bind_inv Hpe. bind_inv Hpe.
    cbn [soft_allow_threshold_low soft_allow_threshold_high soft_allow_probability
         set_stores] in Hpe.
    rewrite Hlow in Hpe.
    destruct (match a0 with
              | Some b => if BaselineProfile.is_sufficient b 20 then Some b else None
              | None => None
              end) as [baseline |].
    + right; right. exists baseline. cbn zeta.
      bind_inv Hpe. destruct a1 as [[self1 d1] logged].
      bind_inv Hpe. bind_inv Hpe. injection Hpe as _ <-.
      destruct (Qlt_bool (Detector.compute_anomaly_score event baseline)
                         (soft_allow_threshold_low self)) eqn:Elow.
      * bind_inv E2. injection E2 as _ <- _. left. now split.
      * right. split; [reflexivity |].
        destruct (Qlt_bool (Detector.compute_anomaly_score event baseline)
                           (soft_allow_threshold_high self0)).
        -- destruct (Qlt_bool (random_draw r) (soft_allow_probability self0)).
           ++ bind_inv E2. bind_inv E2. injection E2 as _ <- _. now left.
           ++ injection E2 as _ <- _. right. now left.
        -- injection E2 as _ <- _. right. now right.
    + bind_inv Hpe. bind_inv Hpe. bind_inv Hpe. injection Hpe as _ <-.
      right. now left.
Qed.

Lemma log_decision_tuning (self self' : t) (event : TelemetryEvent.t)
    (decision : Decision.t) (event_type : string) (now : Z) :
  _log_decision self event decision event_type now = Ok self' ->
  tuning self' = tuning self.
Proof.
  unfold _log_decision. intros Hlog. bind_inv Hlog. now injection Hlog as <-.
Qed.

Lemma log_security_alert_tuning (self self' : t) (signed_event : SignedEvent.t)
    (reason : string) (now : Z) :
  _log_security_alert self signed_event reason now = Ok self' ->
  tuning self' = tuning self.
Proof.
  unfold _log_security_alert. intros Hlog. bind_inv Hlog. now injection Hlog as <-.
Qed.

Lemma cache_add_pattern_tuning (self self' : t) (event : TelemetryEvent.t) (r : readings) :
  cache_add_pattern self event r = Ok self' -> tuning self' = tuning self.
Proof.
  unfold cache_add_pattern. destruct (pattern_cache self); intros Hadd.
  - bind_inv Hadd. now injection Hadd as <-.
  - now injection Hadd as <-.
Qed.

Lemma perform_maintenance_tuning (self self' : t) (r : readings) :
  _perform_maintenance self r = Ok self' -> tuning self' = tuning self.
Proof.
  unfold _perform_maintenance. intros Hm. bind_inv Hm.
  cbn [pattern_cache set_stores] in Hm. destruct (pattern_cache self).
  - bind_inv Hm. now injection Hm as <-.
  - now injection Hm as <-.
Qed.

End Decider.

Section DeciderTuning.
Context `{Runtime}.
Import BrainCore SpecDecider.

Ltac bind_inv H :=
  match type of H with
  | bind ?r _ = Ok _ =>
      let E := fresh "E" in
      destruct r eqn:E; cbn [bind] in H; [| discriminate H]
  end.

Ltac tuning_facts :=
  repeat match goal with
  | E : _log_decision _ _ _ _ _ = Ok _ |- _ => apply log_decision_tuning in E
  | E : cache_add_pattern _ _ _ = Ok _ |- _ => apply cache_add_pattern_tuning in E
  | E : _perform_maintenance _ _ = Ok _ |- _ => apply perform_maintenance_tuning in E
  end.

Ltac tuning_done :=
  tuning_facts; unfold tuning in *;
  cbn [anomaly_threshold soft_allow_probability soft_allow_threshold_low
       soft_allow_threshold_high set_stores set_components set_counters
       set_audit_store set_pattern_cache] in *;
  congruence.

(** Processing an event leaves the tuning parameters as they are. *)
Lemma process_event_tuning (self self' : t) (event : TelemetryEvent.t) (r : readings)
    (decision : Decision.t) :
  process_event self event r = Ok (self', decision) -> tuning self' = tuning self.
Proof.
  unfold process_event. intros Hpe.
  bind_inv Hpe. destruct a as [self0 hit]. cbn [fst snd] in Hpe.
  assert (H0 : tuning self0 = tuning self).
  { destruct (pattern_cache self) as [cache |].
    - bind_inv E. injection E as <- _. reflexivity.
    - injection E as <- _. reflexivity. }
  destruct hit.
  - bind_inv Hpe. injection Hpe as <- _. tuning_done.
  - bind_inv Hpe. bind_inv Hpe.
    destruct (match a0 with
              | Some b => if BaselineProfile.is_sufficient b 20 then Some b else None
              | None => None
              end) as [baseline |].
    + bind_inv Hpe. destruct a1 as [[self1 d1] logged].
      bind_inv Hpe. bind_inv Hpe. injection Hpe as <- _.
      assert (H1 : tuning self1 = tuning self0).
      { destruct (Qlt_bool _ _).
        - bind_inv E2. injection E2 as <- _ _. tuning_done.
        - destruct (Qlt_bool _ _).
          + destruct (Qlt_bool _ _).
            * bind_inv E2. bind_inv E2. injection E2 as <- _ _. tuning_done.
            * now injection E2 as <- _ _.
          + now injection E2 as <- _ _. }
      assert (H2 : tuning a1 = tuning self1) by tuning_done.
      assert (H3 : tuning a2 = tuning a1).
      { destruct (_ =? 0)%Z.
        - tuning_done.
        - now injection E4 as <-. }
      congruence.
    + bind_inv Hpe. bind_inv Hpe. bind_inv Hpe. injection Hpe as <- _.
      assert (H1 : tuning a1 = tuning self0).
      { destruct (_ <=? _)%Z; [| now injection E2 as <-].
        bind_inv E2. destruct a4 as [b |]; [| now injection E2 as <-].
        bind_inv E2. now injection E2 as <-. }
      tuning_done.
Qed.

(** So does processing a signed event. *)
Lemma process_signed_event_tuning (self self' : t) (signed_event : SignedEvent.t)
    (r : readings) (decision : Decision.t) :
  process_signed_event self signed_event r = Ok (self', decision) ->
  tuning self' = tuning self.
Proof.
  unfold process_signed_event. intros Hps. bind_inv Hps.
  destruct a as [validator' [is_valid reason]]. cbn [fst snd] in Hps.
  destruct is_valid; cbn [negb] in Hps.
  - now apply process_event_tuning in Hps.
  - bind_inv Hps. injection Hps as <- _.
    match goal with E : _log_security_alert _ _ _ _ = Ok _ |- _ =>
      apply log_security_alert_tuning in E; now rewrite E end.
Qed.

Lemma reachable_tuning (start self : t) :
  reachable start self -> tuning self = tuning start.
Proof.
  induction 1 as [| self self' event r decision _ IH Hstep
                    | self self' signed_event r decision _ IH Hstep].
  - reflexivity.
  - apply process_event_tuning in Hstep. congruence.
  - apply process_signed_event_tuning in Hstep. congruence.
Qed.

End DeciderTuning.

Section ScoreFloor.
Context `{Runtime}.
Import BrainCore SpecDecider.

Lemma compute_anomaly_score_bounds (event : TelemetryEvent.t) (baseline : BaselineProfile.t) :
  50 <= Detector.compute_anomaly_score event baseline <= 100.
Proof.
  rewrite (score_of_spec_distance event baseline).
  apply distance_to_percentile_bounds.
Qed.

Lemma init_threshold_low (state_store : StateStore.t) (audit_store : AuditStore.t)
    (trace_store : TraceStore.t) (crypto_core : CryptoCore.t)
    (threshold probability : Q) (enable_pattern_cache : bool) (start : t) :
  __init__ state_store audit_store trace_store crypto_core threshold probability
    enable_pattern_cache = Ok start ->
  threshold <= 60 ->
  soft_allow_threshold_low start <= 50.
Proof.
  unfold __init__. intros Hinit Hthr.
  destruct (SecurityValidator.__init__ crypto_core 300 100000); cbn [bind] in Hinit;
    [| discriminate].
  injection Hinit as <-. cbn [soft_allow_threshold_low].
  unfold py_max. qtest; lra.
Qed.

(** C9. The anomaly score of every event against every baseline lies in
    [50, 100].  Hence a decision of [process_event] whose anomaly score is
    below 50 does not come from scoring: it is the allow of a cache hit or
    of training mode, with score 0.  And for a decider built with an anomaly
    threshold of 60 or lower, in every state it reaches, the test of the
    clear-normal zone (score < threshold - 10) fails for every score, and no
    event is decided "Normal behavior". *)
Theorem anomaly_score_floor :
  (forall (event : TelemetryEvent.t) (baseline : BaselineProfile.t),
     50 <= Detector.compute_anomaly_score event baseline <= 100) /\
  (forall (self self' : t) (event : TelemetryEvent.t) (r : readings)
          (decision : Decision.t),
     process_event self event r = Ok (self', decision) ->
     Decision.anomaly_score decision < 50 ->
     decision = Decision.allow "Known legitimate pattern (cached)" 0.0
     \/ decision = Decision.allow "Training mode" 0.0) /\
  (forall (state_store : StateStore.t) (audit_store : AuditStore.t)
          (trace_store : TraceStore.t) (crypto_core : CryptoCore.t)
          (threshold probability : Q) (enable_pattern_cache : bool)
          (start self : t),
     __init__ state_store audit_store trace_store crypto_core threshold probability
       enable_pattern_cache = Ok start ->
     threshold <= 60 ->
     reachable start self ->
     (forall (event : TelemetryEvent.t) (baseline : BaselineProfile.t),
        Qlt_bool (Detector.compute_anomaly_score event baseline)
                 (soft_allow_threshold_low self) = false) /\
     (forall (self' : t) (event : TelemetryEvent.t) (r : readings)
             (decision : Decision.t),
        process_event self event r = Ok (self', decision) ->
        Decision.reason decision <> "Normal behavior"%string)).
Proof.
  split; [exact compute_anomaly_score_bounds |]. split.
  - intros self self' event r decision Hpe Hlow.
    destruct (process_event_decision self self' event r decision Hpe)
      as [Hd | [Hd | (baseline & Hd)]]; [now left | now right |].
    exfalso. pose proof (compute_anomaly_score_bounds event baseline) as Hb.
    cbn zeta in Hd.
    destruct Hd as [[_ ->] | [_ [-> | [-> | ->]]]]; cbn in Hlow; lra.
  - intros state_store audit_store trace_store crypto_core threshold probability
      enable_pattern_cache start self Hinit Hthr Hreach.
    assert (Hlow : soft_allow_threshold_low self <= 50).
    { pose proof (reachable_tuning start self Hreach) as Ht.
      unfold tuning in Ht. injection Ht as _ _ -> _.
      exact (init_threshold_low _ _ _ _ _ _ _ _ Hinit Hthr). }
    assert (Hzone : forall event baseline,
              Qlt_bool (Detector.compute_anomaly_score event baseline)
                       (soft_allow_threshold_low self) = false).
    { intros event baseline.
      pose proof (compute_anomaly_score_bounds event baseline) as Hb.
      unfold Qlt_bool. apply negb_false_iff, Qle_bool_iff. lra. }
    split; [exact Hzone |].
    intros self' event r decision Hpe.
    destruct (process_event_decision self self' event r decision Hpe)
      as [-> | [-> | (baseline & Hd)]]; [discriminate | discriminate |].
    cbn zeta in Hd.
    destruct Hd as [[Hz _] | [_ [-> | [-> | ->]]]]; try discriminate.
    rewrite Hzone in Hz. discriminate.
Qed.

End ScoreFloor.

(** ** The theorems at sample values *)

Lemma get_recommended_rate_table_witness :
  EventQueue.get_utilization sample_queue = Ok (8 # 10) /\
  BackpressureController.get_recommended_rate
    (BackpressureController.__init__ sample_queue) (Some (8 # 10)) = Ok 0.5 /\
  EventQueue.has_backpressure sample_queue = Ok true.
Proof.
  destruct get_recommended_rate_table as (Htable & _ & Hbp).
  assert (Hu : EventQueue.get_utilization sample_queue = Ok (8 # 10)) by reflexivity.
  split; [exact Hu |]. split.
  - destruct (Htable (BackpressureController.__init__ sample_queue) (8 # 10))
      as (_ & _ & H80 & _).
    apply H80. split; vm_compute; [discriminate | reflexivity].
  - destruct (Hbp sample_queue (8 # 10) Hu) as (b & Hb & Hiff).
    rewrite Hb. f_equal. apply Hiff. vm_compute. discriminate.
Defined.

Lemma add_pattern_existing_key_witness :
  dict_get (PatternMemoryCache._cache sample_cache) (SpecCache.event_key (Sample.event 60))
    = Some sample_fingerprint /\
  PatternFingerprint.event_arg_types (Sample.event 60) = Ok [] /\
  exists self' pattern',
    PatternMemoryCache.add_pattern (H := sample_runtime) sample_cache (Sample.event 60)
      (fun _ => 200) = Ok self' /\
    dict_get (PatternMemoryCache._cache self') "f:m" = Some pattern' /\
    PatternFingerprint.duration_max pattern' = 55 /\
    PatternFingerprint.hit_count pattern' = 2%Z.
Proof.
  assert (Hget : dict_get (PatternMemoryCache._cache sample_cache)
                   (SpecCache.event_key (Sample.event 60)) = Some sample_fingerprint)
    by reflexivity.
  assert (Htys : PatternFingerprint.event_arg_types (Sample.event 60) = Ok [])
    by reflexivity.
  split; [exact Hget |]. split; [exact Htys |].
  destruct (proj1 (add_pattern_existing_key (H := sample_runtime))
              sample_cache (Sample.event 60) (fun _ => 200) sample_fingerprint [] Hget Htys)
    as (self' & pattern' & Hadd & Hlookup & _ & Hmax & _ & _ & _ & _ & Hhit & _).
  exists self', pattern'. repeat split; assumption.
Defined.


Lemma audit_log_integrity_witness :
  CryptoCore._signing_key sample_crypto = Some "key"%string /\
  exists self,
    SpecAudit.run (H := sample_runtime) (AuditStore.__init__ sample_crypto)
      [AuditStore.LogEvent sample_audit_event; AuditStore.VerifyLogIntegrity] = Ok self /\
    AuditStore.verify_log_integrity (H := sample_runtime) self = true /\
    AuditStore.export_logs (H := sample_runtime) self None None
      = [AuditLines.signed (H := sample_runtime) "key" sample_audit_event].
Proof.
  split; [reflexivity |].
  destruct (proj1 (audit_log_integrity (H := sample_runtime)) sample_crypto "key"
              [AuditStore.LogEvent sample_audit_event; AuditStore.VerifyLogIntegrity]
              eq_refl)
    as (self & Hrun & Hverify & Hexport & _).
  { repeat constructor. }
  exists self. split; [exact Hrun |]. split; [exact Hverify | exact Hexport].
Defined.

Lemma sample_brain_init :
  BrainCore.__init__ StateStore.__init__ (AuditStore.__init__ sample_crypto)
    (TraceStore.__init__ 1000) sample_crypto 65.0 0.15 true
  = Ok sample_brain.
Proof. reflexivity. Qed.

Lemma anomaly_score_floor_witness :
  (60 : Q) <= 60 /\
  exists start,
    BrainCore.__init__ StateStore.__init__ (AuditStore.__init__ sample_crypto)
      (TraceStore.__init__ 1000) sample_crypto 60 0.15 true = Ok start /\
    BrainCore.soft_allow_threshold_low start == 50 /\
    forall baseline : BaselineProfile.t,
      Qlt_bool (Detector.compute_anomaly_score (Sample.event 50) baseline)
               (BrainCore.soft_allow_threshold_low start) = false.
Proof.
  split; [apply Qle_refl |].
  destruct (BrainCore.__init__ StateStore.__init__ (AuditStore.__init__ sample_crypto)
              (TraceStore.__init__ 1000) sample_crypto 60 0.15 true)
    as [start | exn] eqn:Einit; [| discriminate].
  exists start. split; [reflexivity |]. split.
  - injection Einit as <-. reflexivity.
  - intros baseline.
    destruct (anomaly_score_floor (H := sample_runtime)) as (_ & _ & Hzone).
    exact (proj1 (Hzone _ _ _ _ 60 0.15 true start start Einit (Qle_refl 60)
                    (SpecDecider.reachable_start start)) (Sample.event 50) baseline).
Defined.

(* ===================================================================== *)
(** * Part III: further properties of the code                            *)
(* ===================================================================== *)

(** ** The ingest queue *)

Section IngestQueue.
Import EventQueue QueueRuns.

Lemma deque_append_length {A} (maxlen : Z) (q : list A) (x : A) :
  (0 <= maxlen)%Z -> (Z.of_nat (length q) <= maxlen)%Z ->
  (Z.of_nat (length (deque_append maxlen q x)) <= maxlen)%Z.
Proof.
  intros Hm Hq. unfold deque_append.
  destruct (maxlen =? 0)%Z eqn:E0; [exact Hq |].
  apply Z.eqb_neq in E0.
  destruct (maxlen <=? Z.of_nat (length q))%Z eqn:Efull.
  - apply Z.leb_le in Efull. rewrite length_app. cbn [length].
    destruct q as [| y q]; cbn [tl length] in *; lia.
  - apply Z.leb_gt in Efull. rewrite length_app. cbn [length]. lia.
Qed.

(** X1. The queue is bounded: an [enqueue] on a queue that holds at most
    [max_size] events leaves at most [max_size] events, and it reports
    [False] exactly when the queue was full, in which case the counter of
    dropped events grows by one. *)
Theorem enqueue_bounded (self : t) (e : TelemetryEvent.t) :
  (0 <= max_size self)%Z -> (size self <= max_size self)%Z ->
  (size (fst (enqueue self e)) <= max_size (fst (enqueue self e)))%Z /\
  (snd (enqueue self e) = false <-> size self = max_size self) /\
  _total_dropped (fst (enqueue self e))
    = (if snd (enqueue self e) then _total_dropped self
       else _total_dropped self + 1)%Z.
Proof.
  intros Hm Hsize. unfold enqueue, size in *. cbn.
  split; [now apply deque_append_length |].
  destruct (max_size self <=? Z.of_nat (length (_queue self)))%Z eqn:E; cbn.
  - apply Z.leb_le in E. split; [| reflexivity]. split; [lia | reflexivity].
  - apply Z.leb_gt in E. split; [| reflexivity]. split; [discriminate | lia].
Qed.

Lemma enqueue_max_size (self : t) (e : TelemetryEvent.t) :
  max_size (fst (enqueue self e)) = max_size self.
Proof. reflexivity. Qed.

Lemma enqueue_all_snoc (self : t) (es : list TelemetryEvent.t) (e : TelemetryEvent.t) :
  enqueue_all self (es ++ [e]) = fst (enqueue (enqueue_all self es) e).
Proof. unfold enqueue_all. now rewrite fold_left_app. Qed.

Lemma enqueue_all_max_size (self : t) (es : list TelemetryEvent.t) :
  max_size (enqueue_all self es) = max_size self.
Proof.
  induction es as [| e es IH] using rev_ind; [reflexivity |].
  now rewrite enqueue_all_snoc, enqueue_max_size.
Qed.

Lemma tl_skipn {A} (k : nat) (l : list A) : tl (skipn k l) = skipn (S k) l.
Proof.
  revert l. induction k as [| k IH]; intros [| x l]; cbn [skipn tl]; auto.
Qed.

(** The content and the counters of a new queue after a run of [enqueue]. *)
Lemma enqueue_all_content
    (max_size : Z) (threshold : Q) (self : t) (es : list TelemetryEvent.t) :
  __init__ max_size threshold = Ok self ->
  let kept := Z.to_nat max_size in
  _queue (enqueue_all self es) = skipn (length es - kept) es /\
  _total_enqueued (enqueue_all self es) = Z.of_nat (length es) /\
  _total_dropped (enqueue_all self es) = Z.of_nat (length es - kept) /\
  _total_dequeued (enqueue_all self es) = 0%Z.
Proof.
  unfold __init__. destruct (max_size <? 0)%Z eqn:Eneg; [discriminate |].
  apply Z.ltb_ge in Eneg. intros [= <-]. cbn zeta.
  induction es as [| e es IH] using rev_ind.
  - now repeat split.
  - rewrite enqueue_all_snoc. destruct IH as (Hq & Hen & Hdr & Hdq).
    pose proof (enqueue_all_max_size
                  {| EventQueue.max_size := max_size; backpressure_threshold := threshold;
                     _queue := []; _total_enqueued := 0; _total_dropped := 0;
                     _total_dequeued := 0 |} es) as Hmax.
    cbn [EventQueue.max_size] in Hmax.
    unfold enqueue. cbn [fst _queue _total_enqueued _total_dropped _total_dequeued].
    rewrite Hmax, Hq, Hen, Hdr, Hdq. rewrite length_app. cbn [length].
    assert (Hlen : length (skipn (length es - Z.to_nat max_size) es)
                   = Nat.min (length es) (Z.to_nat max_size))
      by (rewrite length_skipn; lia).
    unfold deque_append. rewrite Hlen.
    destruct (max_size =? 0)%Z eqn:E0.
    + apply Z.eqb_eq in E0. subst max_size. cbn [Z.to_nat].
      rewrite !Nat.sub_0_r. rewrite Nat.min_0_r.
      change (0 <=? Z.of_nat 0)%Z with true.
      repeat split; try lia.
      rewrite skipn_all. rewrite skipn_all2 by (rewrite length_app; cbn; lia).
      reflexivity.
    + apply Z.eqb_neq in E0.
      destruct (max_size <=? Z.of_nat (Nat.min (length es) (Z.to_nat max_size)))%Z eqn:Ef.
      * apply Z.leb_le in Ef.
        assert (Hge : (Z.to_nat max_size <= length es)%nat) by lia.
        repeat split; try lia.
        rewrite tl_skipn.
        replace (length es + 1 - Z.to_nat max_size)%nat
          with (S (length es - Z.to_nat max_size)) by lia.
        rewrite skipn_app.
        replace (S (length es - Z.to_nat max_size) - length es)%nat with 0%nat by lia.
        reflexivity.
      * apply Z.leb_gt in Ef.
        assert (Hlt : (length es < Z.to_nat max_size)%nat) by lia.
        replace (length es - Z.to_nat max_size)%nat with 0%nat by lia.
        replace (length es + 1 - Z.to_nat max_size)%nat with 0%nat by lia.
        repeat split; lia.
Qed.

(** X2. Starting from an empty queue of capacity [max_size], after any
    events have been enqueued the queue holds the newest [max_size] of them,
    oldest first (all of them when they fit); every event beyond the
    capacity has been counted as dropped. *)
Theorem enqueue_all_keeps_newest
    (max_size : Z) (threshold : Q) (self : t) (es : list TelemetryEvent.t) :
  __init__ max_size threshold = Ok self ->
  let kept := Z.to_nat max_size in
  _queue (enqueue_all self es) = skipn (length es - kept) es /\
  _total_enqueued (enqueue_all self es) = Z.of_nat (length es) /\
  _total_dropped (enqueue_all self es) = Z.of_nat (length es - kept) /\
  _total_dequeued (enqueue_all self es) = 0%Z.
Proof. exact (enqueue_all_content max_size threshold self es). Qed.

(** What [n] calls of [dequeue] return and leave. *)
Lemma dequeue_n_content (n : nat) (self : t) :
  snd (dequeue_n n self) = firstn n (_queue self) /\
  _queue (fst (dequeue_n n self)) = skipn n (_queue self) /\
  _total_dequeued (fst (dequeue_n n self))
    = (_total_dequeued self + Z.of_nat (Nat.min n (length (_queue self))))%Z /\
  _total_dropped (fst (dequeue_n n self)) = _total_dropped self.
Proof.
  revert self. induction n as [| n IH]; intros self.
  - cbn. repeat split. lia.
  - cbn [dequeue_n]. unfold dequeue. destruct (_queue self) as [| e q] eqn:Eq.
    + destruct (IH self) as (H1 & H2 & H3 & H4). rewrite Eq in *.
      rewrite H1, H2, H3, H4. rewrite firstn_nil, skipn_nil.
      cbn [length]. rewrite !Nat.min_0_r. now repeat split.
    + match goal with |- context [dequeue_n n ?s] =>
        destruct (IH s) as (H1 & H2 & H3 & H4); destruct (dequeue_n n s) as [s'' es] end.
      cbn [fst snd _queue _total_dequeued _total_dropped] in *. rewrite H1, H2, H3, H4.
      repeat split. cbn [length]. lia.
Qed.

(** X3. First in, first out: when the events enqueued on a new queue fit
    its capacity, as many calls of [dequeue] return them in the order of
    their arrival and leave the queue empty, where a further [dequeue]
    returns none. *)
Theorem dequeue_returns_in_order
    (max_size : Z) (threshold : Q) (self : t) (es : list TelemetryEvent.t) :
  __init__ max_size threshold = Ok self ->
  (Z.of_nat (length es) <= max_size)%Z ->
  let '(self', out) := dequeue_n (length es) (enqueue_all self es) in
  out = es /\ _queue self' = [] /\ snd (dequeue self') = None /\
  _total_dropped self' = 0%Z /\
  _total_dequeued self' = Z.of_nat (length es).
Proof.
  intros Hinit Hfit.
  destruct (enqueue_all_content max_size threshold self es Hinit) as (Hq & _ & Hdr & Hdq).
  cbn zeta in Hq, Hdr.
  replace (length es - Z.to_nat max_size)%nat with 0%nat in Hq, Hdr by lia.
  change (skipn 0 es) with es in Hq.
  destruct (dequeue_n_content (length es) (enqueue_all self es)) as (H1 & H2 & H3 & H4).
  destruct (dequeue_n (length es) (enqueue_all self es)) as [self' out].
  cbn [fst snd] in *. rewrite Hq in *.
  rewrite firstn_all in H1. rewrite skipn_all in H2.
  split; [exact H1 |]. split; [exact H2 |].
  split; [unfold dequeue; now rewrite H2 |].
  split; [now rewrite H4, Hdr | rewrite H3, Hdq, Nat.min_id; lia].
Qed.

(** X4. The counters account for every event: on a queue of non-negative
    capacity, the number enqueued is always the number held plus the number
    dropped plus the number dequeued; this holds for a new queue and is kept
    by [enqueue] and by [dequeue]. *)
Theorem queue_counters_accounted :
  (forall (max_size : Z) (threshold : Q) (self : t),
     __init__ max_size threshold = Ok self ->
     (0 <= EventQueue.max_size self)%Z /\ accounted self) /\
  (forall (self : t) (e : TelemetryEvent.t),
     (0 <= EventQueue.max_size self)%Z -> accounted self ->
     accounted (fst (enqueue self e))) /\
  (forall self : t, accounted self -> accounted (fst (dequeue self))).
Proof.
  split; [| split].
  - intros max_size threshold self. unfold __init__.
    destruct (max_size <? 0)%Z eqn:E; [discriminate |]. apply Z.ltb_ge in E.
    intros [= <-]. split; [exact E | reflexivity].
  - intros self e Hm. unfold accounted, enqueue, size, deque_append. cbn.
    intros Hacc.
    destruct (max_size self =? 0)%Z eqn:E0.
    + apply Z.eqb_eq in E0.
      destruct (max_size self <=? Z.of_nat (length (_queue self)))%Z eqn:E; [lia |].
      apply Z.leb_gt in E. lia.
    + destruct (max_size self <=? Z.of_nat (length (_queue self)))%Z eqn:E;
        rewrite length_app; cbn [length].
      * apply Z.leb_le in E. apply Z.eqb_neq in E0.
        destruct (_queue self); cbn [tl length] in *; lia.
      * lia.
  - intros self. unfold accounted, dequeue, size.
    destruct (_queue self) as [| e q] eqn:Eq; cbn; rewrite ?Eq; cbn [length]; lia.
Qed.

(** X5. The utilization of a queue of positive capacity holding at most
    that many events lies between 0 and 1, and it is 1 exactly when the
    queue is full; with capacity 0 the division fails. *)
Theorem get_utilization_range (self : t) :
  ((0 < max_size self)%Z -> (size self <= max_size self)%Z ->
   exists u, get_utilization self = Ok u /\ 0 <= u <= 1 /\
             (u == 1 <-> is_full self = true)) /\
  (max_size self = 0%Z -> get_utilization self = Raise "ZeroDivisionError").
Proof.
  split.
  - intros Hm Hsize. unfold get_utilization, is_full.
    destruct (max_size self =? 0)%Z eqn:E0; [apply Z.eqb_eq in E0; lia |].
    eexists. split; [reflexivity |].
    assert (Hs : (0 <= size self)%Z) by (unfold size; lia).
    assert (Hmq : 0 < inject_Z (max_size self))
      by (change 0 with (inject_Z 0); now rewrite <- Zlt_Qlt).
    assert (Hsq : 0 <= inject_Z (size self))
      by (change 0 with (inject_Z 0); now rewrite <- Zle_Qle).
    assert (Hle : inject_Z (size self) <= inject_Z (max_size self))
      by (now rewrite <- Zle_Qle).
    split; [split |].
    + apply Qle_shift_div_l; [exact Hmq | lra].
    + apply Qle_shift_div_r; [exact Hmq | lra].
    + split.
      * intros Hu. apply Z.leb_le.
        assert (inject_Z (size self) == inject_Z (max_size self)).
        { rewrite <- (Qmult_1_l (inject_Z (max_size self))), <- Hu. field. lra. }
        unfold Qeq in H. cbn in H. lia.
      * intros Hfull. apply Z.leb_le in Hfull.
        replace (size self) with (max_size self) by lia. field. lra.
  - intros H0. unfold get_utilization. now rewrite H0.
Qed.

End IngestQueue.

(** The queue theorems at sample values: a queue of capacity 2 receiving
    three events, and the sample queue of capacity 10 holding 8. *)

Lemma enqueue_bounded_witness :
  (EventQueue.size (fst (EventQueue.enqueue sample_queue (Sample.event 50)))
   <= EventQueue.max_size (fst (EventQueue.enqueue sample_queue (Sample.event 50))))%Z /\
  (snd (EventQueue.enqueue sample_queue (Sample.event 50)) = false
   <-> EventQueue.size sample_queue = EventQueue.max_size sample_queue) /\
  EventQueue._total_dropped (fst (EventQueue.enqueue sample_queue (Sample.event 50)))
    = (if snd (EventQueue.enqueue sample_queue (Sample.event 50))
       then EventQueue._total_dropped sample_queue
       else EventQueue._total_dropped sample_queue + 1)%Z.
Proof.
  apply (enqueue_bounded sample_queue (Sample.event 50)); vm_compute; discriminate.
Defined.

Lemma enqueue_all_keeps_newest_witness :
  exists self,
    EventQueue.__init__ 2 0.8 = Ok self /\
    EventQueue._queue
      (QueueRuns.enqueue_all self [Sample.event 1; Sample.event 2; Sample.event 3])
      = [Sample.event 2; Sample.event 3] /\
    EventQueue._total_dropped
      (QueueRuns.enqueue_all self [Sample.event 1; Sample.event 2; Sample.event 3])
      = 1%Z.
Proof.
  eexists. split; [reflexivity |].
  match goal with |- context [QueueRuns.enqueue_all ?q ?es] =>
    destruct (enqueue_all_keeps_newest 2 0.8 q es eq_refl) as (Hq & _ & Hd & _) end.
  split; [exact Hq | exact Hd].
Defined.

Lemma dequeue_returns_in_order_witness :
  exists self,
    EventQueue.__init__ 2 0.8 = Ok self /\
    snd (QueueRuns.dequeue_n 2 (QueueRuns.enqueue_all self [Sample.event 1; Sample.event 2]))
      = [Sample.event 1; Sample.event 2].
Proof.
  eexists. split; [reflexivity |].
  match goal with |- context [QueueRuns.enqueue_all ?q ?es] =>
    pose proof (dequeue_returns_in_order 2 0.8 q es eq_refl) as H end.
  cbn [length] in H. specialize (H ltac:(vm_compute; discriminate)).
  destruct (QueueRuns.dequeue_n 2 _) as [self' out]. exact (proj1 H).
Defined.

Lemma queue_counters_accounted_witness :
  QueueRuns.accounted sample_queue /\
  QueueRuns.accounted (fst (EventQueue.enqueue sample_queue (Sample.event 50))) /\
  QueueRuns.accounted (fst (EventQueue.dequeue sample_queue)).
Proof.
  destruct queue_counters_accounted as (_ & Henq & Hdeq).
  assert (Hacc : QueueRuns.accounted sample_queue) by reflexivity.
  split; [exact Hacc |]. split.
  - apply Henq; [vm_compute; discriminate | exact Hacc].
  - apply Hdeq. exact Hacc.
Defined.

Lemma get_utilization_range_witness :
  exists u, EventQueue.get_utilization sample_queue = Ok u /\ 0 <= u <= 1 /\
            (u == 1 <-> EventQueue.is_full sample_queue = true).
Proof.
  apply (proj1 (get_utilization_range sample_queue)); [reflexivity | vm_compute; discriminate].
Defined.

(** ** The backpressure controller *)

Section BackpressureSignals.
Context `{Runtime}.
Import BackpressureController.

(** X6. The recommended sampling rate never grows with the utilization, and
    it always lies between 0.1 and 1, whatever number is passed as
    utilization. *)
Theorem get_recommended_rate_antitone (self : t) (u1 u2 : Q) :
  u1 <= u2 ->
  exists r1 r2,
    get_recommended_rate self (Some u1) = Ok r1 /\
    get_recommended_rate self (Some u2) = Ok r2 /\
    r2 <= r1 /\ 0.1 <= r2 /\ r1 <= 1.
Proof.
  intros Hu. unfold get_recommended_rate, bind.
  qtest; do 2 eexists; (split; [reflexivity |]); (split; [reflexivity |]);
    repeat split; lra.
Qed.

(** X7. A check on a controller whose queue has a positive capacity returns
    a signal that carries the utilization of the queue, is active exactly
    when the utilization reaches the threshold of the queue, and recommends
    the rate that [get_recommended_rate] gives for this utilization; the
    controller counts the check, and it counts an activation exactly when
    the signal is active and the controller was not. *)
Theorem check_and_signal_spec (self : t) :
  (0 < EventQueue.max_size (queue self))%Z ->
  exists self' signal,
    check_and_signal self = Ok (self', signal) /\
    let u := inject_Z (EventQueue.size (queue self))
             / inject_Z (EventQueue.max_size (queue self)) in
    BackpressureSignal.queue_utilization signal = u /\
    (BackpressureSignal.active signal = true
     <-> EventQueue.backpressure_threshold (queue self) <= u) /\
    get_recommended_rate self (Some u)
      = Ok (BackpressureSignal.recommended_rate signal) /\
    _backpressure_active self' = BackpressureSignal.active signal /\
    _last_utilization self' = u /\
    queue self' = queue self /\
    _total_checks self' = (_total_checks self + 1)%Z /\
    _backpressure_activations self'
      = (if BackpressureSignal.active signal && negb (_backpressure_active self)
         then _backpressure_activations self + 1
         else _backpressure_activations self)%Z.
Proof.
  intros Hm. unfold check_and_signal, EventQueue.has_backpressure,
    EventQueue.get_utilization.
  destruct (EventQueue.max_size (queue self) =? 0)%Z eqn:E0;
    [apply Z.eqb_eq in E0; lia |].
  cbn [bind].
  match goal with |- context [get_recommended_rate ?s (Some ?u)] =>
    assert (Hr : exists r, get_recommended_rate s (Some u) = Ok r
                           /\ get_recommended_rate self (Some u) = Ok r)
      by (unfold get_recommended_rate, bind; qtest; eexists; split; reflexivity)
  end.
  destruct Hr as (r & Hr & Hr'). rewrite Hr. cbn [bind].
  do 2 eexists. split; [reflexivity |].
  cbn. repeat split; try assumption; try reflexivity.
  - intros Hb. now apply Qle_bool_iff.
  - intros Hb. now apply Qle_bool_iff.
Qed.

(** X8. With the default threshold 0.8 the two outputs of a check agree:
    the signal is active exactly when the recommended rate is at most
    0.5. *)
Theorem check_and_signal_active_rate (self : t) (self' : t) (signal : BackpressureSignal.t) :
  EventQueue.backpressure_threshold (queue self) == 0.8 ->
  check_and_signal self = Ok (self', signal) ->
  (BackpressureSignal.active signal = true
   <-> BackpressureSignal.recommended_rate signal <= 0.5).
Proof.
  intros Hth. unfold check_and_signal, EventQueue.has_backpressure.
  destruct (EventQueue.get_utilization (queue self)) as [u | x]; [| discriminate].
  cbn [bind]. unfold get_recommended_rate. cbn [bind].
  qtest; intros [= <- <-]; cbn; split; intros; try reflexivity; try discriminate;
    try lra; exfalso; rewrite Hth in *; lra.
Qed.

(** X9. A controller never counts more activations than checks: the bound
    holds for a new controller and every check keeps it. *)
Theorem activations_at_most_checks :
  (forall q : EventQueue.t,
     (0 <= _backpressure_activations (__init__ q) <= _total_checks (__init__ q))%Z) /\
  (forall (self self' : t) (signal : BackpressureSignal.t),
     (0 <= _backpressure_activations self <= _total_checks self)%Z ->
     check_and_signal self = Ok (self', signal) ->
     (0 <= _backpressure_activations self' <= _total_checks self')%Z).
Proof.
  split; [intros q; cbn; lia |].
  intros self self' signal Hinv. unfold check_and_signal, EventQueue.has_backpressure.
  destruct (EventQueue.get_utilization (queue self)) as [u | x]; [| discriminate].
  cbn [bind]. unfold get_recommended_rate. cbn [bind].
  qtest; intros [= <- <-]; cbn;
    destruct (_backpressure_active self); cbn; lia.
Qed.

End BackpressureSignals.

(** The controller theorems on the sample queue, 8 events of 10. *)

Lemma get_recommended_rate_antitone_witness :
  exists r1 r2,
    BackpressureController.get_recommended_rate
      (BackpressureController.__init__ sample_queue) (Some 0.75) = Ok r1 /\
    BackpressureController.get_recommended_rate
      (BackpressureController.__init__ sample_queue) (Some 0.92) = Ok r2 /\
    r2 <= r1 /\ 0.1 <= r2 /\ r1 <= 1.
Proof.
  apply (get_recommended_rate_antitone (BackpressureController.__init__ sample_queue)
           0.75 0.92).
  vm_compute. discriminate.
Defined.

Lemma check_and_signal_spec_witness :
  exists self' signal,
    BackpressureController.check_and_signal (H := sample_runtime)
      (BackpressureController.__init__ sample_queue) = Ok (self', signal) /\
    BackpressureSignal.active signal = true /\
    BackpressureController._backpressure_activations self' = 1%Z.
Proof.
  destruct (check_and_signal_spec (H := sample_runtime)
              (BackpressureController.__init__ sample_queue) eq_refl)
    as (self' & signal & Hrun & _ & Hact & _ & _ & _ & _ & _ & Hn).
  exists self', signal. split; [exact Hrun |].
  assert (Ha : BackpressureSignal.active signal = true)
    by (apply Hact; vm_compute; discriminate).
  split; [exact Ha |]. rewrite Hn, Ha. reflexivity.
Defined.

Lemma check_and_signal_active_rate_witness :
  exists self' signal,
    BackpressureController.check_and_signal (H := sample_runtime)
      (BackpressureController.__init__ sample_queue) = Ok (self', signal) /\
    (BackpressureSignal.active signal = true
     <-> BackpressureSignal.recommended_rate signal <= 0.5).
Proof.
  destruct (BackpressureController.check_and_signal (H := sample_runtime)
              (BackpressureController.__init__ sample_queue))
    as [[self' signal] | x] eqn:E; [| discriminate E].
  exists self', signal. split; [reflexivity |].
  apply (check_and_signal_active_rate (H := sample_runtime)
           (BackpressureController.__init__ sample_queue) self' signal);
    [reflexivity | exact E].
Defined.

Lemma activations_at_most_checks_witness :
  exists self' signal,
    BackpressureController.check_and_signal (H := sample_runtime)
      (BackpressureController.__init__ sample_queue) = Ok (self', signal) /\
    (0 <= BackpressureController._backpressure_activations self'
       <= BackpressureController._total_checks self')%Z.
Proof.
  destruct (BackpressureController.check_and_signal (H := sample_runtime)
              (BackpressureController.__init__ sample_queue))
    as [[self' signal] | x] eqn:E; [| discriminate E].
  exists self', signal. split; [reflexivity |].
  destruct (activations_at_most_checks (H := sample_runtime)) as (Hinit & Hstep).
  exact (Hstep _ self' signal (Hinit sample_queue) E).
Defined.

(** ** The validator of signed events *)

Section ValidatorFacts.
Context `{Runtime}.
Import SecurityValidator SpecReplay ValidatorStats.

(** [_add_nonce] touches the nonce store only. *)
Lemma add_nonce_stats (self : t) (n : string) (ts now : Z) :
  crypto (_add_nonce self n ts now) = crypto self /\
  max_nonce_cache (_add_nonce self n ts now) = max_nonce_cache self /\
  _total_validations (_add_nonce self n ts now) = _total_validations self /\
  _valid_events (_add_nonce self n ts now) = _valid_events self /\
  _invalid_signatures (_add_nonce self n ts now) = _invalid_signatures self /\
  _replay_attacks (_add_nonce self n ts now) = _replay_attacks self /\
  _expired_events (_add_nonce self n ts now) = _expired_events self.
Proof.
  unfold _add_nonce. cbn.
  match goal with |- context [if ?c then _ else _] => destruct c end;
    [| now repeat split].
  unfold cleanup_old_nonces. cbn.
  match goal with |- context [cleanup_loop ?c ?s ?d] =>
    destruct (cleanup_loop c s d) as [[seen' stamps'] removed] end.
  now repeat split.
Qed.

Lemma age_test_true (self : t) (signed_event : SignedEvent.t) (now : Z) :
  inject_Z (nonce_expiry_seconds self)
    < total_seconds now (SignedEvent.timestamp signed_event) ->
  Qlt_bool (inject_Z (nonce_expiry_seconds self))
           (total_seconds now (SignedEvent.timestamp signed_event)) = true.
Proof.
  intros Hold. unfold Qlt_bool. apply negb_true_iff.
  destruct (Qle_bool _ _) eqn:E; [| reflexivity].
  apply Qle_bool_iff in E. lra.
Qed.


(** X11. An event signed by the transport of the agent is accepted by a
    validator that holds the same key, has not seen the nonce and reads the
    clock within the window of the signing time; the validator counts it as
    valid and, when its deque holds seen nonces only and the cleanup reads
    the clock within the window too, it has recorded the nonce. *)
Theorem sign_event_accepted (transport : SecureTransport.t) (self : t)
    (event : TelemetryEvent.t) (nonce : string) (signed_at now cleanup : Z)
    (signed_event : SignedEvent.t) :
  SecureTransport.crypto transport = crypto self ->
  SecureTransport.sign_event transport event nonce signed_at = Ok signed_event ->
  nonce ∉ _seen_nonces self ->
  total_seconds now signed_at <= inject_Z (nonce_expiry_seconds self) ->
  exists self',
    verify_event self signed_event now cleanup
      = Ok (self', (true, "Valid signature"%string)) /\
    _valid_events self' = (_valid_events self + 1)%Z /\
    (tracked self ->
     total_seconds cleanup signed_at <= inject_Z (nonce_expiry_seconds self) ->
     nonce ∈ _seen_nonces self').
Proof.
  intros Hcrypto Hsign Hnew Hfresh.
  unfold SecureTransport.sign_event, CryptoCore.sign_hmac, CryptoCore.hmac_sign in Hsign.
  rewrite Hcrypto in Hsign.
  destruct (CryptoCore._signing_key (crypto self)) as [key |] eqn:Hkey;
    [| discriminate].
  cbn [bind] in Hsign. injection Hsign as <-.
  unfold verify_event. cbn.
  assert (Eage : Qlt_bool (inject_Z (nonce_expiry_seconds self))
                   (total_seconds now signed_at) = false)
    by (unfold Qlt_bool; apply negb_false_iff, Qle_bool_iff; exact Hfresh).
  rewrite Eage. unfold is_replay_attack. cbn.
  rewrite bool_decide_eq_false_2 by exact Hnew.
  unfold CryptoCore.verify_hmac, CryptoCore.verify_signature, CryptoCore.hmac_sign.
  rewrite Hkey. cbn [bind]. unfold compare_digest.
  rewrite hmac_sha256_hex_ascii, String.eqb_refl. cbn [andb bind].
  eexists. split; [reflexivity |]. split.
  - match goal with |- context [_add_nonce ?s ?n ?t ?c] =>
      destruct (add_nonce_stats s n t c) as (_ & _ & _ & Hv & _) end.
    rewrite Hv. reflexivity.
  - intros Ht Hc. apply add_nonce_keeps; [exact Ht | exact Hnew | exact Hc].
Qed.

(** X12. The counters of a validator add up: the number of validations is
    the number of valid events plus the invalid signatures, the replays and
    the expired events; this holds for a new validator and every
    verification that returns keeps it. *)
Theorem verify_event_accounted :
  (forall (crypto_core : CryptoCore.t) (expiry bound : Z) (self : t),
     __init__ crypto_core expiry bound = Ok self -> accounted self) /\
  (forall (self self' : t) (signed_event : SignedEvent.t) (now cleanup : Z)
          (verdict : bool * string),
     accounted self ->
     verify_event self signed_event now cleanup = Ok (self', verdict) ->
     accounted self' /\
     _total_validations self' = (_total_validations self + 1)%Z).
Proof.
  split.
  - intros crypto_core expiry bound self. unfold __init__.
    destruct (bound <? 0)%Z; [discriminate |]. intros [= <-]. reflexivity.
  - intros self self' signed_event now cleanup verdict Hacc.
    unfold accounted in *. unfold verify_event. cbn.
    destruct (Qlt_bool _ _); [intros [= <- <-]; cbn; lia |].
    destruct (is_replay_attack _ _ _); [intros [= <- <-]; cbn; lia |].
    destruct (CryptoCore.verify_hmac _ _ _) as [[|] | exn]; cbn [bind];
      [| intros [= <- <-]; cbn; lia | discriminate].
    intros [= <- <-].
    match goal with |- context [_add_nonce ?s ?n ?t ?c] =>
      destruct (add_nonce_stats s n t c) as (_ & _ & H1 & H2 & H3 & H4 & H5) end.
    rewrite H1, H2, H3, H4, H5. cbn. lia.
Qed.

(** What the loop of the cleanup removes. *)
Lemma cleanup_loop_spec (cutoff : Q) (stamps : list (string * Z)) (seen : gset string) :
  exists old : list (string * Z),
    stamps = old ++ snd (fst (cleanup_loop cutoff seen stamps)) /\
    snd (cleanup_loop cutoff seen stamps) = Z.of_nat (length old) /\
    Forall (fun entry => Qlt_bool (posix_timestamp (snd entry)) cutoff = true) old /\
    match snd (fst (cleanup_loop cutoff seen stamps)) with
    | [] => True
    | entry :: _ => Qlt_bool (posix_timestamp (snd entry)) cutoff = false
    end /\
    fst (fst (cleanup_loop cutoff seen stamps)) = seen ∖ list_to_set (map fst old).
Proof.
  revert seen. induction stamps as [| [m t] stamps IH]; intros seen; cbn [cleanup_loop].
  - exists []. cbn [app length map snd fst].
    rewrite list_to_set_nil, difference_empty_L. repeat split. constructor.
  - destruct (Qlt_bool (posix_timestamp t) cutoff) eqn:Eold.
    + destruct (IH (seen ∖ {[m]})) as (old & Hst & Hn & Hold & Hhead & Hseen).
      destruct (cleanup_loop cutoff (seen ∖ {[m]}) stamps) as [[seen' stamps'] removed].
      cbn [fst snd] in *. exists ((m, t) :: old). cbn [app length map fst].
      split; [now rewrite Hst at 1 |]. split; [lia |].
      split; [constructor; [exact Eold | exact Hold] |].
      split; [exact Hhead |].
      rewrite Hseen, list_to_set_cons, difference_difference_l_L. reflexivity.
    + exists []. cbn [app length map snd fst].
      rewrite list_to_set_nil, difference_empty_L.
      repeat split; [constructor | exact Eold].
Qed.

(** X13. The cleanup of the nonce store removes the entries at the front of
    the deque that are older than the window, up to the first entry that is
    not, and no entry behind that one; it discards their nonces from the
    seen-set, returns their number, and a second cleanup at the same clock
    removes nothing. *)
Theorem cleanup_old_nonces_spec (self : t) (now : Z) :
  let cutoff := posix_timestamp now - inject_Z (nonce_expiry_seconds self) in
  let self' := fst (cleanup_old_nonces self now) in
  exists old : list (string * Z),
    _nonce_timestamps self = old ++ _nonce_timestamps self' /\
    snd (cleanup_old_nonces self now) = Z.of_nat (length old) /\
    Forall (fun entry => posix_timestamp (snd entry) < cutoff) old /\
    match _nonce_timestamps self' with
    | [] => True
    | entry :: _ => cutoff <= posix_timestamp (snd entry)
    end /\
    _seen_nonces self' = _seen_nonces self ∖ list_to_set (map fst old) /\
    cleanup_old_nonces self' now = (self', 0%Z).
Proof.
  intros cutoff self'. subst self'. unfold cleanup_old_nonces. cbn zeta. fold cutoff.
  destruct (cleanup_loop_spec cutoff (_nonce_timestamps self) (_seen_nonces self))
    as (old & Hst & Hn & Hold & Hhead & Hseen).
  destruct (cleanup_loop cutoff (_seen_nonces self) (_nonce_timestamps self))
    as [[seen' stamps'] removed] eqn:Eloop.
  cbn [fst snd] in *. exists old. cbn.
  split; [exact Hst |]. split; [exact Hn |].
  split.
  { rewrite List.Forall_forall in *. intros entry Hin. specialize (Hold _ Hin).
    unfold Qlt_bool in Hold. apply negb_true_iff, Qle_bool_false in Hold. exact Hold. }
  split.
  { destruct stamps' as [| entry rest]; [exact I |].
    unfold Qlt_bool in Hhead. apply negb_false_iff, Qle_bool_iff in Hhead. exact Hhead. }
  split; [exact Hseen |].
  fold cutoff.
  destruct stamps' as [| [m t] rest]; cbn [cleanup_loop]; [reflexivity |].
  cbn [snd] in Hhead. rewrite Hhead. reflexivity.
Qed.

End ValidatorFacts.

(** The validator theorems on the sample validator and the event signed
    with its key. *)


Lemma sign_event_accepted_witness :
  exists signed_event self',
    SecureTransport.sign_event (H := sample_runtime) sample_transport (Sample.event 50)
      "nonce-1" 0 = Ok signed_event /\
    SecurityValidator.verify_event (H := sample_runtime) sample_validator signed_event
      1000000 1000000 = Ok (self', (true, "Valid signature"%string)) /\
    "nonce-1"%string ∈ SecurityValidator._seen_nonces self'.
Proof.
  assert (Hfresh : total_seconds 1000000 0
                   <= inject_Z (SecurityValidator.nonce_expiry_seconds sample_validator))
    by (vm_compute; discriminate).
  destruct (sign_event_accepted (H := sample_runtime) sample_transport sample_validator
              (Sample.event 50) "nonce-1" 0%Z 1000000%Z 1000000%Z genuine_event
              eq_refl eq_refl (not_elem_of_empty _) Hfresh)
    as (self' & Hrun & _ & Hseen).
  exists genuine_event, self'. split; [reflexivity |]. split; [exact Hrun |].
  apply Hseen; [split; constructor | exact Hfresh].
Defined.

Lemma verify_event_accounted_witness :
  exists self' verdict,
    SecurityValidator.verify_event (H := sample_runtime) sample_validator forged_event 0 0
      = Ok (self', verdict) /\
    ValidatorStats.accounted self' /\
    SecurityValidator._total_validations self' = 1%Z.
Proof.
  destruct (SecurityValidator.verify_event (H := sample_runtime) sample_validator
              forged_event 0 0) as [[self' verdict] | x] eqn:E;
    [| vm_compute in E; discriminate].
  exists self', verdict. split; [reflexivity |].
  destruct (verify_event_accounted (H := sample_runtime)) as (_ & Hstep).
  exact (Hstep sample_validator self' forged_event 0%Z 0%Z verdict eq_refl E).
Defined.

(** ** Pattern fingerprints *)

Section FingerprintMatch.
Import PatternFingerprint CacheTables.

Lemma py_eq_list_length (l1 l2 : list json) :
  py_eq (JList l1) (JList l2) = true -> length l1 = length l2.
Proof.
  revert l2. induction l1 as [| x l1 IH]; intros [| y l2]; simpl;
    try discriminate; [reflexivity |].
  intros Heq. apply andb_true_iff in Heq. destruct Heq as [_ Heq].
  f_equal. apply IH. exact Heq.
Qed.

Lemma range_test (a b d : Q) :
  Qle_bool a d && Qle_bool d b = true <-> a <= d /\ d <= b.
Proof. rewrite andb_true_iff, !Qle_bool_iff. reflexivity. Qed.

(** The tests behind a match at the threshold 0.85. *)
Lemma matches_threshold_facts (self : t) (event : TelemetryEvent.t) (tys : list json) :
  event_arg_types event = Ok tys ->
  exists matched : bool,
    matches self event 0.85 = Ok matched /\
    (matched = true ->
     TelemetryEvent.function_name event = function_name self /\
     TelemetryEvent.module_name event = module_name self /\
     (in_range self (TelemetryEvent.duration_ms event)
      \/ in_tolerance self (TelemetryEvent.duration_ms event)) /\
     length tys = length (arg_types self)) /\
    (TelemetryEvent.function_name event = function_name self ->
     TelemetryEvent.module_name event = module_name self ->
     in_range self (TelemetryEvent.duration_ms event) ->
     length tys = length (arg_types self) ->
     matched = true).
Proof.
  intros Htys. unfold matches. rewrite Htys. cbn [bind].
  unfold in_range, in_tolerance.
  pose proof (range_test (duration_min self) (duration_max self)
                (TelemetryEvent.duration_ms event)) as Hrange.
  pose proof (range_test (duration_min self * 0.8) (duration_max self * 1.2)
                (TelemetryEvent.duration_ms event)) as Htol.
  pose proof (py_eq_list_length tys (arg_types self)) as Hpy.
  pose proof (Nat.eqb_eq (length tys) (length (arg_types self))) as Hlen.
  destruct (String.eqb_spec (TelemetryEvent.function_name event) (function_name self));
    destruct (String.eqb_spec (TelemetryEvent.module_name event) (module_name self));
    destruct (Qle_bool (duration_min self) (TelemetryEvent.duration_ms event)
              && Qle_bool (TelemetryEvent.duration_ms event) (duration_max self));
    destruct (Qle_bool (duration_min self * 0.8) (TelemetryEvent.duration_ms event)
              && Qle_bool (TelemetryEvent.duration_ms event) (duration_max self * 1.2));
    destruct (py_eq (JList tys) (JList (arg_types self)));
    destruct (Nat.eqb (length tys) (length (arg_types self)));
    match goal with |- context [Ok ?b] =>
      let v := eval vm_compute in b in change b with v end;
    eexists; (split; [reflexivity |]); split;
    try discriminate; try (intros; reflexivity);
    try (intros _; repeat split; auto;
         try (left; now apply Hrange); try (right; now apply Htol);
         try (now apply Hpy); now apply Hlen);
    intros; exfalso;
    try contradiction;
    try (assert (false = true) by (now apply Hrange); discriminate);
    try (assert (false = true) by (now apply Hlen); discriminate).
Qed.

(** X14. A match at the default threshold 0.85: an event matches a
    fingerprint only if both names are equal, the duration is in the range
    of the fingerprint or within its tolerance of 20 percent, and the event
    has as many argument types as the fingerprint; and it does match when
    the names are equal, the duration is in the range and the numbers of
    argument types agree. *)
Theorem matches_conditions (self : t) (event : TelemetryEvent.t) (tys : list json) :
  event_arg_types event = Ok tys ->
  exists matched : bool,
    matches self event 0.85 = Ok matched /\
    (matched = true ->
     TelemetryEvent.function_name event = function_name self /\
     TelemetryEvent.module_name event = module_name self /\
     (in_range self (TelemetryEvent.duration_ms event)
      \/ in_tolerance self (TelemetryEvent.duration_ms event)) /\
     length tys = length (arg_types self)) /\
    (TelemetryEvent.function_name event = function_name self ->
     TelemetryEvent.module_name event = module_name self ->
     in_range self (TelemetryEvent.duration_ms event) ->
     length tys = length (arg_types self) ->
     matched = true).
Proof. exact (matches_threshold_facts self event tys). Qed.

End FingerprintMatch.

(** ** Keys of dictionaries *)

Section DictKeys.
Context {V : Type}.

Lemma dict_get_none_keys (d : pydict V) (k : string) :
  dict_get d k = None <-> k ∉ dict_keys d.
Proof.
  unfold dict_keys. induction d as [| [k' v] d IH]; cbn [dict_get map fst].
  - split; [intros _; apply not_elem_of_nil | reflexivity].
  - rewrite not_elem_of_cons. destruct (String.eqb_spec k' k) as [-> | Hne].
    + split; [discriminate | intros [Hk _]; now contradiction Hk].
    + rewrite IH. split; [intros Hd; split; [congruence | exact Hd] | now intros [_ Hd]].
Qed.

Lemma dict_mem_keys (d : pydict V) (k : string) :
  dict_mem d k = true <-> k ∈ dict_keys d.
Proof.
  unfold dict_mem. pose proof (dict_get_none_keys d k) as Hnone.
  destruct (dict_get d k) as [v |].
  - split; [intros _ | reflexivity].
    destruct (decide (k ∈ dict_keys d)) as [Hin | Hout]; [exact Hin |].
    apply Hnone in Hout. discriminate.
  - split; [discriminate |]. intros Hin. exfalso. now apply Hnone.
Qed.

Lemma dict_keys_set_absent (d : pydict V) (k : string) (v : V) :
  dict_get d k = None -> dict_keys (dict_set d k v) = dict_keys d ++ [k].
Proof.
  unfold dict_keys. induction d as [| [k' v'] d IH]; cbn [dict_get dict_set map fst app];
    [reflexivity |].
  destruct (String.eqb k' k); [discriminate |]. intros Hnone. cbn [map fst].
  now rewrite IH.
Qed.

(** Under distinct keys, [del d[k]] removes the entries of key [k]. *)

Lemma dict_del_filter (d : pydict V) (k : string) :
  NoDup (dict_keys d) ->
  dict_del d k = List.filter (fun kv => negb (String.eqb (fst kv) k)) d.
Proof.
  unfold dict_keys. induction d as [| [k' v'] d IH]; cbn [dict_del List.filter map fst];
    [reflexivity |].
  rewrite NoDup_cons. intros [Hout Hnd].
  destruct (String.eqb_spec k' k) as [-> | Hne]; cbn [negb].
  - clear IH. induction d as [| [k1 v1] d IH]; cbn [List.filter fst]; [reflexivity |].
    cbn [map fst] in Hout, Hnd. rewrite not_elem_of_cons in Hout.
    destruct Hout as [Hk1 Hout]. rewrite NoDup_cons in Hnd. destruct Hnd as [_ Hnd].
    destruct (String.eqb_spec k1 k) as [-> | _]; [now contradiction Hk1 |].
    cbn [negb]. f_equal. now apply IH.
  - f_equal. now apply IH.
Qed.

Lemma dict_keys_filter_sub (f : string * V -> bool) (d : pydict V) (k : string) :
  k ∈ dict_keys (List.filter f d) -> k ∈ dict_keys d.
Proof.
  unfold dict_keys. induction d as [| kv d IH]; cbn [List.filter map]; [auto |].
  destruct (f kv); cbn [map]; rewrite ?elem_of_cons; [intros [-> | Hin] |]; auto.
Qed.

Lemma dict_keys_filter_NoDup (f : string * V -> bool) (d : pydict V) :
  NoDup (dict_keys d) -> NoDup (dict_keys (List.filter f d)).
Proof.
  induction d as [| kv d IH]; cbn [List.filter]; [auto |].
  unfold dict_keys in *. cbn [map]. rewrite NoDup_cons. intros [Hout Hnd].
  destruct (f kv); cbn [map]; [| now apply IH].
  apply NoDup_cons. split; [| now apply IH].
  intros Hin. apply Hout. now apply (dict_keys_filter_sub f).
Qed.

Lemma dict_del_NoDup (d : pydict V) (k : string) :
  NoDup (dict_keys d) -> NoDup (dict_keys (dict_del d k)).
Proof.
  intros Hnd. rewrite dict_del_filter by exact Hnd. now apply dict_keys_filter_NoDup.
Qed.

Lemma dict_del_length (d : pydict V) (k : string) :
  k ∈ dict_keys d -> S (length (dict_del d k)) = length d.
Proof.
  unfold dict_keys. induction d as [| [k' v'] d IH]; cbn [dict_del map fst length].
  - intros Hin. now apply elem_of_nil in Hin.
  - rewrite elem_of_cons. destruct (String.eqb_spec k' k) as [-> | Hne]; [reflexivity |].
    intros [-> | Hin]; [now contradiction Hne |]. cbn [length]. now rewrite IH.
Qed.

Lemma dict_del_absent (d : pydict V) (k : string) :
  NoDup (dict_keys d) -> k ∉ dict_keys (dict_del d k).
Proof.
  unfold dict_keys. induction d as [| [k' v'] d IH]; cbn [dict_del map fst].
  - intros _. apply not_elem_of_nil.
  - rewrite NoDup_cons. intros [Hout Hnd].
    destruct (String.eqb_spec k' k) as [-> | Hne]; [exact Hout |].
    cbn [map fst]. rewrite not_elem_of_cons. split; [congruence | now apply IH].
Qed.

Lemma dict_get_del_ne (d : pydict V) (k k0 : string) :
  k0 <> k -> dict_get (dict_del d k) k0 = dict_get d k0.
Proof.
  intros Hne. induction d as [| [k' v'] d IH]; cbn [dict_del dict_get]; [reflexivity |].
  destruct (String.eqb_spec k' k) as [-> | Hk]; cbn [dict_get].
  - destruct (String.eqb_spec k k0); [congruence | reflexivity].
  - now rewrite IH.
Qed.

Lemma dict_set_NoDup (d : pydict V) (k : string) (v : V) :
  NoDup (dict_keys d) -> NoDup (dict_keys (dict_set d k v)).
Proof.
  intros Hnd. destruct (dict_get d k) as [v0 |] eqn:Hget.
  - now rewrite (dict_keys_set_present d k v v0 Hget).
  - rewrite (dict_keys_set_absent d k v Hget). apply NoDup_app.
    split; [exact Hnd |]. split; [| apply NoDup_singleton].
    intros x Hx Hxk. apply list_elem_of_singleton in Hxk. subst x.
    now apply dict_get_none_keys in Hget.
Qed.

End DictKeys.

(** ** Dictionaries that share their keys *)

Section DictTables.
Context {V W : Type}.

Lemma dict_mem_same (d : pydict V) (d' : pydict W) (k : string) :
  dict_keys d = dict_keys d' -> dict_mem d k = dict_mem d' k.
Proof.
  intros Hkeys. pose proof (dict_mem_keys d k) as H1.
  unfold dict_mem in *. pose proof (dict_get_none_keys d k) as H2.
  pose proof (dict_get_none_keys d' k) as H3. rewrite Hkeys in *.
  destruct (dict_get d k), (dict_get d' k); try reflexivity; exfalso.
  - apply (proj1 H3); [reflexivity |]. now apply H1.
  - apply (proj1 H2); [reflexivity |].
    destruct (decide (k ∈ dict_keys d')) as [Hin | Hout]; [exact Hin |].
    apply H3 in Hout. discriminate.
Qed.

Lemma dict_keys_set_same (d : pydict V) (d' : pydict W) (k : string) (v : V) (w : W) :
  dict_keys d = dict_keys d' ->
  dict_keys (dict_set d k v) = dict_keys (dict_set d' k w).
Proof.
  unfold dict_keys. revert d'.
  induction d as [| [k1 v1] d IH]; intros [| [k2 w2] d']; cbn [map fst dict_set];
    try discriminate; [reflexivity |].
  intros [= -> Hkeys]. destruct (String.eqb k2 k); cbn [map fst]; [now rewrite Hkeys |].
  f_equal. now apply IH.
Qed.

Lemma dict_keys_del_same (d : pydict V) (d' : pydict W) (k : string) :
  dict_keys d = dict_keys d' ->
  dict_keys (dict_del d k) = dict_keys (dict_del d' k).
Proof.
  unfold dict_keys. revert d'.
  induction d as [| [k1 v1] d IH]; intros [| [k2 w2] d']; cbn [map fst dict_del];
    try discriminate; [reflexivity |].
  intros [= -> Hkeys]. destruct (String.eqb k2 k); cbn [map fst]; [exact Hkeys |].
  f_equal. now apply IH.
Qed.

End DictTables.

(** ** The pattern cache: its tables *)

Lemma Qlt_bool_lt (a b : Q) : Qlt_bool a b = true <-> a < b.
Proof.
  unfold Qlt_bool. rewrite negb_true_iff. split.
  - apply Qle_bool_false.
  - intros Hlt. destruct (Qle_bool b a) eqn:E; [| reflexivity].
    apply Qle_bool_iff in E. lra.
Qed.

Lemma Qlt_bool_ge (a b : Q) : Qlt_bool a b = false <-> b <= a.
Proof. unfold Qlt_bool. rewrite negb_false_iff. apply Qle_bool_iff. Qed.

Section DictEntries.
Context {V : Type}.

Lemma dict_get_In (d : pydict V) (k : string) (v : V) :
  dict_get d k = Some v -> In (k, v) d.
Proof.
  induction d as [| [k' v'] d IH]; cbn [dict_get]; [discriminate |].
  destruct (String.eqb_spec k' k) as [-> | Hne].
  - intros [= ->]. now left.
  - intros Hget. right. now apply IH.
Qed.

Lemma dict_In_get (d : pydict V) (k : string) (v : V) :
  NoDup (dict_keys d) -> In (k, v) d -> dict_get d k = Some v.
Proof.
  unfold dict_keys. induction d as [| [k' v'] d IH]; cbn [dict_get map fst];
    [contradiction |].
  rewrite NoDup_cons. intros [Hout Hnd] [[= -> ->] | Hin].
  - now rewrite String.eqb_refl.
  - destruct (String.eqb_spec k' k) as [-> | Hne]; [| now apply IH].
    exfalso. apply Hout. apply list_elem_of_In, in_map_iff. now exists (k, v).
Qed.

Lemma dict_get_keys (d : pydict V) (k : string) (v : V) :
  dict_get d k = Some v -> k ∈ dict_keys d.
Proof.
  intros Hget. destruct (decide (k ∈ dict_keys d)) as [Hin | Hout]; [exact Hin |].
  apply dict_get_none_keys in Hout. congruence.
Qed.

End DictEntries.

Lemma min_by_value_spec (best : string * Q) (items : list (string * Q)) :
  In (PatternMemoryCache.min_by_value best items) (best :: items) /\
  forall x, In x (best :: items) ->
            snd (PatternMemoryCache.min_by_value best items) <= snd x.
Proof.
  revert best. induction items as [| y items IH]; intros best;
    cbn [PatternMemoryCache.min_by_value].
  - split; [now left |]. intros x [<- | []]. apply Qle_refl.
  - destruct (IH (if Qlt_bool (snd y) (snd best) then y else best)) as [Hin Hmin].
    split.
    + destruct Hin as [Heq | Hin]; [| right; right; exact Hin].
      rewrite <- Heq. destruct (Qlt_bool _ _); [right; left | left]; reflexivity.
    + intros x Hx.
      pose proof (Hmin _ (or_introl eq_refl)) as Hb.
      destruct (Qlt_bool (snd y) (snd best)) eqn:E.
      * apply Qlt_bool_lt in E.
        destruct Hx as [<- | [<- | Hx]]; [lra | exact Hb | apply Hmin; now right].
      * apply Qlt_bool_ge in E.
        destruct Hx as [<- | [<- | Hx]]; [exact Hb | lra | apply Hmin; now right].
Qed.

Section CacheTablesFacts.
Context `{Runtime}.
Import PatternMemoryCache CacheTables SpecCache.

(** What an eviction of the least recently used pattern does. *)
Lemma evict_lru_facts (self : t) :
  well_formed self ->
  _access_times self <> [] ->
  exists (key : string) (accessed : Q) (self' : t),
    _evict_lru self = Ok self' /\
    dict_get (_access_times self) key = Some accessed /\
    (forall k t, dict_get (_access_times self) k = Some t -> accessed <= t) /\
    _cache self' = dict_del (_cache self) key /\
    _access_times self' = dict_del (_access_times self) key /\
    S (length (_cache self')) = length (_cache self) /\
    _evictions self' = (_evictions self + 1)%Z /\
    _hits self' = _hits self /\ _misses self' = _misses self /\
    max_size self' = max_size self /\ ttl_seconds self' = ttl_seconds self /\
    well_formed self'.
Proof.
  intros [Hnd Hkeys] Hne. unfold _evict_lru.
  destruct (_access_times self) as [| first rest] eqn:Eacc; [now contradiction Hne |].
  destruct (min_by_value_spec first rest) as [Hin Hmin].
  destruct (min_by_value first rest) as [key accessed] eqn:Emin. cbn [fst snd] in *.
  remember (first :: rest) as accesses eqn:Eaccesses.
  assert (Hnd' : NoDup (dict_keys accesses))
    by (rewrite <- Hkeys; exact Hnd).
  assert (Hget : dict_get accesses key = Some accessed)
    by (now apply dict_In_get).
  assert (Hmem : dict_mem accesses key = true)
    by (unfold dict_mem; now rewrite Hget).
  assert (Hmemc : dict_mem (_cache self) key = true)
    by (rewrite (dict_mem_same (_cache self) accesses key Hkeys); exact Hmem).
  unfold dict_del_checked. rewrite Hmemc, Hmem. cbn [bind].
  exists key, accessed. eexists. split; [reflexivity |].
  split; [exact Hget |]. split.
  { intros k t Hk. apply (Hmin (k, t)). now apply dict_get_In. }
  cbn. repeat split; try reflexivity.
  - apply dict_del_length. now apply dict_mem_keys.
  - now apply dict_del_NoDup.
  - now apply dict_keys_del_same.
Qed.

(** X15. An eviction of the least recently used pattern, on a cache whose
    two dictionaries hold the same keys, removes one pattern: one whose
    access time is the least of all access times; the pattern leaves both
    dictionaries, and the eviction is counted. *)
Theorem evict_lru_least_recent (self : t) :
  well_formed self ->
  _access_times self <> [] ->
  exists (key : string) (accessed : Q) (self' : t),
    _evict_lru self = Ok self' /\
    dict_get (_access_times self) key = Some accessed /\
    (forall k t, dict_get (_access_times self) k = Some t -> accessed <= t) /\
    dict_get (_cache self') key = None /\
    dict_get (_access_times self') key = None /\
    (forall k, k <> key ->
       dict_get (_cache self') k = dict_get (_cache self) k /\
       dict_get (_access_times self') k = dict_get (_access_times self) k) /\
    S (length (_cache self')) = length (_cache self) /\
    _evictions self' = (_evictions self + 1)%Z.
Proof.
  intros Hwf Hne.
  destruct (evict_lru_facts self Hwf Hne)
    as (key & accessed & self' & Hrun & Hget & Hmin & Hc & Ha & Hlen & Hev & _).
  destruct Hwf as [Hnd Hkeys].
  exists key, accessed, self'. split; [exact Hrun |]. split; [exact Hget |].
  split; [exact Hmin |]. rewrite Hc, Ha.
  split; [apply dict_get_none_keys, dict_del_absent; exact Hnd |].
  split; [apply dict_get_none_keys, dict_del_absent; rewrite <- Hkeys; exact Hnd |].
  split; [intros k Hk; split; now apply dict_get_del_ne |].
  rewrite <- Hc. split; [exact Hlen | exact Hev].
Qed.

End CacheTablesFacts.

(** ** The pattern cache: filtering its tables *)

Section DictFilter.
Context {V : Type}.

Lemma filter_andb (f g : V -> bool) (l : list V) :
  List.filter f (List.filter g l) = List.filter (fun x => g x && f x) l.
Proof.
  induction l as [| x l IH]; cbn [List.filter]; [reflexivity |].
  destruct (g x); cbn [List.filter andb]; [destruct (f x) |]; now rewrite IH.
Qed.

Lemma dict_set_length_le (d : pydict V) (k : string) (v : V) :
  (length (dict_set d k v) <= S (length d))%nat.
Proof.
  induction d as [| [k' v'] d IH]; cbn [dict_set length]; [lia |].
  destruct (String.eqb k' k); cbn [length]; lia.
Qed.

Lemma dict_set_length_absent (d : pydict V) (k : string) (v : V) :
  dict_get d k = None -> length (dict_set d k v) = S (length d).
Proof.
  intros Hnone. rewrite <- (length_map fst). change (map fst ?x) with (dict_keys x).
  rewrite (dict_keys_set_absent d k v Hnone). unfold dict_keys.
  rewrite length_app, length_map. cbn [length]. lia.
Qed.

Lemma dict_keys_filter_key (h : string -> bool) (d : pydict V) :
  dict_keys (List.filter (fun kv => h (fst kv)) d) = List.filter h (dict_keys d).
Proof.
  unfold dict_keys. induction d as [| [k v] d IH]; cbn [List.filter map fst];
    [reflexivity |].
  destruct (h k); cbn [map fst]; now rewrite IH.
Qed.

Lemma dict_get_filter_key (h : string -> bool) (d : pydict V) (k : string) :
  dict_get (List.filter (fun kv => h (fst kv)) d) k
  = if h k then dict_get d k else None.
Proof.
  induction d as [| [k' v] d IH]; cbn [List.filter dict_get fst].
  - now destruct (h k).
  - destruct (String.eqb_spec k' k) as [-> | Hne].
    + destruct (h k) eqn:E; cbn [dict_get]; [now rewrite String.eqb_refl |].
      rewrite IH; try rewrite E; reflexivity.
    + destruct (h k'); cbn [dict_get]; [| exact IH].
      destruct (String.eqb_spec k' k); [congruence | exact IH].
Qed.

Lemma dict_get_filter (f : string * V -> bool) (d : pydict V) (k : string) :
  NoDup (dict_keys d) ->
  dict_get (List.filter f d) k
  = match dict_get d k with
    | Some v => if f (k, v) then Some v else None
    | None => None
    end.
Proof.
  unfold dict_keys. induction d as [| [k' v] d IH]; cbn [List.filter dict_get map fst];
    [reflexivity |].
  rewrite NoDup_cons. intros [Hout Hnd].
  destruct (String.eqb_spec k' k) as [-> | Hne].
  - destruct (f (k, v)); cbn [dict_get]; [now rewrite String.eqb_refl |].
    apply dict_get_none_keys. intros Hin. apply Hout.
    now apply (dict_keys_filter_sub f).
  - destruct (f (k', v)); cbn [dict_get]; [| now apply IH].
    destruct (String.eqb_spec k' k); [congruence | now apply IH].
Qed.

(** Under distinct keys, the entries whose key is the key of an entry
    selected by [f] are the entries selected by [f]. *)
Lemma filter_by_selected_keys (f : string * V -> bool) (d : pydict V) :
  NoDup (dict_keys d) ->
  List.filter
    (fun kv => negb (existsb (String.eqb (fst kv)) (map fst (List.filter f d)))) d
  = List.filter (fun kv => negb (f kv)) d.
Proof.
  intros Hnd. apply List.filter_ext_in. intros [k v] Hin. f_equal. cbn [fst].
  destruct (f (k, v)) eqn:Ef.
  - apply existsb_exists. exists k. split; [| apply String.eqb_refl].
    apply in_map_iff. exists (k, v). split; [reflexivity |].
    apply List.filter_In. now split.
  - destruct (existsb _ _) eqn:Eex; [| reflexivity].
    apply existsb_exists in Eex. destruct Eex as (k' & Hk' & Heq).
    apply String.eqb_eq in Heq. subst k'.
    apply in_map_iff in Hk'. destruct Hk' as ([k1 v1] & Hk1 & Hsel). cbn in Hk1. subst k1.
    apply List.filter_In in Hsel. destruct Hsel as [Hin1 Hf1].
    pose proof (dict_In_get d k v Hnd Hin) as G.
    pose proof (dict_In_get d k v1 Hnd Hin1) as G1.
    assert (v1 = v) by congruence. subst v1. congruence.
Qed.

End DictFilter.

Section DictFold.
Context {V W : Type}.

Lemma dict_del_keeps_key (d : pydict V) (k k0 : string) :
  k0 <> k -> k0 ∈ dict_keys d -> k0 ∈ dict_keys (dict_del d k).
Proof.
  intros Hne Hin. destruct (dict_get (dict_del d k) k0) as [v |] eqn:Hget.
  - now apply dict_get_keys in Hget.
  - rewrite dict_get_del_ne in Hget by exact Hne.
    apply dict_get_none_keys in Hget. now contradiction Hget.
Qed.

(** The loop of [evict_expired] over keys that are in both dictionaries. *)
Lemma fold_del_tables (ks : list string) (c : pydict V) (a : pydict W) :
  NoDup ks ->
  (forall k, k ∈ ks -> k ∈ dict_keys c) ->
  NoDup (dict_keys c) ->
  dict_keys c = dict_keys a ->
  fold_left
    (fun acc key =>
       do tables <- acc;
       do cache <- PatternMemoryCache.dict_del_checked (fst tables) key;
       do access_times <- PatternMemoryCache.dict_del_checked (snd tables) key;
       Ok (cache, access_times))
    ks (Ok (c, a))
  = Ok (List.filter (fun kv => negb (existsb (String.eqb (fst kv)) ks)) c,
        List.filter (fun kv => negb (existsb (String.eqb (fst kv)) ks)) a).
Proof.
  revert c a. induction ks as [| k ks IH]; intros c a Hks Hsub Hnd Hkeys.
  - cbn [fold_left existsb negb]. now rewrite !filter_all.
  - apply NoDup_cons in Hks. destruct Hks as [Hk Hks].
    assert (Hin : k ∈ dict_keys c) by (apply Hsub; left).
    assert (Hnda : NoDup (dict_keys a)) by (rewrite <- Hkeys; exact Hnd).
    assert (Hstep :
      (do cache <- PatternMemoryCache.dict_del_checked c k;
       do access_times <- PatternMemoryCache.dict_del_checked a k;
       Ok (cache, access_times)) = Ok (dict_del c k, dict_del a k)).
    { unfold PatternMemoryCache.dict_del_checked.
      rewrite <- (dict_mem_same c a k Hkeys).
      now rewrite (proj2 (dict_mem_keys c k) Hin). }
    cbn [fold_left bind fst snd]. rewrite Hstep.
    rewrite IH.
    + rewrite (dict_del_filter c k Hnd), (dict_del_filter a k Hnda), !filter_andb.
      apply f_equal. apply f_equal2; apply List.filter_ext; intros kv; cbn [existsb];
        now destruct (String.eqb (fst kv) k).
    + exact Hks.
    + intros k0 Hk0. apply dict_del_keeps_key; [| apply Hsub; now right].
      intros ->. now contradiction Hk.
    + now apply dict_del_NoDup.
    + now apply dict_keys_del_same.
Qed.

End DictFold.

(** ** The pattern cache: its operations *)

Section CacheOperations.
Context `{Runtime}.
Import PatternMemoryCache CacheTables SpecCache.

Lemma well_formed_empty_access (self : t) :
  well_formed self -> _access_times self = [] -> _cache self = [].
Proof.
  intros [_ Hkeys] Ha. rewrite Ha in Hkeys.
  destruct (_cache self); [reflexivity | discriminate].
Qed.

Lemma matches_returns (pattern : PatternFingerprint.t) (event : TelemetryEvent.t)
    (threshold : Q) (tys : list json) :
  PatternFingerprint.event_arg_types event = Ok tys ->
  exists matched, PatternFingerprint.matches pattern event threshold = Ok matched.
Proof.
  intros Htys. unfold PatternFingerprint.matches. rewrite Htys. cbn [bind].
  eexists. reflexivity.
Qed.

(** What [add_pattern] keeps. *)
Lemma add_pattern_facts (self : t) (event : TelemetryEvent.t) (time : nat -> Q)
    (tys : list json) :
  well_formed self ->
  PatternFingerprint.event_arg_types event = Ok tys ->
  exists self',
    add_pattern self event time = Ok self' /\
    well_formed self' /\
    max_size self' = max_size self /\ ttl_seconds self' = ttl_seconds self /\
    _hits self' = _hits self /\ _misses self' = _misses self /\
    ((1 <= max_size self)%Z ->
     (Z.of_nat (length (_cache self)) <= max_size self)%Z ->
     (Z.of_nat (length (_cache self')) <= max_size self)%Z).
Proof.
  intros Hwf Htys.
  destruct (create_fingerprint_ok event (time 0%nat) tys Htys) as (fp & Efp & Hkey & _).
  unfold add_pattern. rewrite Efp. cbn [bind]. rewrite Hkey.
  destruct (dict_get (_cache self) (event_key event)) as [pattern |] eqn:Hget.
  - eexists. split; [reflexivity |]. destruct Hwf as [Hnd Hkeys]. cbn.
    split; [split; [now apply dict_set_NoDup | now apply dict_keys_set_same] |].
    do 4 (split; [reflexivity |]).
    intros _ Hle. now rewrite (dict_length_set_present _ _ _ pattern Hget).
  - destruct (max_size self <=? Z.of_nat (length (_cache self)))%Z eqn:Efull.
    + destruct (_access_times self) as [| first rest] eqn:Eacc.
      * pose proof (well_formed_empty_access self Hwf Eacc) as Hc.
        unfold _evict_lru. rewrite Eacc. cbn [bind].
        eexists. split; [reflexivity |]. cbn. rewrite Hc, Eacc. cbn.
        split; [split; [apply NoDup_singleton | reflexivity] |].
        do 4 (split; [reflexivity |]). intros; lia.
      * destruct (evict_lru_facts self Hwf)
          as (key & accessed & self1 & Hrun & _ & _ & Hc & Ha & Hlen & _
              & Hh & Hm & Hmax & Httl & [Hnd1 Hkeys1]);
          [rewrite Eacc; discriminate |].
        rewrite Hrun. cbn [bind]. eexists. split; [reflexivity |]. cbn.
        split; [split; [now apply dict_set_NoDup | now apply dict_keys_set_same] |].
        split; [exact Hmax |]. split; [exact Httl |].
        split; [exact Hh |]. split; [exact Hm |].
        intros _ Hle.
        pose proof (dict_set_length_le (_cache self1) (event_key event) fp). lia.
    + apply Z.leb_gt in Efull. cbn [bind]. destruct Hwf as [Hnd Hkeys].
      eexists. split; [reflexivity |]. cbn.
      split; [split; [now apply dict_set_NoDup | now apply dict_keys_set_same] |].
      do 4 (split; [reflexivity |]).
      intros _ _. rewrite dict_set_length_absent by exact Hget. lia.
Qed.

(** What [check_match] does. *)
Lemma check_match_facts (self : t) (event : TelemetryEvent.t) (threshold : Q)
    (time : nat -> Q) (tys : list json) :
  well_formed self ->
  PatternFingerprint.event_arg_types event = Ok tys ->
  exists self' matched,
    check_match self event threshold time = Ok (self', matched) /\
    well_formed self' /\
    max_size self' = max_size self /\ ttl_seconds self' = ttl_seconds self /\
    _hits self' = (if matched then _hits self + 1 else _hits self)%Z /\
    _misses self' = (if matched then _misses self else _misses self + 1)%Z /\
    _evictions self' = _evictions self /\
    (length (_cache self') <= length (_cache self))%nat /\
    (matched = true ->
     exists pattern,
       dict_get (_cache self) (event_key event) = Some pattern /\
       expired self (time 0%nat) pattern = false /\
       PatternFingerprint.matches pattern event threshold = Ok true) /\
    (forall pattern,
       dict_get (_cache self) (event_key event) = Some pattern ->
       expired self (time 0%nat) pattern = true ->
       matched = false /\
       dict_get (_cache self') (event_key event) = None /\
       dict_get (_access_times self') (event_key event) = None).
Proof.
  intros [Hnd Hkeys] Htys. unfold check_match. fold (event_key event).
  destruct (dict_get (_cache self) (event_key event)) as [pattern |] eqn:Hget.
  - fold (expired self (time 0%nat) pattern).
    destruct (expired self (time 0%nat) pattern) eqn:Eexp.
    + assert (Hmem : dict_mem (_cache self) (event_key event) = true)
        by (unfold dict_mem; now rewrite Hget).
      unfold dict_del_checked.
      rewrite <- (dict_mem_same (_cache self) (_access_times self) _ Hkeys), Hmem.
      cbn [bind]. do 2 eexists. split; [reflexivity |]. cbn.
      split; [split; [now apply dict_del_NoDup | now apply dict_keys_del_same] |].
      do 5 (split; [reflexivity |]).
      split.
      { apply dict_mem_keys in Hmem.
        pose proof (dict_del_length (_cache self) (event_key event) Hmem). lia. }
      split; [discriminate |].
      intros pattern' _ _. split; [reflexivity |].
      split; apply dict_get_none_keys, dict_del_absent; [| rewrite <- Hkeys]; exact Hnd.
    + destruct (matches_returns pattern event threshold tys Htys) as (matched & Hm).
      rewrite Hm. cbn [bind]. destruct matched.
      * do 2 eexists. split; [reflexivity |]. cbn.
        split; [split; [now apply dict_set_NoDup | now apply dict_keys_set_same] |].
        do 5 (split; [reflexivity |]).
        split; [now rewrite (dict_length_set_present _ _ _ pattern Hget) |].
        split; [intros _; exists pattern; auto |].
        intros pattern' [= <-] Hexp. congruence.
      * do 2 eexists. split; [reflexivity |]. cbn.
        split; [split; assumption |].
        do 5 (split; [reflexivity |]). split; [lia |].
        split; [discriminate |].
        intros pattern' [= <-] Hexp. congruence.
  - do 2 eexists. split; [reflexivity |]. cbn.
    split; [split; assumption |].
    do 5 (split; [reflexivity |]). split; [lia |].
    split; [discriminate |]. intros pattern' Hp. congruence.
Qed.

(** What [evict_expired] does. *)
Lemma evict_expired_facts (self : t) (current_time : Q) :
  well_formed self ->
  exists self',
    evict_expired self current_time
      = Ok (self',
            Z.of_nat (length (List.filter
                                (fun kv => expired self current_time (snd kv))
                                (_cache self)))) /\
    _cache self'
      = List.filter (fun kv => negb (expired self current_time (snd kv))) (_cache self) /\
    (forall k, dict_get (_cache self') k <> None ->
               dict_get (_access_times self') k = dict_get (_access_times self) k) /\
    (forall k, dict_get (_cache self') k = None ->
               dict_get (_access_times self') k = None) /\
    _evictions self'
      = (_evictions self
         + Z.of_nat (length (List.filter
                               (fun kv => expired self current_time (snd kv))
                               (_cache self))))%Z /\
    well_formed self' /\
    max_size self' = max_size self /\ ttl_seconds self' = ttl_seconds self /\
    _hits self' = _hits self /\ _misses self' = _misses self.
Proof.
  intros [Hnd Hkeys]. unfold evict_expired. cbn zeta.
  change (fun kv : string * PatternFingerprint.t =>
            Qlt_bool (inject_Z (ttl_seconds self))
              (current_time - PatternFingerprint.timestamp (snd kv)))
    with (fun kv : string * PatternFingerprint.t => expired self current_time (snd kv)).
  set (sel := fun kv : string * PatternFingerprint.t => expired self current_time (snd kv)).
  set (ks := map fst (List.filter sel (_cache self))).
  rewrite (fold_del_tables ks (_cache self) (_access_times self)).
  2:{ apply (dict_keys_filter_NoDup sel). exact Hnd. }
  2:{ intros k. apply (dict_keys_filter_sub sel). }
  2:{ exact Hnd. }
  2:{ exact Hkeys. }
  cbn [bind fst snd].
  set (h := fun k : string => negb (existsb (String.eqb k) ks)).
  pose proof (dict_get_filter_key h (_cache self)) as Gc. cbn beta in Gc.
  pose proof (dict_get_filter_key h (_access_times self)) as Ga. cbn beta in Ga.
  pose proof (dict_keys_filter_key h (_cache self)) as Kc. cbn beta in Kc.
  pose proof (dict_keys_filter_key h (_access_times self)) as Ka. cbn beta in Ka.
  subst h. cbn beta in *.
  assert (Hlen : length ks = length (List.filter sel (_cache self)))
    by (subst ks; apply length_map).
  rewrite Hlen.
  eexists. split; [reflexivity |].
  unfold well_formed.
  cbn [_cache _access_times _evictions _hits _misses max_size ttl_seconds
       with_counters with_tables].
  split; [subst ks; now apply filter_by_selected_keys |].
  split.
  { intros k Hk. rewrite Gc in Hk. rewrite Ga.
    destruct (negb (existsb (String.eqb k) ks)); [reflexivity | now contradiction Hk]. }
  split.
  { intros k Hk. rewrite Gc in Hk. rewrite Ga.
    destruct (negb (existsb (String.eqb k) ks)); [| reflexivity].
    apply dict_get_none_keys. rewrite <- Hkeys. now apply dict_get_none_keys. }
  split; [reflexivity |].
  split.
  { split.
    - apply (dict_keys_filter_NoDup
               (fun kv => negb (existsb (String.eqb (fst kv)) ks))). exact Hnd.
    - rewrite Kc, Ka. now rewrite Hkeys. }
  repeat split; reflexivity.
Qed.

Lemma evict_lru_ttl (self self' : t) :
  _evict_lru self = Ok self' ->
  ttl_seconds self' = ttl_seconds self /\ _hits self' = _hits self.
Proof.
  unfold _evict_lru. destruct (_access_times self) as [| first rest];
    [now intros [= <-] |].
  destruct (dict_del_checked (_cache self) _); cbn [bind]; [| discriminate].
  destruct (dict_del_checked _ _); cbn [bind]; [| discriminate].
  now intros [= <-].
Qed.

End CacheOperations.

(** ** The pattern cache: what a user of it sees *)

Section CacheUse.
Context `{Runtime}.
Import PatternMemoryCache CacheTables SpecCache.

(** X16. The cache respects its capacity: on a cache with [max_size] at
    least 1 that holds at most [max_size] patterns, [add_pattern] of an
    event whose argument types can be listed returns and leaves at most
    [max_size] patterns. *)
Theorem add_pattern_capacity (self : t) (event : TelemetryEvent.t) (time : nat -> Q)
    (tys : list json) :
  well_formed self ->
  PatternFingerprint.event_arg_types event = Ok tys ->
  (1 <= max_size self)%Z ->
  (Z.of_nat (length (_cache self)) <= max_size self)%Z ->
  exists self',
    add_pattern self event time = Ok self' /\
    (Z.of_nat (length (_cache self')) <= max_size self')%Z /\
    exists pattern, dict_get (_cache self') (event_key event) = Some pattern.
Proof.
  intros Hwf Htys Hmax Hlen.
  destruct (add_pattern_facts self event time tys Hwf Htys)
    as (self' & Hrun & _ & Hm & _ & _ & _ & Hcap).
  exists self'. split; [exact Hrun |]. split; [rewrite Hm; now apply Hcap |].
  destruct (dict_get (_cache self) (event_key event)) as [pattern |] eqn:Hget.
  - destruct (create_fingerprint_ok event (time 0%nat) tys Htys) as (fp & Efp & Hkey & _).
    unfold add_pattern in Hrun. rewrite Efp in Hrun. cbn [bind] in Hrun.
    rewrite Hkey, Hget in Hrun. injection Hrun as <-. cbn.
    eexists. apply dict_get_set_eq.
  - destruct (add_pattern_new self self' event time Hget Hrun) as (fp & _ & Hfp).
    now exists fp.
Qed.

(** X17. The operations of the cache never fail on a missing key: a new
    cache holds the same keys in its two dictionaries, each once, and on such
    a cache [add_pattern], [check_match] (for events whose argument types
    can be listed) and [evict_expired] return and leave such a cache. *)
Theorem cache_operations_return :
  (forall ttl size : Z, well_formed (__init__ ttl size)) /\
  (forall (self : t) (event : TelemetryEvent.t) (time : nat -> Q) (tys : list json),
     well_formed self ->
     PatternFingerprint.event_arg_types event = Ok tys ->
     exists self', add_pattern self event time = Ok self' /\ well_formed self') /\
  (forall (self : t) (event : TelemetryEvent.t) (threshold : Q) (time : nat -> Q)
          (tys : list json),
     well_formed self ->
     PatternFingerprint.event_arg_types event = Ok tys ->
     exists self' matched,
       check_match self event threshold time = Ok (self', matched) /\
       well_formed self') /\
  (forall (self : t) (current_time : Q),
     well_formed self ->
     exists self' evicted,
       evict_expired self current_time = Ok (self', evicted) /\ well_formed self').
Proof.
  split; [| split; [| split]].
  - intros ttl size. split; [apply NoDup_nil_2 | reflexivity].
  - intros self event time tys Hwf Htys.
    destruct (add_pattern_facts self event time tys Hwf Htys) as (self' & Hrun & Hwf' & _).
    now exists self'.
  - intros self event threshold time tys Hwf Htys.
    destruct (check_match_facts self event threshold time tys Hwf Htys)
      as (self' & matched & Hrun & Hwf' & _).
    now exists self', matched.
  - intros self current_time Hwf.
    destruct (evict_expired_facts self current_time Hwf)
      as (self' & Hrun & _ & _ & _ & _ & Hwf' & _).
    eexists. eexists. split; [exact Hrun | exact Hwf'].
Qed.

(** X18. Every [check_match] counts: it adds one to the hits when it
    returns [True] and one to the misses when it returns [False], and never
    adds a pattern.  It returns [True] only for a stored pattern that has
    not expired and matches; a stored pattern older than the time to live is
    reported as a miss and leaves both dictionaries. *)
Theorem check_match_counts (self : t) (event : TelemetryEvent.t) (threshold : Q)
    (time : nat -> Q) (tys : list json) :
  well_formed self ->
  PatternFingerprint.event_arg_types event = Ok tys ->
  exists self' matched,
    check_match self event threshold time = Ok (self', matched) /\
    _hits self' = (if matched then _hits self + 1 else _hits self)%Z /\
    _misses self' = (if matched then _misses self else _misses self + 1)%Z /\
    (length (_cache self') <= length (_cache self))%nat /\
    (matched = true ->
     exists pattern,
       dict_get (_cache self) (event_key event) = Some pattern /\
       time 0%nat - PatternFingerprint.timestamp pattern <= inject_Z (ttl_seconds self) /\
       PatternFingerprint.matches pattern event threshold = Ok true) /\
    (forall pattern,
       dict_get (_cache self) (event_key event) = Some pattern ->
       inject_Z (ttl_seconds self) < time 0%nat - PatternFingerprint.timestamp pattern ->
       matched = false /\
       dict_get (_cache self') (event_key event) = None /\
       dict_get (_access_times self') (event_key event) = None).
Proof.
  intros Hwf Htys.
  destruct (check_match_facts self event threshold time tys Hwf Htys)
    as (self' & matched & Hrun & _ & _ & _ & Hh & Hm & _ & Hlen & Htrue & Hexp).
  exists self', matched. split; [exact Hrun |]. split; [exact Hh |].
  split; [exact Hm |]. split; [exact Hlen |]. split.
  - intros Hmatched. destruct (Htrue Hmatched) as (pattern & Hget & Hfresh & Hmatch).
    exists pattern. split; [exact Hget |]. split; [| exact Hmatch].
    now apply Qlt_bool_ge in Hfresh.
  - intros pattern Hget Hold. apply (Hexp pattern Hget).
    now apply Qlt_bool_lt.
Qed.

(** X19. [evict_expired] removes the patterns older than the time to live
    and no other: the patterns that stay are the stored patterns that have
    not expired, in their order and with their access times; the call
    returns the number of patterns removed and adds it to the evictions. *)
Theorem evict_expired_spec (self : t) (current_time : Q) :
  well_formed self ->
  exists (self' : t) (evicted : nat),
    evict_expired self current_time = Ok (self', Z.of_nat evicted) /\
    _cache self'
      = List.filter (fun kv => negb (expired self current_time (snd kv))) (_cache self) /\
    (forall k,
       dict_get (_cache self') k
       = match dict_get (_cache self) k with
         | Some pattern => if expired self current_time pattern then None else Some pattern
         | None => None
         end) /\
    (forall k, dict_get (_cache self') k <> None ->
               dict_get (_access_times self') k = dict_get (_access_times self) k) /\
    (forall k, dict_get (_cache self') k = None ->
               dict_get (_access_times self') k = None) /\
    (evicted + length (_cache self') = length (_cache self))%nat /\
    _evictions self' = (_evictions self + Z.of_nat evicted)%Z.
Proof.
  intros Hwf.
  destruct (evict_expired_facts self current_time Hwf)
    as (self' & Hrun & Hc & Hkeep & Hgone & Hev & _).
  exists self'. eexists. split; [exact Hrun |]. split; [exact Hc |].
  split.
  { intros k. rewrite Hc. rewrite dict_get_filter by apply Hwf.
    destruct (dict_get (_cache self) k) as [pattern |]; [| reflexivity].
    cbn [snd]. now destruct (expired self current_time pattern). }
  split; [exact Hkeep |]. split; [exact Hgone |]. split; [| exact Hev].
  rewrite Hc. clear. induction (_cache self) as [| kv d IH]; cbn [List.filter length];
    [reflexivity |].
  destruct (expired self current_time (snd kv)); cbn [negb length]; lia.
Qed.

(** X20. A pattern is recognised after it has been learned: when
    [add_pattern] stores an event of non-negative duration under a key that
    was not in the cache, [check_match] of the same event at the default
    threshold, made while the pattern has not expired, returns [True] and
    counts a hit. *)
Theorem add_pattern_then_check_match (self self1 : t) (event : TelemetryEvent.t)
    (time time' : nat -> Q) :
  dict_get (_cache self) (event_key event) = None ->
  add_pattern self event time = Ok self1 ->
  0 <= TelemetryEvent.duration_ms event ->
  time' 0%nat - time 0%nat <= inject_Z (ttl_seconds self) ->
  exists self2,
    check_match self1 event 0.85 time' = Ok (self2, true) /\
    _hits self2 = (_hits self1 + 1)%Z.
Proof.
  intros Hnone Hadd Hpos Hfresh.
  destruct (add_pattern_new self self1 event time Hnone Hadd) as (fp & Efp & Hget).
  assert (Httl : ttl_seconds self1 = ttl_seconds self).
  { unfold add_pattern in Hadd. rewrite Efp in Hadd. cbn [bind] in Hadd.
    assert (Hkey : PatternFingerprint.to_key fp = event_key event).
    { unfold _create_fingerprint in Efp.
      destruct (PatternFingerprint.event_arg_types event); cbn [bind] in Efp;
        [| discriminate].
      injection Efp as <-. reflexivity. }
    rewrite Hkey, Hnone in Hadd.
    destruct (max_size self <=? Z.of_nat (length (_cache self)))%Z.
    - destruct (_evict_lru self) as [self0 | x] eqn:Eev; cbn [bind] in Hadd;
        [| discriminate].
      injection Hadd as <-. cbn. now apply evict_lru_ttl in Eev.
    - cbn [bind] in Hadd. injection Hadd as <-. reflexivity. }
  unfold _create_fingerprint in Efp.
  destruct (PatternFingerprint.event_arg_types event) as [tys | x] eqn:Htys;
    cbn [bind] in Efp; [| discriminate].
  destruct (matches_threshold_facts fp event tys Htys) as (matched & Hm & _ & Hsuff).
  assert (Hmatched : matched = true).
  { injection Efp as <-. apply Hsuff; try reflexivity.
    unfold in_range. cbn. split; lra. }
  subst matched.
  unfold check_match. fold (event_key event). rewrite Hget.
  assert (Hts : PatternFingerprint.timestamp fp = time 0%nat)
    by (injection Efp as <-; reflexivity).
  rewrite Hts, Httl.
  rewrite (proj2 (Qlt_bool_ge _ _) Hfresh). rewrite Hm. cbn [bind].
  eexists. split; reflexivity.
Qed.

(** X21. An event of negative duration is never recognised: the pattern
    [add_pattern] stores for it under a new key has an empty duration range,
    and [check_match] at the default threshold returns [False] for every
    event under this key, the event itself included. *)
Theorem negative_duration_never_matches (self self1 : t)
    (event event' : TelemetryEvent.t) (time time' : nat -> Q) (tys : list json) :
  well_formed self ->
  dict_get (_cache self) (event_key event) = None ->
  add_pattern self event time = Ok self1 ->
  TelemetryEvent.duration_ms event < 0 ->
  event_key event' = event_key event ->
  PatternFingerprint.event_arg_types event' = Ok tys ->
  exists self2, check_match self1 event' 0.85 time' = Ok (self2, false).
Proof.
  intros Hwf Hnone Hadd Hneg Hkey Htys.
  destruct (add_pattern_new self self1 event time Hnone Hadd) as (fp & Efp & Hget).
  assert (Hwf1 : well_formed self1).
  { unfold _create_fingerprint in Efp.
    destruct (PatternFingerprint.event_arg_types event) as [tys0 | x] eqn:Htys0;
      cbn [bind] in Efp; [| discriminate].
    destruct (add_pattern_facts self event time tys0 Hwf Htys0) as (s & Hs & Hwfs & _).
    congruence. }
  destruct (check_match_facts self1 event' 0.85 time' tys Hwf1 Htys)
    as (self2 & matched & Hrun & _ & _ & _ & _ & _ & _ & _ & Htrue & _).
  exists self2. rewrite Hrun. destruct matched; [| reflexivity].
  exfalso. destruct (Htrue eq_refl) as (pattern & Hget' & _ & Hmatch).
  rewrite Hkey, Hget in Hget'. injection Hget' as <-.
  destruct (matches_threshold_facts fp event' tys Htys) as (matched & Hm & Hnec & _).
  rewrite Hm in Hmatch. injection Hmatch as ->.
  destruct (Hnec eq_refl) as (_ & _ & Hdur & _).
  unfold _create_fingerprint in Efp.
  destruct (PatternFingerprint.event_arg_types event); cbn [bind] in Efp; [| discriminate].
  injection Efp as <-. unfold in_range, in_tolerance in Hdur. cbn in Hdur.
  destruct Hdur as [[H1 H2] | [H1 H2]]; lra.
Qed.

End CacheUse.

(** The pattern cache theorems on the sample cache, which holds the
    fingerprint of [f] in [m], and on a new cache. *)

Lemma sample_cache_well_formed : CacheTables.well_formed sample_cache.
Proof.
  split; [| reflexivity].
  apply NoDup_cons. split; [apply not_elem_of_nil | apply NoDup_nil_2].
Qed.

Lemma matches_conditions_witness :
  PatternFingerprint.matches sample_fingerprint (Sample.event 50) 0.85 = Ok true.
Proof.
  destruct (matches_conditions sample_fingerprint (Sample.event 50) [] eq_refl)
    as (matched & Hm & _ & Hsuff).
  rewrite Hm. f_equal. apply Hsuff; try reflexivity.
  split; vm_compute; discriminate.
Defined.

Lemma evict_lru_least_recent_witness :
  exists (key : string) (accessed : Q) (self' : PatternMemoryCache.t),
    PatternMemoryCache._evict_lru sample_cache = Ok self' /\
    dict_get (PatternMemoryCache._access_times sample_cache) key = Some accessed /\
    dict_get (PatternMemoryCache._cache self') key = None.
Proof.
  destruct (evict_lru_least_recent sample_cache sample_cache_well_formed)
    as (key & accessed & self' & Hrun & Hget & _ & Hgone & _); [discriminate |].
  exists key, accessed, self'. repeat split; assumption.
Defined.

Lemma add_pattern_capacity_witness :
  exists self',
    PatternMemoryCache.add_pattern (H := sample_runtime) sample_cache (Sample.event 60)
      (fun _ => 200) = Ok self' /\
    (Z.of_nat (length (PatternMemoryCache._cache self'))
     <= PatternMemoryCache.max_size self')%Z.
Proof.
  destruct (add_pattern_capacity (H := sample_runtime) sample_cache (Sample.event 60)
              (fun _ => 200) [] sample_cache_well_formed eq_refl)
    as (self' & Hrun & Hcap & _); [vm_compute; discriminate .. |].
  exists self'. split; assumption.
Defined.

Lemma cache_operations_return_witness :
  exists self' evicted,
    PatternMemoryCache.evict_expired sample_cache 5000 = Ok (self', evicted) /\
    CacheTables.well_formed self'.
Proof.
  destruct (cache_operations_return (H := sample_runtime)) as (_ & _ & _ & Hevict).
  exact (Hevict sample_cache 5000 sample_cache_well_formed).
Defined.

Lemma check_match_counts_witness :
  exists self' matched,
    PatternMemoryCache.check_match sample_cache (Sample.event 50) 0.85 (fun _ => 200)
      = Ok (self', matched) /\
    PatternMemoryCache._hits self'
      = (if matched then PatternMemoryCache._hits sample_cache + 1
         else PatternMemoryCache._hits sample_cache)%Z.
Proof.
  destruct (check_match_counts sample_cache (Sample.event 50) 0.85
              (fun _ => 200) [] sample_cache_well_formed eq_refl)
    as (self' & matched & Hrun & Hh & _).
  exists self', matched. split; assumption.
Defined.

Lemma evict_expired_spec_witness :
  exists (self' : PatternMemoryCache.t) (evicted : nat),
    PatternMemoryCache.evict_expired sample_cache 5000 = Ok (self', Z.of_nat evicted) /\
    PatternMemoryCache._cache self' = [].
Proof.
  destruct (evict_expired_spec sample_cache 5000
              sample_cache_well_formed)
    as (self' & evicted & Hrun & Hc & _).
  exists self', evicted. split; [exact Hrun |]. rewrite Hc. reflexivity.
Defined.

Lemma add_pattern_then_check_match_witness :
  exists self1 self2,
    PatternMemoryCache.add_pattern (H := sample_runtime)
      (PatternMemoryCache.__init__ 1800 10000) (Sample.event 50) (fun _ => 100)
      = Ok self1 /\
    PatternMemoryCache.check_match self1 (Sample.event 50) 0.85 (fun _ => 200)
      = Ok (self2, true).
Proof.
  destruct (PatternMemoryCache.add_pattern (H := sample_runtime)
              (PatternMemoryCache.__init__ 1800 10000) (Sample.event 50) (fun _ => 100))
    as [self1 | x] eqn:Eadd; [| vm_compute in Eadd; discriminate].
  destruct (add_pattern_then_check_match (H := sample_runtime)
              (PatternMemoryCache.__init__ 1800 10000) self1 (Sample.event 50)
              (fun _ => 100) (fun _ => 200) eq_refl Eadd)
    as (self2 & Hrun & _); [vm_compute; discriminate .. |].
  exists self1, self2. split; [reflexivity | exact Hrun].
Defined.

Lemma negative_duration_never_matches_witness :
  exists self1 self2,
    PatternMemoryCache.add_pattern (H := sample_runtime)
      (PatternMemoryCache.__init__ 1800 10000) (Sample.event (-5)) (fun _ => 100)
      = Ok self1 /\
    PatternMemoryCache.check_match self1 (Sample.event (-5)) 0.85 (fun _ => 200)
      = Ok (self2, false).
Proof.
  destruct (PatternMemoryCache.add_pattern (H := sample_runtime)
              (PatternMemoryCache.__init__ 1800 10000) (Sample.event (-5)) (fun _ => 100))
    as [self1 | x] eqn:Eadd; [| vm_compute in Eadd; discriminate].
  destruct (negative_duration_never_matches (H := sample_runtime)
              (PatternMemoryCache.__init__ 1800 10000) self1 (Sample.event (-5))
              (Sample.event (-5)) (fun _ => 100) (fun _ => 200) []
              (conj (NoDup_nil_2 : NoDup (dict_keys [])) eq_refl) eq_refl Eadd)
    as (self2 & Hrun); [vm_compute; reflexivity | reflexivity | reflexivity |].
  exists self1, self2. split; [reflexivity | exact Hrun].
Defined.

(** ** The audit store: what is read back *)

Section AuditReadBack.
Context `{Runtime}.
Import AuditStore AuditLines.



(** X23. What is logged is read back: after the events of [events], whose
    metadata are made of values that JSON has (no key that is not a string,
    no tuple, no [nan]), have been logged on a new store that holds a key,
    [export_logs] returns them in the order of the calls, each with the
    signature [log_event] has set, restricted to the events whose timestamp
    is in the time range asked for, both bounds included; and
    [get_event_count] is their number. *)
Theorem log_events_exported (crypto : CryptoCore.t) (key : string)
    (events : list AuditEvent.t) :
  CryptoCore._signing_key crypto = Some key ->
  Forall (fun e => AuditRuns.native e = true) events ->
  exists self,
    SpecAudit.run (__init__ crypto) (map LogEvent events) = Ok self /\
    export_logs self None None = map (signed key) events /\
    (forall start_time end_time,
       export_logs self start_time end_time
       = List.filter (in_period start_time end_time) (map (signed key) events)) /\
    get_event_count self = Z.of_nat (length events).
Proof.
  intros Hkey Hnative.
  pose proof (signed_entries_native key events Hnative) as Hsigned.
  eexists. split; [apply (log_events_run key events); exact Hkey |].
  unfold export_logs, get_event_count. cbn [log_file __init__ app].
  rewrite <- (map_map (signed key) AuditEvent.to_json).
  split; [| split].
  - rewrite export_lines_entries by exact Hsigned.
    unfold in_period. cbn [andb]. apply filter_all.
  - intros start_time end_time. now apply export_lines_entries.
  - now rewrite count_entries, length_map.
Qed.

(** X24. [get_latest_events(count)] on a log of [n] logged events, whose
    metadata are made of values that JSON has, returns the last [count] of
    them, oldest first, when [0 < count < n], and all of them when
    [count >= n]; with [count = 0] it returns all the events too, and with
    a negative [count] all but the first [-count]. *)
Theorem get_latest_events_spec (crypto : CryptoCore.t) (key : string)
    (events : list AuditEvent.t) (count : Z) :
  CryptoCore._signing_key crypto = Some key ->
  Forall (fun e => AuditRuns.native e = true) events ->
  exists self,
    SpecAudit.run (__init__ crypto) (map LogEvent events) = Ok self /\
    let n := Z.of_nat (length events) in
    let logged := map (signed key) events in
    ((n <= count)%Z -> get_latest_events self count = logged) /\
    ((0 < count < n)%Z ->
     get_latest_events self count = skipn (Z.to_nat (n - count)) logged) /\
    (count = 0%Z -> get_latest_events self count = logged) /\
    ((count < 0)%Z ->
     get_latest_events self count = skipn (Z.to_nat (- count)) logged).
Proof.
  intros Hkey Hnative.
  pose proof (signed_entries_native key events Hnative) as Hsigned.
  eexists. split; [apply (log_events_run key events); exact Hkey |].
  cbn zeta. unfold get_latest_events. cbn [log_file __init__ app].
  rewrite <- (map_map (signed key) AuditEvent.to_json).
  rewrite nonblank_entries. unfold latest_lines. rewrite !length_map.
  set (logged := map (signed key) events) in *.
  assert (Hskip : forall n, Forall (fun e => AuditRuns.native e = true) (skipn n logged)).
  { intros n. apply incl_Forall with (l1 := logged); [| exact Hsigned].
    intros e He. rewrite <- (firstn_skipn n logged). apply in_or_app. now right. }
  split; [| split; [| split]].
  - intros Hn. destruct (count <? Z.of_nat (length events))%Z eqn:E;
      [apply Z.ltb_lt in E; lia |]. now apply parse_entries.
  - intros [Hpos Hn]. rewrite (proj2 (Z.ltb_lt _ _) Hn), (proj2 (Z.ltb_lt _ _) Hpos).
    rewrite skipn_map. now apply parse_entries.
  - intros ->. destruct (0 <? Z.of_nat (length events))%Z; [| now apply parse_entries].
    change (0 <? 0)%Z with false. cbn iota.
    replace (Z.to_nat (Z.min (- 0) (Z.of_nat (length events)))) with 0%nat by lia.
    change (skipn 0 ?l) with l. now apply parse_entries.
  - intros Hneg.
    rewrite (proj2 (Z.ltb_lt count (Z.of_nat (length events))) ltac:(lia)).
    destruct (0 <? count)%Z eqn:E; [apply Z.ltb_lt in E; lia |].
    rewrite skipn_map, parse_entries by apply Hskip.
    destruct (Z.le_gt_cases (- count) (Z.of_nat (length events))) as [Hle | Hgt].
    + now rewrite Z.min_l by exact Hle.
    + rewrite Z.min_r by lia.
      rewrite !skipn_all2; [reflexivity | |]; subst logged; rewrite length_map; lia.
Qed.

End AuditReadBack.

(** The audit store theorems on a log holding a line that is no audit
    event, and on a new store under the sample key. *)


Lemma log_events_exported_witness :
  exists self,
    SpecAudit.run (H := sample_runtime) (AuditStore.__init__ sample_crypto)
      (map AuditStore.LogEvent [sample_audit_event]) = Ok self /\
    AuditStore.export_logs (H := sample_runtime) self None None
      = [AuditLines.signed (H := sample_runtime) "key" sample_audit_event] /\
    AuditStore.get_event_count self = 1%Z.
Proof.
  destruct (log_events_exported (H := sample_runtime) sample_crypto "key"
              [sample_audit_event] eq_refl)
    as (self & Hrun & Hall & _ & Hcount); [repeat constructor |].
  exists self. split; [exact Hrun |]. split; [exact Hall | exact Hcount].
Defined.

Lemma get_latest_events_spec_witness :
  exists self,
    SpecAudit.run (H := sample_runtime) (AuditStore.__init__ sample_crypto)
      (map AuditStore.LogEvent [sample_audit_event; sample_audit_event]) = Ok self /\
    AuditStore.get_latest_events (H := sample_runtime) self 0
      = map (AuditLines.signed (H := sample_runtime) "key")
            [sample_audit_event; sample_audit_event].
Proof.
  destruct (get_latest_events_spec (H := sample_runtime) sample_crypto "key"
              [sample_audit_event; sample_audit_event] 0%Z eq_refl)
    as (self & Hrun & _ & _ & Hzero & _); [repeat constructor |].
  exists self. split; [exact Hrun | exact (Hzero eq_refl)].
Defined.

(** ** The baseline profiler: the percentiles *)

Section BaselinePercentiles.
Context `{Runtime}.
Import BaselineProfiler.

Lemma Sorted_nth_le (l : list Q) (i j : nat) (x y : Q) :
  Sorted Qle l -> (i <= j)%nat ->
  nth_error l i = Some x -> nth_error l j = Some y -> x <= y.
Proof.
  intros HS. apply Sorted_StronglySorted in HS;
    [| intros a b c; apply Qle_trans].
  revert i j. induction HS as [| a l HS IH Hall]; intros i j Hij Hx Hy.
  - destruct i; discriminate.
  - destruct i as [| i], j as [| j]; cbn [nth_error] in Hx, Hy; try lia.
    + injection Hx as <-. injection Hy as <-. apply Qle_refl.
    + injection Hx as <-. rewrite List.Forall_forall in Hall.
      apply Hall. now apply nth_error_In in Hy.
    + apply (IH i j); [lia | exact Hx | exact Hy].
Qed.

Lemma sorted_In (xs : list Q) (i : nat) (x : Q) :
  nth_error (Statistics.sorted xs) i = Some x -> In x xs.
Proof.
  intros Hx. apply nth_error_In in Hx.
  apply Permutation_in with (l := Statistics.sorted xs); [| exact Hx].
  apply Permutation_sym, QSort.Permuted_sort.
Qed.

(** X25. A baseline that [compute_baseline] returns is built from at least
    [min_samples] samples; its percentiles are samples of the function and
    are in order, p50 <= p95 <= p99, and its standard deviation is not
    negative. *)
Theorem compute_baseline_percentiles (self : t) (function_name module_name : string)
    (now1 now2 : Z) (profile : BaselineProfile.t) :
  compute_baseline self function_name module_name now1 now2 = Ok (Some profile) ->
  let samples := samples_get self (key_of function_name module_name) in
  BaselineProfile.sample_count profile = Statistics.len samples /\
  (min_samples self <= BaselineProfile.sample_count profile)%Z /\
  BaselineProfile.p50_duration_ms profile <= BaselineProfile.p95_duration_ms profile /\
  BaselineProfile.p95_duration_ms profile <= BaselineProfile.p99_duration_ms profile /\
  In (BaselineProfile.p50_duration_ms profile) samples /\
  In (BaselineProfile.p95_duration_ms profile) samples /\
  In (BaselineProfile.p99_duration_ms profile) samples /\
  0 <= BaselineProfile.std_duration_ms profile.
Proof.
  intros Hrun samples.
  assert (Hn : (min_samples self <= Statistics.len samples)%Z
               /\ (1 <= Statistics.len samples)%Z).
  { unfold compute_baseline in Hrun. fold samples in Hrun.
    destruct (Statistics.len samples <? min_samples self)%Z eqn:E; [discriminate |].
    apply Z.ltb_ge in E. split; [exact E |].
    destruct samples as [| x xs]; [discriminate |].
    unfold Statistics.len. cbn [length]. lia. }
  destruct Hn as [Hmin Hone].
  destruct (compute_baseline_profile self function_name module_name now1 now2 Hmin Hone)
    as (profile' & Hrun' & Hcount & _ & Hstd & H50 & H95 & H99).
  fold samples in Hcount, Hstd, H50, H95, H99.
  rewrite Hrun in Hrun'. injection Hrun' as <-.
  set (n := Statistics.len samples) in *.
  split; [exact Hcount |]. split; [rewrite Hcount; exact Hmin |].
  split.
  { apply (Sorted_nth_le (Statistics.sorted samples) (Z.to_nat (n / 2))
             (Z.to_nat (n * 95 / 100)) _ _ (sorted_Sorted samples));
      [| exact H50 | exact H95].
    apply Z2Nat.inj_le; Z.div_mod_to_equations; lia. }
  split.
  { apply (Sorted_nth_le (Statistics.sorted samples) (Z.to_nat (n * 95 / 100))
             (Z.to_nat (n * 99 / 100)) _ _ (sorted_Sorted samples));
      [| exact H95 | exact H99].
    apply Z2Nat.inj_le; Z.div_mod_to_equations; lia. }
  split; [now apply sorted_In in H50 |].
  split; [now apply sorted_In in H95 |].
  split; [now apply sorted_In in H99 |].
  rewrite Hstd. destruct (n =? 1)%Z; [apply Qle_refl | apply py_sqrt_nonneg].
Qed.

End BaselinePercentiles.

Lemma compute_baseline_percentiles_witness :
  exists profile,
    BaselineProfiler.compute_baseline (H := sample_runtime)
      (SpecBaseline.profiler_after 20 training_events) "f" "m" 0 0 = Ok (Some profile) /\
    BaselineProfile.p50_duration_ms profile <= BaselineProfile.p95_duration_ms profile /\
    BaselineProfile.p95_duration_ms profile <= BaselineProfile.p99_duration_ms profile.
Proof.
  destruct (BaselineProfiler.compute_baseline (H := sample_runtime)
              (SpecBaseline.profiler_after 20 training_events) "f" "m" 0 0)
    as [[profile |] | x] eqn:E;
    [| vm_compute in E; discriminate E | vm_compute in E; discriminate E].
  exists profile. split; [reflexivity |].
  destruct (compute_baseline_percentiles (H := sample_runtime)
              (SpecBaseline.profiler_after 20 training_events) "f" "m" 0%Z 0%Z profile E)
    as (_ & _ & H1 & H2 & _).
  split; assumption.
Defined.

(** ** The decider: its audit trail *)

Section DeciderAudit.
Context `{Runtime}.
Import BrainCore AuditTrail.

Ltac bind_inv H :=
  match type of H with
  | bind ?r _ = Ok _ =>
      let E := fresh "E" in
      destruct r eqn:E; cbn [bind] in H; [| discriminate H]
  end.

Lemma log_decision_entry (self self' : t) (event : TelemetryEvent.t)
    (decision : Decision.t) (event_type : string) (now : Z) :
  _log_decision self event decision event_type now = Ok self' ->
  exists entry,
    lines self' = lines self ++ [AuditEvent.to_json entry] /\
    records decision entry.
Proof.
  unfold _log_decision, AuditStore.log_event. intros Hlog.
  destruct (CryptoCore.hmac_sign _ _) as [signature | x]; cbn [bind] in Hlog;
    [| discriminate].
  injection Hlog as <-. eexists. split; [reflexivity |]. now repeat split.
Qed.

Lemma cache_add_pattern_lines (self self' : t) (event : TelemetryEvent.t) (r : readings) :
  cache_add_pattern self event r = Ok self' -> lines self' = lines self.
Proof.
  unfold cache_add_pattern. destruct (pattern_cache self); intros Hadd.
  - bind_inv Hadd. now injection Hadd as <-.
  - now injection Hadd as <-.
Qed.

Lemma perform_maintenance_lines (self self' : t) (r : readings) :
  _perform_maintenance self r = Ok self' -> lines self' = lines self.
Proof.
  unfold _perform_maintenance. intros Hm. bind_inv Hm.
  cbn [pattern_cache set_stores] in Hm. destruct (pattern_cache self).
  - bind_inv Hm. now injection Hm as <-.
  - now injection Hm as <-.
Qed.

(** The audit lines one call of [process_event] writes. *)
Lemma process_event_lines (self self' : t) (event : TelemetryEvent.t) (r : readings)
    (decision : Decision.t) :
  process_event self event r = Ok (self', decision) ->
  exists entries,
    lines self' = lines self ++ map AuditEvent.to_json entries /\
    (length entries = 1 \/ length entries = 2)%nat /\
    Forall (records decision) entries.
Proof.
  unfold process_event. intros Hpe.
  bind_inv Hpe. destruct a as [self0 hit]. cbn [fst snd] in Hpe.
  assert (H0 : lines self0 = lines self).
  { destruct (pattern_cache self) as [cache |].
    - bind_inv E. injection E as <- _. reflexivity.
    - injection E as <- _. reflexivity. }
  destruct hit.
  - bind_inv Hpe. injection Hpe as <- <-.
    apply log_decision_entry in E0. destruct E0 as (entry & Hl & Hr).
    exists [entry]. cbn [map length]. rewrite Hl. unfold lines in *. cbn in *.
    rewrite H0. split; [reflexivity |]. split; [now left |].
    constructor; [exact Hr | constructor].
  - bind_inv Hpe. bind_inv Hpe.
    destruct (match a0 with
              | Some b => if BaselineProfile.is_sufficient b 20 then Some b else None
              | None => None
              end) as [baseline |].
    + bind_inv Hpe. destruct a1 as [[self1 d1] logged].
      bind_inv Hpe. bind_inv Hpe. injection Hpe as <- <-.
      assert (H1 : exists first,
                 lines self1 = lines self0 ++ map AuditEvent.to_json first /\
                 (length first <= 1)%nat /\ Forall (records d1) first).
      { destruct (Qlt_bool _ _).
        - bind_inv E2. injection E2 as <- <- _.
          apply cache_add_pattern_lines in E5.
          exists []. cbn [map length]. rewrite app_nil_r.
          split; [exact E5 |]. split; [lia | constructor].
        - destruct (Qlt_bool _ _).
          + destruct (Qlt_bool _ _).
            * bind_inv E2. bind_inv E2. injection E2 as <- <- _.
              apply cache_add_pattern_lines in E6.
              apply log_decision_entry in E5. destruct E5 as (entry & Hl & Hr).
              exists [entry]. cbn [map length]. rewrite E6, Hl.
              split; [reflexivity |]. split; [lia |].
              constructor; [exact Hr | constructor].
            * injection E2 as <- <- _. exists []. cbn [map length].
              rewrite app_nil_r. split; [reflexivity |]. split; [lia | constructor].
          + injection E2 as <- <- _. exists []. cbn [map length].
            rewrite app_nil_r. split; [reflexivity |]. split; [lia | constructor]. }
      destruct H1 as (first & Hfirst & Hlen & Hrec).
      apply log_decision_entry in E3. destruct E3 as (entry & Hl & Hr).
      assert (H3 : lines a2 = lines a1).
      { destruct (_ =? 0)%Z.
        - apply perform_maintenance_lines in E4. exact E4.
        - now injection E4 as <-. }
      exists (first ++ [entry]). rewrite map_app, length_app. cbn [map length].
      rewrite H3, Hl. unfold lines in *. cbn in *. rewrite Hfirst, H0.
      split; [now rewrite <- app_assoc |].
      split; [destruct first as [| e1 [| e2 rest]]; cbn [length] in *; lia |].
      apply Forall_app. split; [exact Hrec |]. constructor; [exact Hr | constructor].
    + bind_inv Hpe. bind_inv Hpe. bind_inv Hpe. injection Hpe as <- <-.
      assert (H1 : lines a1 = lines self0).
      { destruct (_ <=? _)%Z; [| now injection E2 as <-].
        bind_inv E2. destruct a4 as [b |]; [| now injection E2 as <-].
        bind_inv E2. now injection E2 as <-. }
      apply log_decision_entry in E3. destruct E3 as (entry & Hl & Hr).
      apply cache_add_pattern_lines in E4.
      exists [entry]. cbn [map length]. rewrite E4, Hl, H1, H0.
      split; [reflexivity |]. split; [now left |].
      constructor; [exact Hr | constructor].
Qed.

(** X26. Every decision is audited: a call of [process_event] that returns
    appends one or two entries to the audit log, after the lines that were
    there; each entry has the actor [system], the result [success] and the
    action of the decision returned. *)
Theorem process_event_audited (self self' : t) (event : TelemetryEvent.t) (r : readings)
    (decision : Decision.t) :
  process_event self event r = Ok (self', decision) ->
  exists entries,
    lines self' = lines self ++ map AuditEvent.to_json entries /\
    (length entries = 1 \/ length entries = 2)%nat /\
    Forall (records decision) entries.
Proof. exact (process_event_lines self self' event r decision). Qed.

End DeciderAudit.

Lemma process_event_audited_witness :
  exists self' decision entries,
    BrainCore.process_event (H := sample_runtime) sample_brain (Sample.event 50)
      sample_readings = Ok (self', decision) /\
    AuditTrail.lines self'
      = AuditTrail.lines sample_brain
        ++ map (AuditEvent.to_json (H := sample_runtime)) entries /\
    Forall (AuditTrail.records decision) entries.
Proof.
  destruct (BrainCore.process_event (H := sample_runtime) sample_brain (Sample.event 50)
              sample_readings) as [[self' decision] | x] eqn:E;
    [| vm_compute in E; discriminate E].
  destruct (process_event_audited (H := sample_runtime) sample_brain self'
              (Sample.event 50) sample_readings decision E)
    as (entries & Hlines & _ & Hrec).
  exists self', decision, entries. split; [reflexivity |]. split; assumption.
Defined.

(** ** The feature normalizer *)

Section NormalizerFacts.
Import Normalizer.

Lemma unit_clamp_range (x : Q) : 0 <= py_max 0 (py_min 1 x) <= 1.
Proof.
  destruct (py_min_spec 1 x) as [[H1 ->] | [H1 ->]];
    match goal with |- context [py_max 0 ?y] =>
      destruct (py_max_spec 0 y) as [[H2 ->] | [H2 ->]] end; lra.
Qed.

Lemma unit_clamp_mono (x y : Q) :
  x <= y -> py_max 0 (py_min 1 x) <= py_max 0 (py_min 1 y).
Proof.
  intros Hxy.
  destruct (py_min_spec 1 x) as [[H1 ->] | [H1 ->]];
    destruct (py_min_spec 1 y) as [[H2 ->] | [H2 ->]];
    repeat match goal with |- context [py_max 0 ?z] =>
      let H := fresh "H" in destruct (py_max_spec 0 z) as [[H ->] | [H ->]] end; lra.
Qed.

Lemma unit_clamp_one (x : Q) : 1 <= x -> py_max 0 (py_min 1 x) = 1.
Proof.
  intros Hx. destruct (py_min_spec 1 x) as [[H1 ->] | [H1 ->]]; [| lra].
  destruct (py_max_spec 0 1) as [[H2 ->] | [H2 ->]]; [lra | reflexivity].
Qed.

Lemma Qdiv_pos_mono (a b p : Q) : 0 < p -> a <= b -> a / p <= b / p.
Proof.
  intros Hp Hab. unfold Qdiv. apply Qmult_le_compat_r; [exact Hab |].
  apply Qlt_le_weak, Qinv_lt_0_compat, Hp.
Qed.

Lemma Qdiv_neg_ge_1 (d p : Q) : p < 0 -> d <= p -> 1 <= (d - 0) / (p - 0).
Proof.
  intros Hp Hd.
  assert (E : (d - 0) / (p - 0) == (- d) / (- p)) by (field; lra).
  rewrite E. apply Qle_shift_div_l; lra.
Qed.

(** The value [normalize] clamps, for a baseline of percentile [p]. *)
Lemma normalize_some (b : BaselineProfile.t) (event : TelemetryEvent.t) :
  ~ BaselineProfile.p99_duration_ms b == 0 ->
  normalize (__init__ (Some b)) event
  = py_max 0
      (py_min 1
         (((if Qlt_bool (BaselineProfile.p99_duration_ms b)
                        (TelemetryEvent.duration_ms event)
            then BaselineProfile.p99_duration_ms b
            else TelemetryEvent.duration_ms event) - 0)
          / (BaselineProfile.p99_duration_ms b - 0))).
Proof.
  intros Hp. unfold normalize. cbn [baseline __init__].
  destruct (Qeq_bool (BaselineProfile.p99_duration_ms b) 0) eqn:E;
    [apply Qeq_bool_iff in E; contradiction |]. reflexivity.
Qed.

(** X27. [normalize] returns a value between 0 and 1 for every event and
    every baseline; it does not decrease when the duration grows, and it is
    1 for a duration that reaches a positive p99 of the baseline.  Without
    a baseline, or with a p99 of 0, it is 0. *)
Theorem normalize_range (self : t) (event event' : TelemetryEvent.t) :
  0 <= normalize self event <= 1 /\
  (TelemetryEvent.duration_ms event <= TelemetryEvent.duration_ms event' ->
   normalize self event <= normalize self event') /\
  (forall b, baseline self = Some b ->
     0 < BaselineProfile.p99_duration_ms b ->
     BaselineProfile.p99_duration_ms b <= TelemetryEvent.duration_ms event ->
     normalize self event = 1) /\
  (baseline self = None -> normalize self event = 0) /\
  (forall b, baseline self = Some b ->
     BaselineProfile.p99_duration_ms b == 0 -> normalize self event = 0).
Proof.
  destruct self as [[b |]]; cbn [baseline].
  2:{ unfold normalize. cbn [baseline]. repeat split; try lra; discriminate. }
  destruct (Qeq_dec (BaselineProfile.p99_duration_ms b) 0) as [Hzero | Hne].
  { assert (Hn : forall e, normalize {| baseline := Some b |} e = 0).
    { intros e. unfold normalize. cbn [baseline].
      now rewrite (proj2 (Qeq_bool_iff _ _) Hzero). }
    rewrite !Hn. repeat split; try lra; try discriminate.
    intros b' [= <-] Hpos. lra. }
  change {| baseline := Some b |} with (__init__ (Some b)).
  rewrite !normalize_some by exact Hne.
  set (p := BaselineProfile.p99_duration_ms b) in *.
  set (d := TelemetryEvent.duration_ms event).
  set (d' := TelemetryEvent.duration_ms event').
  split; [apply unit_clamp_range |]. split; [| split; [| split]].
  - intros Hdd.
    destruct (Qlt_le_dec 0 p) as [Hpos | Hneg].
    + apply unit_clamp_mono. apply Qdiv_pos_mono; [lra |].
      destruct (Qlt_bool p d) eqn:E1; destruct (Qlt_bool p d') eqn:E2;
        try apply Qlt_bool_lt in E1; try apply Qlt_bool_ge in E1;
        try apply Qlt_bool_lt in E2; try apply Qlt_bool_ge in E2; lra.
    + assert (Hp : p < 0) by (destruct (Qlt_le_dec p 0); [assumption |];
                              exfalso; apply Hne; lra).
      rewrite !unit_clamp_one; [lra | |];
        apply Qdiv_neg_ge_1; try exact Hp.
      * destruct (Qlt_bool p d') eqn:E2;
          try apply Qlt_bool_lt in E2; try apply Qlt_bool_ge in E2; lra.
      * destruct (Qlt_bool p d) eqn:E1;
          try apply Qlt_bool_lt in E1; try apply Qlt_bool_ge in E1; lra.
  - intros b' [= <-] Hpos Hreach. fold p in Hpos, Hreach. apply unit_clamp_one.
    destruct (Qlt_bool p d) eqn:E1.
    + apply Qle_shift_div_l; lra.
    + apply Qlt_bool_ge in E1. apply Qle_shift_div_l; lra.
  - discriminate.
  - intros b' [= <-] Hz. now contradiction Hne.
Qed.

Lemma fold_min_spec (xs : list Q) (m0 : Q) :
  In (fold_left (fun m v => if Qlt_bool v m then v else m) xs m0) (m0 :: xs) /\
  forall x, In x (m0 :: xs) ->
            fold_left (fun m v => if Qlt_bool v m then v else m) xs m0 <= x.
Proof.
  revert m0. induction xs as [| y xs IH]; intros m0; cbn [fold_left].
  - split; [now left |]. intros x [<- | []]. apply Qle_refl.
  - destruct (IH (if Qlt_bool y m0 then y else m0)) as [Hin Hmin]. split.
    + destruct Hin as [Heq | Hin]; [| right; right; exact Hin].
      rewrite <- Heq. destruct (Qlt_bool y m0); [right; left | left]; reflexivity.
    + intros x Hx. pose proof (Hmin _ (or_introl eq_refl)) as Hb.
      destruct (Qlt_bool y m0) eqn:E.
      * apply Qlt_bool_lt in E.
        destruct Hx as [<- | [<- | Hx]]; [lra | exact Hb | apply Hmin; now right].
      * apply Qlt_bool_ge in E.
        destruct Hx as [<- | [<- | Hx]]; [exact Hb | lra | apply Hmin; now right].
Qed.

Lemma fold_max_spec (xs : list Q) (m0 : Q) :
  In (fold_left (fun m v => if Qlt_bool m v then v else m) xs m0) (m0 :: xs) /\
  forall x, In x (m0 :: xs) ->
            x <= fold_left (fun m v => if Qlt_bool m v then v else m) xs m0.
Proof.
  revert m0. induction xs as [| y xs IH]; intros m0; cbn [fold_left].
  - split; [now left |]. intros x [<- | []]. apply Qle_refl.
  - destruct (IH (if Qlt_bool m0 y then y else m0)) as [Hin Hmax]. split.
    + destruct Hin as [Heq | Hin]; [| right; right; exact Hin].
      rewrite <- Heq. destruct (Qlt_bool m0 y); [right; left | left]; reflexivity.
    + intros x Hx. pose proof (Hmax _ (or_introl eq_refl)) as Hb.
      destruct (Qlt_bool m0 y) eqn:E.
      * apply Qlt_bool_lt in E.
        destruct Hx as [<- | [<- | Hx]]; [lra | exact Hb | apply Hmax; now right].
      * apply Qlt_bool_ge in E.
        destruct Hx as [<- | [<- | Hx]]; [exact Hb | lra | apply Hmax; now right].
Qed.

(** X28. [normalize_batch] returns as many values as it is given, each
    between 0 and 1.  When the values are all equal (and for no value at
    all) every value returned is 0.5.  When they are not all equal, each
    value is sent, at its position, to its distance from the least value
    [lo] divided by the distance from [lo] to the greatest value [hi]: a
    value equal to the least is sent to 0 and a value equal to the greatest
    to 1. *)
Theorem normalize_batch_range (values : list Q) :
  exists out,
    normalize_batch values = Ok out /\
    length out = length values /\
    Forall (fun y => 0 <= y <= 1) out /\
    ((forall v w, In v values -> In w values -> v == w) ->
     Forall (fun y => y = 0.5) out) /\
    ((exists v w, In v values /\ In w values /\ ~ v == w) ->
     exists lo hi,
       In lo values /\ In hi values /\ lo < hi /\
       (forall w, In w values -> lo <= w <= hi) /\
       Forall2 (fun v y =>
                  y = (v - lo) / (hi - lo) /\
                  (v == lo -> y == 0) /\ (v == hi -> y == 1)) values out).
Proof.
  destruct values as [| x xs].
  { exists []. split; [reflexivity |]. split; [reflexivity |].
    split; [constructor |]. split; [intros _; constructor |].
    intros (v & _ & [] & _). }
  unfold normalize_batch, py_min_list, py_max_list. cbn [bind].
  destruct (fold_min_spec xs x) as [Hmin_in Hmin].
  destruct (fold_max_spec xs x) as [Hmax_in Hmax].
  set (mn := fold_left (fun m v => if Qlt_bool v m then v else m) xs x) in *.
  set (mx := fold_left (fun m v => if Qlt_bool m v then v else m) xs x) in *.
  destruct (Qeq_bool mx mn) eqn:E.
  - apply Qeq_bool_iff in E. eexists. split; [reflexivity |].
    split; [apply repeat_length |]. split; [| split].
    + apply List.Forall_forall. intros y Hy. apply repeat_spec in Hy. subst y. lra.
    + intros _. apply List.Forall_forall. intros y Hy. now apply repeat_spec in Hy.
    + intros (v & w & Hv & Hw & Hne). exfalso. apply Hne.
      pose proof (Hmin v Hv). pose proof (Hmax v Hv).
      pose proof (Hmin w Hw). pose proof (Hmax w Hw). lra.
  - apply Qeq_bool_neq in E.
    assert (Hlt : mn < mx).
    { pose proof (Hmax mn Hmin_in).
      destruct (Qlt_le_dec mn mx); [assumption |]. exfalso. apply E. lra. }
    eexists. split; [reflexivity |]. split; [apply length_map |]. split; [| split].
    + apply List.Forall_forall. intros y Hy. apply in_map_iff in Hy.
      destruct Hy as (v & <- & Hv). pose proof (Hmin v Hv). pose proof (Hmax v Hv).
      split; [apply Qle_shift_div_l | apply Qle_shift_div_r]; lra.
    + intros Hall. exfalso. apply E. symmetry. now apply Hall.
    + intros _. exists mn, mx.
      split; [exact Hmin_in |]. split; [exact Hmax_in |]. split; [exact Hlt |].
      split; [intros w Hw; split; [now apply Hmin | now apply Hmax] |].
      generalize (x :: xs). intros l. induction l as [| v l IH]; cbn [map];
        constructor; [| exact IH].
      split; [reflexivity |].
      split; intros Hv; rewrite Hv; field; lra.
Qed.

End NormalizerFacts.

Lemma normalize_range_witness :
  Normalizer.normalize (Normalizer.__init__ (Some (Sample.baseline 50 2))) (Sample.event 500)
  = 1.
Proof.
  destruct (normalize_range (Normalizer.__init__ (Some (Sample.baseline 50 2)))
              (Sample.event 500) (Sample.event 500)) as (_ & _ & Hcap & _).
  apply (Hcap (Sample.baseline 50 2) eq_refl); vm_compute; [reflexivity | discriminate].
Defined.

(** ** The trace store and the state store *)

Section Stores.
Import TraceBuffers BaselineRows.

(** X29. The trace buffers are bounded: on a store of non-negative capacity
    whose buffers hold at most [capacity_per_function] events, [add_event]
    returns and leaves such a store; the event is the newest of the buffer
    of its function (for a positive capacity), the buffers of the other
    functions are untouched, and the event is counted. *)
Theorem add_event_bounded (self : TraceStore.t) (event : TelemetryEvent.t) :
  (0 <= TraceStore.capacity_per_function self)%Z ->
  bounded self ->
  exists self',
    TraceStore.add_event self event = Ok self' /\
    bounded self' /\
    TraceStore.capacity_per_function self' = TraceStore.capacity_per_function self /\
    (forall key, key <> key_of event ->
       TraceStore._buffers self' !! key = TraceStore._buffers self !! key) /\
    ((0 < TraceStore.capacity_per_function self)%Z ->
     exists older, TraceStore._buffers self' !! key_of event = Some (older ++ [event])) /\
    TraceStore._total_events self' = (TraceStore._total_events self + 1)%Z.
Proof.
  intros Hcap Hb. unfold TraceStore.add_event. fold (key_of event).
  assert (Hbuf : exists buffer,
            match TraceStore._buffers self !! key_of event with
            | Some buffer => Ok buffer
            | None => if (TraceStore.capacity_per_function self <? 0)%Z
                      then Raise "ValueError" else Ok []
            end = Ok buffer /\
            (Z.of_nat (length buffer) <= TraceStore.capacity_per_function self)%Z).
  { destruct (TraceStore._buffers self !! key_of event) as [buffer |] eqn:E.
    - exists buffer. split; [reflexivity | exact (Hb _ _ E)].
    - destruct (TraceStore.capacity_per_function self <? 0)%Z eqn:En;
        [apply Z.ltb_lt in En; lia |].
      exists []. split; [reflexivity | cbn; lia]. }
  destruct Hbuf as (buffer & -> & Hlen). cbn [bind].
  eexists. split; [reflexivity |]. cbn.
  split.
  { intros key buffer'. cbn.
    destruct (String.eqb_spec key (key_of event)) as [-> | Hne].
    - rewrite lookup_insert_eq. intros [= <-]. now apply deque_append_length.
    - rewrite lookup_insert_ne by congruence. apply Hb. }
  split; [reflexivity |]. split.
  { intros key Hne. now rewrite lookup_insert_ne by congruence. }
  split; [| reflexivity].
  intros Hpos. rewrite lookup_insert_eq. unfold deque_append.
  destruct (TraceStore.capacity_per_function self =? 0)%Z eqn:E0;
    [apply Z.eqb_eq in E0; lia |].
  destruct (_ <=? _)%Z; eexists; reflexivity.
Qed.

Lemma latest_version_last (b : BaselineProfile.t) (rows : list BaselineProfile.t)
    (best : option BaselineProfile.t) :
  (forall row, In row rows ->
     (BaselineProfile.version row < BaselineProfile.version b)%Z) ->
  match best with
  | Some x => (BaselineProfile.version x < BaselineProfile.version b)%Z
  | None => True
  end ->
  StateStore.latest_version best (rows ++ [b]) = Some b.
Proof.
  revert best. induction rows as [| row rows IH]; intros best Hrows Hbest;
    cbn [app StateStore.latest_version].
  - destruct best as [x |]; [| reflexivity].
    now rewrite (proj2 (Z.ltb_lt _ _) Hbest).
  - apply IH; [intros r Hr; apply Hrows; now right |].
    assert (Hrow := Hrows row (or_introl eq_refl)).
    destruct best as [x |]; [| exact Hrow].
    destruct (_ <? _)%Z; assumption.
Qed.

(** X30. What is stored is found: after [store_baseline] of a baseline
    whose version and sample count fit an INTEGER column (64 bits with a
    sign) and whose version is not below the versions stored for its
    function, [get_baseline] for this function returns this baseline, and it
    returns what it returned before for every other function; with a
    version or a sample count that does not fit, [store_baseline] raises
    [OverflowError] and stores nothing; on a closed store both calls raise
    [RuntimeError]. *)
Theorem store_then_get_baseline (self : StateStore.t) (b : BaselineProfile.t) :
  (StateStore.conn_open self = true ->
   StateStore.sqlite_integer (BaselineProfile.version b) = true ->
   StateStore.sqlite_integer (BaselineProfile.sample_count b) = true ->
   (forall row, In row (StateStore.baselines self) ->
      of_function (BaselineProfile.function_name b) (BaselineProfile.module_name b) row ->
      (BaselineProfile.version row <= BaselineProfile.version b)%Z) ->
   exists self',
     StateStore.store_baseline self b = Ok self' /\
     StateStore.get_baseline self' (BaselineProfile.function_name b)
       (BaselineProfile.module_name b) = Ok (Some b) /\
     forall function_name module_name,
       ~ of_function function_name module_name b ->
       StateStore.get_baseline self' function_name module_name
       = StateStore.get_baseline self function_name module_name) /\
  (StateStore.conn_open self = true ->
   StateStore.sqlite_integer (BaselineProfile.version b) = false \/
   StateStore.sqlite_integer (BaselineProfile.sample_count b) = false ->
   StateStore.store_baseline self b = Raise "OverflowError") /\
  (StateStore.conn_open self = false ->
   StateStore.store_baseline self b = Raise "RuntimeError" /\
   forall function_name module_name,
     StateStore.get_baseline self function_name module_name = Raise "RuntimeError").
Proof.
  split; [| split].
  - intros Hopen Hversion Hcount Hmax. unfold StateStore.store_baseline.
    rewrite Hopen, Hversion, Hcount. cbn [andb].
    eexists. split; [reflexivity |]. unfold StateStore.get_baseline.
    cbn [StateStore.conn_open StateStore.baselines]. rewrite Hopen.
    split.
    + f_equal. rewrite List.filter_app. cbn [List.filter].
      rewrite !String.eqb_refl. cbn [andb].
      apply latest_version_last; [| exact I].
      intros row Hrow. apply List.filter_In in Hrow. destruct Hrow as [Hrow Hkey].
      apply List.filter_In in Hrow. destruct Hrow as [Hin Hnot].
      apply andb_true_iff in Hkey. destruct Hkey as [Hf Hm].
      apply String.eqb_eq in Hf. apply String.eqb_eq in Hm.
      pose proof (Hmax row Hin (conj Hf Hm)) as Hle.
      unfold StateStore.same_key in Hnot. rewrite Hf, Hm, !String.eqb_refl in Hnot.
      cbn [andb] in Hnot. apply negb_true_iff, Z.eqb_neq in Hnot. lia.
    + intros function_name module_name Hother. f_equal. f_equal.
      rewrite List.filter_app. cbn [List.filter].
      assert (Hb : String.eqb (BaselineProfile.function_name b) function_name
                   && String.eqb (BaselineProfile.module_name b) module_name = false).
      { destruct (String.eqb_spec (BaselineProfile.function_name b) function_name);
          destruct (String.eqb_spec (BaselineProfile.module_name b) module_name);
          try reflexivity.
        exfalso. apply Hother. now split. }
      rewrite Hb, app_nil_r, filter_andb. apply List.filter_ext. intros row.
      unfold StateStore.same_key.
      destruct (String.eqb_spec (BaselineProfile.function_name row) function_name)
        as [Hf | Hf];
        destruct (String.eqb_spec (BaselineProfile.module_name row) module_name)
          as [Hm | Hm]; cbn [andb]; rewrite ?andb_false_r; try reflexivity.
      destruct (String.eqb_spec (BaselineProfile.function_name row)
                  (BaselineProfile.function_name b)) as [Hf' | Hf'];
        destruct (String.eqb_spec (BaselineProfile.module_name row)
                    (BaselineProfile.module_name b)) as [Hm' | Hm'];
        cbn [andb negb]; try reflexivity.
      exfalso. apply Hother. split; congruence.
  - intros Hopen Hbig. unfold StateStore.store_baseline. rewrite Hopen.
    destruct Hbig as [-> | ->]; [reflexivity | now rewrite andb_false_r].
  - intros Hclosed. unfold StateStore.store_baseline, StateStore.get_baseline.
    rewrite Hclosed. split; [reflexivity | intros; reflexivity].
Qed.

End Stores.

Lemma add_event_bounded_witness :
  exists self',
    TraceStore.add_event (TraceStore.__init__ 1000) (Sample.event 50) = Ok self' /\
    TraceBuffers.bounded self' /\
    TraceStore._total_events self' = 1%Z.
Proof.
  destruct (add_event_bounded (TraceStore.__init__ 1000) (Sample.event 50))
    as (self' & Hrun & Hb & _ & _ & _ & Hn).
  - vm_compute. discriminate.
  - intros key buffer Hget. cbn in Hget. rewrite lookup_empty in Hget. discriminate.
  - exists self'. split; [exact Hrun |]. split; [exact Hb | exact Hn].
Defined.

Lemma store_then_get_baseline_witness :
  exists self',
    StateStore.store_baseline StateStore.__init__ (Sample.baseline 50 2) = Ok self' /\
    StateStore.get_baseline self' "f" "m" = Ok (Some (Sample.baseline 50 2)).
Proof.
  destruct (proj1 (store_then_get_baseline StateStore.__init__ (Sample.baseline 50 2)))
    as (self' & Hrun & Hget & _).
  - reflexivity.
  - reflexivity.
  - reflexivity.
  - intros row [].
  - exists self'. split; [exact Hrun | exact Hget].
Defined.
